(** * Authentication core of the e-commerce backend

    A shallow embedding of the authentication and refresh-token rotation
    code (services/authService.ts, services/customerService.ts,
    middleware/auth.ts, middleware/csrf.ts, the admin routes) and the
    properties of it that the specification states.

    Conventions.
    - A JavaScript [Date] is its [valueOf ()]: milliseconds since the epoch,
      as a [Z].  A nullable column is an [option].
    - Numbers that the code uses as integers (ids, hours) are [Z].  An
      unparsable JWT_EXPIRES_HOURS (NaN) is outside the model.
    - A JavaScript string is held as its UTF-8 encoding, one [ascii] per
      byte: [js_length] is its [length] (UTF-16 code units) and
      [code_points] the number of its characters.
    - The database is reached only through Prisma calls.  Each call used by
      the code is a function on the tables.  An insert into [refresh_tokens]
      is refused as its migration has it: when the user agent or the ip of
      the request does not fit its column, and when the owner has no row
      (the foreign keys).  The columns [familyId] and [token_hash] hold what
      the code itself makes, 32 and 64 hexadecimal digits, which fit.  The
      declaration of [admins] is not part of the source; what it refuses,
      and failures of connectivity, are outside the model.
    - [Date.now ()] and [crypto.randomBytes] are inputs from the environment:
      the world carries the sequence of values that successive calls return.
    - The libraries the code calls (sha256, bcrypt, the JWS serialisation of
      jsonwebtoken) are the fields of the class [Libs]. *)

From Stdlib Require Import ZArith List String Ascii Bool Lia.
Import ListNotations.
Local Open Scope Z_scope.
Local Open Scope string_scope.

Set Implicit Arguments.

(** ** Errors *)

(** [AppError] of middleware/errorHandler.ts. *)
Record AppError := mkAppError {
  message : string;
  statusCode : Z;
  code : string
}.

(** What a [throw] carries: an [AppError], or an error of a library
    (named as [error.name]). *)
Inductive Exn :=
| AppErr (e : AppError)
| LibErr (name : string).

Inductive Result (A : Type) :=
| Ok (a : A)
| Throw (e : Exn).
Arguments Ok {A} a.
Arguments Throw {A} e.

(** ** Tables *)

(** Rows of [admins] and [customers] (prisma models Admin, Customer). *)
Record Admin := mkAdmin {
  adm_id : Z;
  adm_name : string;
  adm_email : string;
  adm_passwordHash : string;
  adm_isActive : bool;
  adm_createdAt : Z;
  adm_lastLogin : option Z
}.

Record Customer := mkCustomer {
  cus_id : Z;
  cus_name : string;
  cus_email : string;
  cus_passwordHash : string;
  cus_isActive : bool;
  cus_createdAt : Z;
  cus_lastLogin : option Z
}.

(** Row of [refresh_tokens] (migration 20251003132033_add_refresh_tokens). *)
Record RefreshToken := mkRefreshToken {
  rt_id : Z;
  rt_adminId : option Z;
  rt_customerId : option Z;
  rt_familyId : string;
  rt_tokenHash : string;
  rt_userAgent : option string;
  rt_ip : option string;
  rt_createdAt : Z;
  rt_expiresAt : Z;
  rt_revokedAt : option Z;
  rt_replacedById : option Z
}.

(** The credential store.  [refreshTokenSeq] is the next value of the
    SERIAL sequence of [refresh_tokens.id]. *)
Record Db := mkDb {
  admins : list Admin;
  customers : list Customer;
  refreshTokens : list RefreshToken;
  refreshTokenSeq : Z
}.

(** ** The world and the monad of the asynchronous code *)

(** [history] lists the store after each write, oldest first.  [clock n] is
    what the [n]-th reading of the clock returns, [entropy n] the hex string
    of the [n]-th call of [crypto.randomBytes]. *)
Record World := mkWorld {
  db : Db;
  history : list Db;
  clock : nat -> Z;
  ticks : nat;
  entropy : nat -> string;
  draws : nat
}.

Definition M (A : Type) : Type := World -> Result A * World.

Definition ret {A} (a : A) : M A := fun w => (Ok a, w).

Definition throw {A} (e : Exn) : M A := fun w => (Throw e, w).

Definition bind {A B} (m : M A) (k : A -> M B) : M B :=
  fun w =>
    match m w with
    | (Ok a, w') => k a w'
    | (Throw e, w') => (Throw e, w')
    end.

(** [try { m } catch { h }] *)
Definition try_catch {A} (m : M A) (h : Exn -> M A) : M A :=
  fun w =>
    match m w with
    | (Ok a, w') => (Ok a, w')
    | (Throw e, w') => h e w'
    end.

Declare Scope js_scope.
Delimit Scope js_scope with js.
Notation "x <- m ;; k" := (bind m (fun x => k))
  (at level 61, m at next level, right associativity) : js_scope.
Notation "m ;; k" := (bind m (fun _ => k))
  (at level 61, right associativity) : js_scope.
Local Open Scope js_scope.

Definition throwApp {A} (msg : string) (status : Z) (c : string) : M A :=
  throw (AppErr (mkAppError msg status c)).

(** [Date.now ()] / [new Date ()] *)
Definition Date_now : M Z :=
  fun w =>
    (Ok (clock w (ticks w)),
     mkWorld (db w) (history w) (clock w) (S (ticks w)) (entropy w) (draws w)).

(** [crypto.randomBytes (n).toString ('hex')] *)
Definition randomHex : M string :=
  fun w =>
    (Ok (entropy w (draws w)),
     mkWorld (db w) (history w) (clock w) (ticks w) (entropy w) (S (draws w))).

Definition readDb : M Db := fun w => (Ok (db w), w).

Definition writeDb (d : Db) : M unit :=
  fun w =>
    (Ok tt, mkWorld d (history w ++ [d]) (clock w) (ticks w) (entropy w) (draws w)).

Definition run {A} (m : M A) (w : World) : Result A := fst (m w).
Definition exec {A} (m : M A) (w : World) : World := snd (m w).

(** ** JavaScript values *)

(** Truthiness of a string: [!s] holds of the empty string. *)
Definition truthy (s : string) : bool := negb (s =? "").

(** Truthiness of an optional string ([undefined] is falsy). *)
Definition truthy_opt (o : option string) : bool :=
  match o with
  | Some s => truthy s
  | None => false
  end.

(** Truthiness of an optional number: [null], [undefined] and [0] are falsy. *)
Definition truthy_num (o : option Z) : bool :=
  match o with
  | Some n => negb (n =? 0)%Z
  | None => false
  end.

(** The number held by an optional number that is known to be truthy. *)
Definition number (o : option Z) : Z :=
  match o with
  | Some n => n
  | None => 0
  end.

(** [x || undefined] on an optional number. *)
Definition or_undefined (o : option Z) : option Z :=
  if truthy_num o then o else None.

(** A byte [10xxxxxx] continues a character of the UTF-8 encoding. *)
Definition continuation (c : ascii) : bool :=
  let n := nat_of_ascii c in (Nat.leb 128 n && Nat.ltb n 192)%bool.

(** A byte [11110xxx] starts a character outside the basic plane, which
    takes two UTF-16 code units. *)
Definition astral_lead (c : ascii) : bool := Nat.leb 240 (nat_of_ascii c).

(** The number of characters (code points) of a string: what a
    [VARCHAR (n)] column counts. *)
Fixpoint code_points (s : string) : nat :=
  match s with
  | EmptyString => 0%nat
  | String c s' => Nat.add (if continuation c then 0%nat else 1%nat) (code_points s')
  end.

(** [s.length]: the number of UTF-16 code units, one per character of the
    basic plane and two per character outside it. *)
Fixpoint js_length (s : string) : nat :=
  match s with
  | EmptyString => 0%nat
  | String c s' =>
      let units :=
        if continuation c then 0%nat
        else if astral_lead c then
          match s' with
          | String c' _ => if continuation c' then 2%nat else 1%nat
          | EmptyString => 1%nat
          end
        else 1%nat in
      Nat.add units (js_length s')
  end.

(** [String.prototype.toUpperCase] on the ASCII range (request methods are
    ASCII tokens). *)
Definition upper_ascii (c : ascii) : ascii :=
  let n := nat_of_ascii c in
  if (Nat.leb 97 n && Nat.leb n 122)%bool then ascii_of_nat (n - 32) else c.

Fixpoint toUpperCase (s : string) : string :=
  match s with
  | EmptyString => EmptyString
  | String c s' => String (upper_ascii c) (toUpperCase s')
  end.

(** [s.split (sep)] for a one-character separator; [acc] is the part of the
    current field that has been read. *)
Fixpoint split_aux (sep : ascii) (acc : string) (s : string) : list string :=
  match s with
  | EmptyString => [acc]
  | String c s' =>
      if Ascii.eqb c sep then acc :: split_aux sep "" s'
      else split_aux sep (acc ++ String c "") s'
  end.

Definition split (sep : ascii) (s : string) : list string := split_aux sep "" s.

(** [parts.join (',')] *)
Definition join (sep : string) (l : list string) : string := String.concat sep l.

(** A header that Node delivers as a string or as an array of strings
    ([string | string[] | undefined] is an [option HeaderValue]). *)
Inductive HeaderValue :=
| HString (s : string)
| HArray (l : list string).

(** ** Libraries *)

(** The payload of an access token: what [jwt.sign] is given, plus the
    [iat] and [exp] claims it adds. *)
Record JwtPayload := mkJwtPayload {
  jp_adminId : option Z;
  jp_customerId : option Z;
  jp_type : string;
  jp_iat : Z;
  jp_exp : option Z
}.

(** The functions of the libraries that the code calls.
    - [sha256_hex s] is [crypto.createHash ('sha256').update (s).digest ('hex')].
    - [bcrypt_hash] and [bcrypt_compare] are those of bcryptjs.
    - [jws_encode key payload] is the compact serialisation of the payload
      signed with [key]; [jws_decode] reads a compact serialisation back and
      tells the key that its signature verifies under, [None] on a string
      that is not a token, as the empty string.  The signature is symbolic: a token verifies
      under the key it was signed with and under no other. *)
Class Libs := mkLibs {
  sha256_hex : string -> string;
  bcrypt_hash : string -> Z -> string;
  bcrypt_compare : string -> string -> bool;
  jws_encode : string -> JwtPayload -> string;
  jws_decode : string -> option (string * JwtPayload);
  jws_decode_encode : forall key p, jws_decode (jws_encode key p) = Some (key, p);
  jws_decode_empty : jws_decode "" = None
}.

(** Process configuration (config/env.ts), after parsing. *)
Record Env := mkEnv {
  JWT_SECRET : string;
  JWT_EXPIRES_HOURS : Z;
  BCRYPT_ROUNDS : Z
}.

(** The defaults of [envSchema] for the settings that have one. *)
Definition env_default (secret : string) : Env :=
  mkEnv secret 8 12.

(** ** Prisma calls *)

Section Prisma.

(** [prisma.refreshToken.findFirst ({ where: { tokenHash } })] *)
Definition prisma_refreshToken_findFirst (tokenHash : string) : M (option RefreshToken) :=
  d <- readDb ;;
  ret (find (fun r => rt_tokenHash r =? tokenHash) (refreshTokens d)).

(** The row update of
    [updateMany ({ where: { familyId, revokedAt: null }, data: { revokedAt } })]. *)
Definition revoke_if_active (familyId : string) (date : Z) (r : RefreshToken) : RefreshToken :=
  match rt_revokedAt r with
  | None =>
      if rt_familyId r =? familyId then
        mkRefreshToken (rt_id r) (rt_adminId r) (rt_customerId r) (rt_familyId r)
          (rt_tokenHash r) (rt_userAgent r) (rt_ip r) (rt_createdAt r)
          (rt_expiresAt r) (Some date) (rt_replacedById r)
      else r
  | Some _ => r
  end.

Definition with_refreshTokens (d : Db) (rows : list RefreshToken) (seq : Z) : Db :=
  mkDb (admins d) (customers d) rows seq.

Definition prisma_refreshToken_updateMany_revoke (familyId : string) (date : Z) : M unit :=
  d <- readDb ;;
  writeDb (with_refreshTokens d (map (revoke_if_active familyId date) (refreshTokens d))
             (refreshTokenSeq d)).

(** The [data] of [prisma.refreshToken.create]. *)
Record RefreshTokenCreate := mkRefreshTokenCreate {
  new_adminId : option Z;
  new_customerId : option Z;
  new_familyId : string;
  new_tokenHash : string;
  new_userAgent : option string;
  new_ip : option string;
  new_expiresAt : Z
}.

(** A value fits a [VARCHAR (width)] column when it has at most [width]
    characters; null fits. *)
Definition fits (width : nat) (value : option string) : bool :=
  match value with
  | Some s => Nat.leb (code_points s) width
  | None => true
  end.

(** The foreign keys of [refresh_tokens] on [admins] and [customers]: an
    owner id that is not null is the id of a row. *)
Definition owner_rows (d : Db) (adminId customerId : option Z) : bool :=
  (match adminId with
   | Some id => existsb (fun a => (adm_id a =? id)%Z) (admins d)
   | None => true
   end &&
   match customerId with
   | Some id => existsb (fun c => (cus_id c =? id)%Z) (customers d)
   | None => true
   end)%bool.

(** The inserts that the database accepts: [user_agent] is VARCHAR(255),
    [ip] is VARCHAR(64), and the owner has a row. *)
Definition accepts (d : Db) (data : RefreshTokenCreate) : bool :=
  (fits 255 (new_userAgent data) && fits 64 (new_ip data) &&
   owner_rows d (new_adminId data) (new_customerId data))%bool.

(** [prisma.refreshToken.create ({ data })]: the id is the next value of the
    sequence, [created_at] defaults to the current time, [revoked_at] and
    [replacedById] to null.  An insert that the database refuses rejects
    and writes nothing. *)
Definition prisma_refreshToken_create (data : RefreshTokenCreate) : M RefreshToken :=
  d <- readDb ;;
  if accepts d data then
    createdAt <- Date_now ;;
    let row :=
      mkRefreshToken (refreshTokenSeq d) (new_adminId data) (new_customerId data)
        (new_familyId data) (new_tokenHash data) (new_userAgent data) (new_ip data)
        createdAt (new_expiresAt data) None None in
    writeDb (with_refreshTokens d (refreshTokens d ++ [row]) (refreshTokenSeq d + 1)) ;;
    ret row
  else throw (LibErr "PrismaClientKnownRequestError").

(** The row update of
    [update ({ where: { id }, data: { revokedAt, replacedById } })]. *)
Definition revoke_and_link (id : Z) (date : Z) (replacedById : Z) (r : RefreshToken) : RefreshToken :=
  if (rt_id r =? id)%Z then
    mkRefreshToken (rt_id r) (rt_adminId r) (rt_customerId r) (rt_familyId r)
      (rt_tokenHash r) (rt_userAgent r) (rt_ip r) (rt_createdAt r)
      (rt_expiresAt r) (Some date) (Some replacedById)
  else r.

(** [prisma.refreshToken.update]: rejects when no row has the id. *)
Definition prisma_refreshToken_update (id : Z) (date : Z) (replacedById : Z) : M unit :=
  d <- readDb ;;
  if existsb (fun r => (rt_id r =? id)%Z) (refreshTokens d) then
    writeDb (with_refreshTokens d (map (revoke_and_link id date replacedById) (refreshTokens d))
               (refreshTokenSeq d))
  else throw (LibErr "PrismaClientKnownRequestError").

(** [prisma.admin.findUnique ({ where: { email } })] *)
Definition prisma_admin_findUnique_email (email : string) : M (option Admin) :=
  d <- readDb ;;
  ret (find (fun a => adm_email a =? email) (admins d)).

(** [prisma.admin.findUnique ({ where: { id } })]; an [undefined] id is
    rejected by the client's validation. *)
Definition prisma_admin_findUnique_id (id : option Z) : M (option Admin) :=
  match id with
  | None => throw (LibErr "PrismaClientValidationError")
  | Some i =>
      d <- readDb ;;
      ret (find (fun a => (adm_id a =? i)%Z) (admins d))
  end.

(** [prisma.customer.findUnique ({ where: { id } })] *)
Definition prisma_customer_findUnique_id (id : option Z) : M (option Customer) :=
  match id with
  | None => throw (LibErr "PrismaClientValidationError")
  | Some i =>
      d <- readDb ;;
      ret (find (fun c => (cus_id c =? i)%Z) (customers d))
  end.

Definition set_lastLogin (id : Z) (date : Z) (a : Admin) : Admin :=
  if (adm_id a =? id)%Z then
    mkAdmin (adm_id a) (adm_name a) (adm_email a) (adm_passwordHash a)
      (adm_isActive a) (adm_createdAt a) (Some date)
  else a.

(** [prisma.admin.update ({ where: { id }, data: { lastLogin } })] *)
Definition prisma_admin_update_lastLogin (id : Z) (date : Z) : M unit :=
  d <- readDb ;;
  if existsb (fun a => (adm_id a =? id)%Z) (admins d) then
    writeDb (mkDb (map (set_lastLogin id date) (admins d)) (customers d)
               (refreshTokens d) (refreshTokenSeq d))
  else throw (LibErr "PrismaClientKnownRequestError").

End Prisma.

(** ** jsonwebtoken *)

Section Jsonwebtoken.

Context {L : Libs}.

(** [jwt.sign (payload, secret, { expiresIn: `${hours}h` })]: [iat] is the
    current time in seconds, [exp] is [iat] plus the time span
    ([ms] turns [hours] h into [hours * 3600000] ms). *)
Definition jwt_sign (adminId customerId : option Z) (type secret : string) (hours : Z) : M string :=
  now <- Date_now ;;
  let timestamp := now / 1000 in
  let exp := timestamp + (hours * 3600000) / 1000 in
  ret (jws_encode secret (mkJwtPayload adminId customerId type timestamp (Some exp))).

(** [jwt.verify (token, secret)]: throws [JsonWebTokenError] on a missing
    or malformed token and on a signature that does not verify under
    [secret], [TokenExpiredError] when the current time in seconds has
    reached [exp]; returns the payload otherwise. *)
Definition jwt_verify (token secret : string) : M JwtPayload :=
  now <- Date_now ;;
  let clockTimestamp := now / 1000 in
  if negb (truthy token) then throw (LibErr "JsonWebTokenError")
  else
    match jws_decode token with
    | None => throw (LibErr "JsonWebTokenError")
    | Some (key, payload) =>
        if negb (key =? secret) then throw (LibErr "JsonWebTokenError")
        else
          match jp_exp payload with
          | Some exp =>
              if (exp <=? clockTimestamp)%Z then throw (LibErr "TokenExpiredError")
              else ret payload
          | None => ret payload
          end
    end.

End Jsonwebtoken.

(** ** services/authService.ts *)

(** [AdminResponse] (types/api.ts); dates stand for their ISO rendering. *)
Record AdminResponse := mkAdminResponse {
  ar_id : Z;
  ar_name : string;
  ar_email : string;
  ar_isActive : bool;
  ar_createdAt : Z;
  ar_lastLogin : option Z
}.

Record LoginResponse := mkLoginResponse {
  lr_admin : AdminResponse;
  lr_token : string;
  lr_expiresAt : Z
}.

(** The [meta] argument of the refresh-token functions. *)
Record Meta := mkMeta {
  userAgent : option HeaderValue;
  ip : option string
}.

(** What [issueRefreshToken] returns. *)
Record Issued := mkIssued {
  is_id : Z;
  is_familyId : string;
  is_ttlMs : Z;
  is_plainToken : string
}.

(** What [rotateRefreshToken] returns. *)
Record Rotated := mkRotated {
  newPlainToken : string;
  ttlMs : Z;
  ro_adminId : option Z;
  ro_customerId : option Z;
  ro_familyId : string
}.

Section AuthService.

Context {L : Libs}.
Variable env : Env.

Definition hashPassword (password : string) : string :=
  bcrypt_hash password (BCRYPT_ROUNDS env).

Definition comparePassword (password hash : string) : bool :=
  bcrypt_compare password hash.

Definition generateToken (adminId : Z) : M string :=
  jwt_sign (Some adminId) None "admin" (JWT_SECRET env) (JWT_EXPIRES_HOURS env).

Definition generateCustomerToken (customerId : Z) : M string :=
  jwt_sign None (Some customerId) "customer" (JWT_SECRET env) (JWT_EXPIRES_HOURS env).

Definition verifyToken (token : string) : M JwtPayload :=
  try_catch (jwt_verify token (JWT_SECRET env))
    (fun _ => throwApp "Invalid or expired token" 401 "INVALID_TOKEN").

(** [typeof ua === 'string' ? ua : Array.isArray (ua) ? ua.join (',') : undefined] *)
Definition userAgent_column (ua : option HeaderValue) : option string :=
  match ua with
  | Some (HString s) => Some s
  | Some (HArray l) => Some (join "," l)
  | None => None
  end.

(** [7 * 24 * 60 * 60 * 1000] *)
Definition refreshTtlMs : Z := 7 * 24 * 60 * 60 * 1000.

Definition issueRefreshToken (adminId customerId : option Z) (meta : Meta) : M Issued :=
  plainToken <- randomHex ;;
  let tokenHash := sha256_hex plainToken in
  familyId <- randomHex ;;
  let ttlMs := refreshTtlMs in
  now <- Date_now ;;
  let expiresAt := now + ttlMs in
  record <- prisma_refreshToken_create
              (mkRefreshTokenCreate adminId customerId familyId tokenHash
                 (userAgent_column (userAgent meta)) (ip meta) expiresAt) ;;
  ret (mkIssued (rt_id record) familyId ttlMs plainToken).

Definition hashToken (plain : string) : string := sha256_hex plain.

Definition findRefreshTokenByPlain (plain : string) : M (option RefreshToken) :=
  let tokenHash := hashToken plain in
  prisma_refreshToken_findFirst tokenHash.

Definition revokeRefreshFamilyByFamilyId (familyId : string) : M unit :=
  date <- Date_now ;;
  prisma_refreshToken_updateMany_revoke familyId date.

Definition rotateRefreshToken (plainToken : string) (meta : Meta) : M Rotated :=
  found <- findRefreshTokenByPlain plainToken ;;
  match found with
  | None => throwApp "Invalid refresh token" 401 "INVALID_REFRESH"
  | Some existing =>
      match rt_revokedAt existing with
      | Some _ =>
          revokeRefreshFamilyByFamilyId (rt_familyId existing) ;;
          throwApp "Refresh token reused" 401 "REFRESH_REUSE"
      | None =>
          now <- Date_now ;;
          if (rt_expiresAt existing <=? now)%Z then
            throwApp "Refresh token expired" 401 "REFRESH_EXPIRED"
          else
            plainNew <- randomHex ;;
            let tokenHash := hashToken plainNew in
            let ttlMs := refreshTtlMs in
            now' <- Date_now ;;
            let expiresAt := now' + ttlMs in
            newRec <- prisma_refreshToken_create
                        (mkRefreshTokenCreate (rt_adminId existing) (rt_customerId existing)
                           (rt_familyId existing) tokenHash
                           (userAgent_column (userAgent meta)) (ip meta) expiresAt) ;;
            date <- Date_now ;;
            prisma_refreshToken_update (rt_id existing) date (rt_id newRec) ;;
            ret (mkRotated plainNew ttlMs (or_undefined (rt_adminId existing))
                   (or_undefined (rt_customerId existing)) (rt_familyId existing))
      end
  end.

Definition login (email password : string) : M LoginResponse :=
  found <- prisma_admin_findUnique_email email ;;
  match found with
  | None => throwApp "Invalid email or password" 401 "INVALID_CREDENTIALS"
  | Some admin =>
      if negb (adm_isActive admin) then
        throwApp "Admin account is deactivated" 401 "ACCOUNT_DEACTIVATED"
      else if negb (comparePassword password (adm_passwordHash admin)) then
        throwApp "Invalid email or password" 401 "INVALID_CREDENTIALS"
      else
        token <- generateToken (adm_id admin) ;;
        now <- Date_now ;;
        let expiresAt := now + JWT_EXPIRES_HOURS env * 60 * 60 * 1000 in
        date <- Date_now ;;
        prisma_admin_update_lastLogin (adm_id admin) date ;;
        lastLogin <- Date_now ;;
        ret (mkLoginResponse
               (mkAdminResponse (adm_id admin) (adm_name admin) (adm_email admin)
                  (adm_isActive admin) (adm_createdAt admin) (Some lastLogin))
               token expiresAt)
  end.

Definition getAdminById (adminId : option Z) : M AdminResponse :=
  found <- prisma_admin_findUnique_id adminId ;;
  match found with
  | None => throwApp "Admin not found" 404 "ADMIN_NOT_FOUND"
  | Some admin =>
      if negb (adm_isActive admin) then
        throwApp "Admin account is deactivated" 401 "ACCOUNT_DEACTIVATED"
      else
        ret (mkAdminResponse (adm_id admin) (adm_name admin) (adm_email admin)
               (adm_isActive admin) (adm_createdAt admin) (adm_lastLogin admin))
  end.

End AuthService.

(** ** services/customerService.ts *)

Record CustomerResponse := mkCustomerResponse {
  cr_id : Z;
  cr_name : string;
  cr_email : string;
  cr_isActive : bool;
  cr_createdAt : Z;
  cr_lastLogin : option Z
}.

Definition getCustomerById (id : option Z) : M CustomerResponse :=
  found <- prisma_customer_findUnique_id id ;;
  match found with
  | None => throwApp "Customer not found" 404 "CUSTOMER_NOT_FOUND"
  | Some customer =>
      ret (mkCustomerResponse (cus_id customer) (cus_name customer) (cus_email customer)
             (cus_isActive customer) (cus_createdAt customer) (cus_lastLogin customer))
  end.

(** ** Requests *)

(** The parts of an Express request that the authentication code reads or
    writes.  [req_cookies] is [req.cookies] as cookie-parser fills it. *)
Record Request := mkRequest {
  req_method : string;
  req_authorization : option string;
  req_x_csrf_token : option string;
  req_user_agent : option HeaderValue;
  req_ip : option string;
  req_cookies : list (string * string);
  req_admin : option AdminResponse;
  req_customer : option CustomerResponse
}.

(** [req.cookies?.[name]] *)
Fixpoint cookie (name : string) (cookies : list (string * string)) : option string :=
  match cookies with
  | [] => None
  | (k, v) :: rest => if k =? name then Some v else cookie name rest
  end.

(** How a middleware hands over: [next ()] with the request as it now is,
    or [next (error)]. *)
Inductive Next :=
| NextOk (req : Request)
| NextErr (e : Exn).

(** ** middleware/auth.ts *)

Definition extractToken (req : Request) : option string :=
  let fromCookie := cookie "access_token" (req_cookies req) in
  match req_authorization req with
  | Some authHeader =>
      if truthy authHeader then
        match split " " authHeader with
        | [p0; p1] => if p0 =? "Bearer" then Some p1 else fromCookie
        | _ => fromCookie
        end
      else fromCookie
  | None => fromCookie
  end.

Definition attach_admin (req : Request) (admin : AdminResponse) : Request :=
  mkRequest (req_method req) (req_authorization req) (req_x_csrf_token req)
    (req_user_agent req) (req_ip req) (req_cookies req) (Some admin) (req_customer req).

Definition attach_customer (req : Request) (customer : CustomerResponse) : Request :=
  mkRequest (req_method req) (req_authorization req) (req_x_csrf_token req)
    (req_user_agent req) (req_ip req) (req_cookies req) (req_admin req) (Some customer).

Section Middleware.

Context {L : Libs}.
Variable env : Env.

Definition authenticateAdmin (req : Request) : M Next :=
  try_catch
    (let token := extractToken req in
     if negb (truthy_opt token) then
       throwApp "Access token is required" 401 "TOKEN_REQUIRED"
     else
       decoded <- verifyToken env (match token with Some t => t | None => "" end) ;;
       if negb (jp_type decoded =? "admin") then
         throwApp "Invalid token type" 401 "INVALID_TOKEN_TYPE"
       else
         admin <- getAdminById (jp_adminId decoded) ;;
         ret (NextOk (attach_admin req admin)))
    (fun error => ret (NextErr error)).

Definition authenticateCustomer (req : Request) : M Next :=
  try_catch
    (let token := extractToken req in
     if negb (truthy_opt token) then
       throwApp "Access token is required" 401 "TOKEN_REQUIRED"
     else
       decoded <- verifyToken env (match token with Some t => t | None => "" end) ;;
       if negb (jp_type decoded =? "customer") then
         throwApp "Invalid token type" 401 "INVALID_TOKEN_TYPE"
       else
         customer <- getCustomerById (jp_customerId decoded) ;;
         ret (NextOk (attach_customer req customer)))
    (fun error => ret (NextErr error)).

End Middleware.

(** ** middleware/csrf.ts *)

Definition CSRF_COOKIE : string := "csrf_token".

(** What [verifyCsrf] does with a request: [next ()], or a response
    [res.status (status).json ({ error: { code, message } })]. *)
Inductive CsrfVerdict :=
| CsrfNext
| CsrfReject (status : Z) (code message : string).

Definition unsafe_method (method : string) : bool :=
  ((method =? "POST") || (method =? "PUT") || (method =? "PATCH") || (method =? "DELETE"))%bool.

Definition verifyCsrf (req : Request) : CsrfVerdict :=
  let method := toUpperCase (req_method req) in
  let unsafe := unsafe_method method in
  if negb unsafe then CsrfNext
  else
    let cookieToken := cookie CSRF_COOKIE (req_cookies req) in
    let headerToken := req_x_csrf_token req in
    match cookieToken, headerToken with
    | Some c, Some h =>
        if (negb (truthy c) || negb (truthy h) || negb (c =? h))%bool then
          CsrfReject 403 "CSRF_MISMATCH" "Invalid CSRF token"
        else CsrfNext
    | _, _ => CsrfReject 403 "CSRF_MISMATCH" "Invalid CSRF token"
    end.

(** ** The admin routes: POST /refresh-token *)

Record SetCookie := mkSetCookie {
  ck_name : string;
  ck_value : string;
  ck_maxAge : Z
}.

(** What the handler does: a JSON error response, the success response with
    the cookies it sets, or [next (err)]. *)
Inductive Reply :=
| ReplyError (status : Z) (code message : string)
| ReplyRefreshed (cookies : list SetCookie) (token : string) (expiresAt : Z)
| ReplyNext (err : Exn).

Section AdminRoutes.

Context {L : Libs}.
Variable env : Env.

Definition refresh_token_route (req : Request) : M Reply :=
  try_catch
    (let refreshToken := cookie "refresh_token" (req_cookies req) in
     match refreshToken with
     | None => ret (ReplyError 401 "REFRESH_REQUIRED" "Refresh token required")
     | Some presented =>
         if negb (truthy presented) then
           ret (ReplyError 401 "REFRESH_REQUIRED" "Refresh token required")
         else
           rotated <- rotateRefreshToken presented (mkMeta (req_user_agent req) (req_ip req)) ;;
           let accessTtlMs := 15 * 60 * 1000 in
           accessToken <-
             (if truthy_num (ro_adminId rotated) then
                generateToken env (number (ro_adminId rotated))
              else if truthy_num (ro_customerId rotated) then
                generateCustomerToken env (number (ro_customerId rotated))
              else ret "") ;;
           now <- Date_now ;;
           ret (ReplyRefreshed
                  [mkSetCookie "access_token" accessToken accessTtlMs;
                   mkSetCookie "refresh_token" (newPlainToken rotated) (ttlMs rotated)]
                  accessToken (now + accessTtlMs))
     end)
    (fun err => ret (ReplyNext err)).

End AdminRoutes.

(** ** middleware/auth.ts: the other middlewares *)

Section MiddlewareOptional.

Context {L : Libs}.
Variable env : Env.

(** [optionalAuth]: every failure is swallowed and the request goes on as
    it came. *)
Definition optionalAuth (req : Request) : M Next :=
  try_catch
    (let token := extractToken req in
     if truthy_opt token then
       decoded <- verifyToken env (match token with Some t => t | None => "" end) ;;
       if jp_type decoded =? "admin" then
         admin <- getAdminById (jp_adminId decoded) ;;
         ret (NextOk (attach_admin req admin))
       else ret (NextOk req)
     else ret (NextOk req))
    (fun _ => ret (NextOk req)).

End MiddlewareOptional.

(** [requirePermission (permission)]: the middleware it returns. *)
Definition requirePermission (permission : string) (req : Request) : M Next :=
  match req_admin req with
  | None => throwApp "Authentication required" 401 "AUTH_REQUIRED"
  | Some _ => ret (NextOk req)
  end.

(** ** middleware/csrf.ts: the cookie *)

(** A cookie set on the response, with the options the code gives. *)
Record ResCookie := mkResCookie {
  rc_name : string;
  rc_value : string;
  rc_httpOnly : bool;
  rc_secure : bool;
  rc_sameSite : string;
  rc_path : string;
  rc_maxAge : Z
}.

(** [issueCsrfCookie]: what it sets on the response, if anything; it always
    calls [next ()].  [production] is [process.env.NODE_ENV === 'production']. *)
Definition issueCsrfCookie (production : bool) (req : Request) : M (option ResCookie) :=
  try_catch
    (let existing := cookie CSRF_COOKIE (req_cookies req) in
     if negb (truthy_opt existing) then
       token <- randomHex ;;
       ret (Some (mkResCookie CSRF_COOKIE token false production "lax" "/"
                    (7 * 24 * 60 * 60 * 1000)))
     else ret None)
    (fun _ => ret None).

(** The two CSRF middlewares in the order app.ts mounts them. *)
Definition csrf_middlewares (production : bool) (req : Request)
  : M (option ResCookie * CsrfVerdict) :=
  issued <- issueCsrfCookie production req ;;
  ret (issued, verifyCsrf req).

(** ** services/authService.ts: registration *)

(** [prisma.admin.create]: [id] is the value that the sequence of
    [admins.id] hands out, an input from the database; [created_at]
    defaults to the current time and [last_login] to null. *)
Definition prisma_admin_create (id : Z) (name email passwordHash : string)
    (isActive : bool) : M Admin :=
  d <- readDb ;;
  createdAt <- Date_now ;;
  let row := mkAdmin id name email passwordHash isActive createdAt None in
  writeDb (mkDb (admins d ++ [row]) (customers d) (refreshTokens d) (refreshTokenSeq d)) ;;
  ret row.

Section Registration.

Context {L : Libs}.
Variable env : Env.

(** [register]; [newId] is the id that the database gives the new row. *)
Definition register (newId : Z) (name email password : string) : M LoginResponse :=
  existingAdmin <- prisma_admin_findUnique_email email ;;
  match existingAdmin with
  | Some _ => throwApp "Admin with this email already exists" 409 "ADMIN_EXISTS"
  | None =>
      if (Z.of_nat (js_length password) <? 8)%Z then
        throwApp "Password must be at least 8 characters long" 400 "WEAK_PASSWORD"
      else
        let passwordHash := hashPassword env password in
        admin <- prisma_admin_create newId name email passwordHash true ;;
        token <- generateToken env (adm_id admin) ;;
        now <- Date_now ;;
        let expiresAt := now + JWT_EXPIRES_HOURS env * 60 * 60 * 1000 in
        date <- Date_now ;;
        prisma_admin_update_lastLogin (adm_id admin) date ;;
        lastLogin <- Date_now ;;
        ret (mkLoginResponse
               (mkAdminResponse (adm_id admin) (adm_name admin) (adm_email admin)
                  (adm_isActive admin) (adm_createdAt admin) (Some lastLogin))
               token expiresAt)
  end.

End Registration.

(** ** controllers/authController.ts *)

(** What a handler does: a response with a status, the cookies it sets, the
    names of the cookies it clears and a JSON body, or [next (err)]. *)
Inductive Handled (A : Type) :=
| Sent (status : Z) (cookies : list ResCookie) (cleared : list string) (body : A)
| Forwarded (err : Exn).
Arguments Sent {A} status cookies cleared body.
Arguments Forwarded {A} err.

(** [cookieOptions (maxAgeMs)], with the name and the value of the cookie. *)
Definition cookieOptions (production : bool) (name value : string) (maxAgeMs : Z) : ResCookie :=
  mkResCookie name value true production "lax" "/" maxAgeMs.

(** The body of the logout response: the message and, for the admin
    handler, the timestamp. *)
Record LogoutBody := mkLogoutBody {
  lo_message : string;
  lo_timestamp : option Z
}.

(** The revocation that both logout handlers attempt, errors swallowed. *)
Definition logout_revocation {L : Libs} (req : Request) : M unit :=
  try_catch
    (let refreshToken := cookie "refresh_token" (req_cookies req) in
     if truthy_opt refreshToken then
       existing <- findRefreshTokenByPlain
                     (match refreshToken with Some t => t | None => "" end) ;;
       match existing with
       | Some record =>
           if truthy (rt_familyId record) then
             revokeRefreshFamilyByFamilyId (rt_familyId record)
           else ret tt
       | None => ret tt
       end
     else ret tt)
    (fun _ => ret tt).

Section AuthController.

Context {L : Libs}.
Variable env : Env.
Variable production : bool.

(** [AuthController.register]; [name], [email] and [password] are the
    fields of [req.body]. *)
Definition AuthController_register (newId : Z) (name email password : string)
    (req : Request) : M (Handled LoginResponse) :=
  try_catch
    (result <- register env newId name email password ;;
     let accessTtlMs := 15 * 60 * 1000 in
     refresh <- issueRefreshToken (Some (ar_id (lr_admin result))) None
                  (mkMeta (req_user_agent req) (req_ip req)) ;;
     accessToken <- generateToken env (ar_id (lr_admin result)) ;;
     ret (Sent 201
            [cookieOptions production "access_token" accessToken accessTtlMs;
             cookieOptions production "refresh_token" (is_plainToken refresh)
               (is_ttlMs refresh)]
            [] result))
    (fun err => ret (Forwarded err)).

(** [AuthController.login] *)
Definition AuthController_login (email password : string) (req : Request)
  : M (Handled LoginResponse) :=
  try_catch
    (result <- login env email password ;;
     let accessTtlMs := 15 * 60 * 1000 in
     refresh <- issueRefreshToken (Some (ar_id (lr_admin result))) None
                  (mkMeta (req_user_agent req) (req_ip req)) ;;
     accessToken <- generateToken env (ar_id (lr_admin result)) ;;
     ret (Sent 200
            [cookieOptions production "access_token" accessToken accessTtlMs;
             cookieOptions production "refresh_token" (is_plainToken refresh)
               (is_ttlMs refresh)]
            [] result))
    (fun err => ret (Forwarded err)).

(** [AuthController.logout] *)
Definition AuthController_logout (req : Request) : M (Handled LogoutBody) :=
  try_catch
    (logout_revocation req ;;
     timestamp <- Date_now ;;
     ret (Sent 200 [] ["access_token"; "refresh_token"]
            (mkLogoutBody "Successfully logged out" (Some timestamp))))
    (fun err => ret (Forwarded err)).

End AuthController.

(** ** routes/auth.ts: the customer session *)

(** [prisma.customer.findUnique ({ where: { email } })] *)
Definition prisma_customer_findUnique_email (email : string) : M (option Customer) :=
  d <- readDb ;;
  ret (find (fun c => cus_email c =? email) (customers d)).

Definition set_customer_lastLogin (id : Z) (date : Z) (c : Customer) : Customer :=
  if (cus_id c =? id)%Z then
    mkCustomer (cus_id c) (cus_name c) (cus_email c) (cus_passwordHash c)
      (cus_isActive c) (cus_createdAt c) (Some date)
  else c.

(** [prisma.customer.update ({ where: { id }, data: { lastLogin } })] *)
Definition prisma_customer_update_lastLogin (id : Z) (date : Z) : M unit :=
  d <- readDb ;;
  if existsb (fun c => (cus_id c =? id)%Z) (customers d) then
    writeDb (mkDb (admins d) (map (set_customer_lastLogin id date) (customers d))
               (refreshTokens d) (refreshTokenSeq d))
  else throw (LibErr "PrismaClientKnownRequestError").

(** The body of the customer login response. *)
Record CustomerSession := mkCustomerSession {
  cs_customer : CustomerResponse;
  cs_token : string
}.

Section CustomerRoutes.

Context {L : Libs}.
Variable env : Env.
Variable production : bool.

(** POST /login; [email] and [password] are what [loginSchema.parse
    (req.body)] returns (a body that the schema rejects is outside the
    model). *)
Definition customer_login_route (email password : string) (req : Request)
  : M (Handled CustomerSession) :=
  try_catch
    (found <- prisma_customer_findUnique_email email ;;
     match found with
     | None => throwApp "Invalid email or password" 401 "INVALID_CREDENTIALS"
     | Some customer =>
         if negb (cus_isActive customer) then
           throwApp "Account is deactivated" 401 "ACCOUNT_DEACTIVATED"
         else if negb (comparePassword password (cus_passwordHash customer)) then
           throwApp "Invalid email or password" 401 "INVALID_CREDENTIALS"
         else
           token <- generateCustomerToken env (cus_id customer) ;;
           let accessTtlMs := 15 * 60 * 1000 in
           refresh <- issueRefreshToken None (Some (cus_id customer))
                        (mkMeta (req_user_agent req) (req_ip req)) ;;
           date <- Date_now ;;
           prisma_customer_update_lastLogin (cus_id customer) date ;;
           lastLogin <- Date_now ;;
           ret (Sent 200
                  [cookieOptions production "access_token" token accessTtlMs;
                   cookieOptions production "refresh_token" (is_plainToken refresh)
                     (is_ttlMs refresh)]
                  []
                  (mkCustomerSession
                     (mkCustomerResponse (cus_id customer) (cus_name customer)
                        (cus_email customer) (cus_isActive customer)
                        (cus_createdAt customer) (Some lastLogin))
                     token))
     end)
    (fun error => ret (Forwarded error)).

(** GET /profile, behind [authenticateCustomer]. *)
Definition customer_profile_route (req : Request) : M (Handled (option CustomerResponse)) :=
  guarded <- authenticateCustomer env req ;;
  match guarded with
  | NextOk req' => ret (Sent 200 [] [] (req_customer req'))
  | NextErr e => ret (Forwarded e)
  end.

(** POST /logout *)
Definition customer_logout_route (req : Request) : M (Handled LogoutBody) :=
  logout_revocation req ;;
  ret (Sent 200 [] ["access_token"; "refresh_token"] (mkLogoutBody "Logged out" None)).

End CustomerRoutes.

(** ** Vocabulary of the statements *)

(** What the next reading of the clock returns: the current time. *)
Definition now (w : World) : Z := clock w (ticks w).

(** A record is non-revoked when [revokedAt] is null. *)
Definition active (r : RefreshToken) : bool :=
  match rt_revokedAt r with
  | None => true
  | Some _ => false
  end.

(** The number of non-revoked records of a family in a store. *)
Definition active_in_family (familyId : string) (d : Db) : nat :=
  List.length (filter (fun r => (rt_familyId r =? familyId) && active r)%bool (refreshTokens d)).

(** The world with other [admins] and [customers] tables. *)
Definition with_principals (w : World) (adms : list Admin) (custs : list Customer) : World :=
  mkWorld (mkDb adms custs (refreshTokens (db w)) (refreshTokenSeq (db w)))
    (history w) (clock w) (ticks w) (entropy w) (draws w).

(** The metadata of a request fit the columns that store them: the user
    agent has at most 255 characters and the ip at most 64. *)
Definition meta_fits (meta : Meta) : bool :=
  (fits 255 (userAgent_column (userAgent meta)) && fits 64 (ip meta))%bool.

(** The insert of a refresh token for these owners with the metadata
    [meta] is one that the store [d] accepts: the metadata fit their
    columns and the owners have their rows. *)
Definition storable (d : Db) (adminId customerId : option Z) (meta : Meta) : bool :=
  (meta_fits meta && owner_rows d adminId customerId)%bool.

(** The two kinds of principal, and the issuer at a kind. *)
Inductive Kind := KAdmin | KCustomer.

Definition kind_type (k : Kind) : string :=
  match k with
  | KAdmin => "admin"
  | KCustomer => "customer"
  end.

Definition issue {L : Libs} (env : Env) (k : Kind) (id : Z) : M string :=
  match k with
  | KAdmin => generateToken env id
  | KCustomer => generateCustomerToken env id
  end.

(** The payload that a token of kind [k] for [id] carries when it is signed
    at second [iat] with a life of [hours] hours. *)
Definition payload_of (k : Kind) (id iat hours : Z) : JwtPayload :=
  match k with
  | KAdmin => mkJwtPayload (Some id) None "admin" iat (Some (iat + hours * 3600))
  | KCustomer => mkJwtPayload None (Some id) "customer" iat (Some (iat + hours * 3600))
  end.

(** The methods that [verifyCsrf] treats as state-changing. *)
Definition mutating (method : string) : Prop :=
  In (toUpperCase method) ["POST"; "PUT"; "PATCH"; "DELETE"].

Definition INVALID_TOKEN : Exn :=
  AppErr (mkAppError "Invalid or expired token" 401 "INVALID_TOKEN").
Definition REFRESH_REUSE : Exn :=
  AppErr (mkAppError "Refresh token reused" 401 "REFRESH_REUSE").
Definition REFRESH_EXPIRED : Exn :=
  AppErr (mkAppError "Refresh token expired" 401 "REFRESH_EXPIRED").
Definition INVALID_CREDENTIALS : Exn :=
  AppErr (mkAppError "Invalid email or password" 401 "INVALID_CREDENTIALS").
Definition ACCOUNT_DEACTIVATED : Exn :=
  AppErr (mkAppError "Admin account is deactivated" 401 "ACCOUNT_DEACTIVATED").
Definition ADMIN_NOT_FOUND : Exn :=
  AppErr (mkAppError "Admin not found" 404 "ADMIN_NOT_FOUND").
Definition CUSTOMER_NOT_FOUND : Exn :=
  AppErr (mkAppError "Customer not found" 404 "CUSTOMER_NOT_FOUND").

(** The world after one reading of the clock. *)
Definition tick (w : World) : World :=
  mkWorld (db w) (history w) (clock w) (S (ticks w)) (entropy w) (draws w).

Section RotationVocabulary.

Context {L : Libs}.

(** The record that a rotation of [existing] creates in the world [w]. *)
Definition successor (w : World) (existing : RefreshToken) (meta : Meta) : RefreshToken :=
  mkRefreshToken (refreshTokenSeq (db w)) (rt_adminId existing) (rt_customerId existing)
    (rt_familyId existing) (hashToken (entropy w (draws w)))
    (userAgent_column (userAgent meta)) (ip meta)
    (clock w (2 + ticks w)) (clock w (1 + ticks w) + refreshTtlMs) None None.

(** The store after the first write of a rotation: the successor [newRec]
    is appended. *)
Definition created (d : Db) (newRec : RefreshToken) : Db :=
  with_refreshTokens d (refreshTokens d ++ [newRec]) (refreshTokenSeq d + 1).

(** The store after the second write: the presented record is revoked and
    linked to its successor. *)
Definition revoked (d : Db) (id date replacedById : Z) : Db :=
  with_refreshTokens d (map (revoke_and_link id date replacedById) (refreshTokens d))
    (refreshTokenSeq d).

(** What a rotation returns for [existing]. *)
Definition rotated_of (w : World) (existing : RefreshToken) : Rotated :=
  mkRotated (entropy w (draws w)) refreshTtlMs (or_undefined (rt_adminId existing))
    (or_undefined (rt_customerId existing)) (rt_familyId existing).

End RotationVocabulary.

(** ** A concrete instance of the libraries

    The theorems below hold for every instance of [Libs].  To run the code
    on concrete inputs, the following instance frames the fields of a token
    one after the other; the digests are stand-ins. *)

Module Framed.

(** A field is written with ["_"] before each of its characters and ["."]
    after the last one. *)
Fixpoint put (field : string) (rest : string) : string :=
  match field with
  | EmptyString => String "." rest
  | String c f => String "_" (String c (put f rest))
  end.

Fixpoint get (s : string) : option (string * string) :=
  match s with
  | String a (String c r) =>
      if Ascii.eqb a "_" then
        match get r with
        | Some (f, rest) => Some (String c f, rest)
        | None => None
        end
      else Some ("", String c r)
  | String a EmptyString => if Ascii.eqb a "_" then None else Some ("", "")
  | EmptyString => None
  end.

Fixpoint bits (p : positive) : string :=
  match p with
  | xH => ""
  | xO q => String "0" (bits q)
  | xI q => String "1" (bits q)
  end.

Fixpoint unbits (s : string) : positive :=
  match s with
  | EmptyString => xH
  | String c r => if Ascii.eqb c "1" then xI (unbits r) else xO (unbits r)
  end.

Definition of_Z (z : Z) : string :=
  match z with
  | Z0 => "z"
  | Zpos p => String "p" (bits p)
  | Zneg p => String "n" (bits p)
  end.

Definition to_Z (s : string) : Z :=
  match s with
  | EmptyString => 0
  | String c r =>
      if Ascii.eqb c "p" then Zpos (unbits r)
      else if Ascii.eqb c "n" then Zneg (unbits r)
      else 0
  end.

Definition of_opt (o : option Z) : string :=
  match o with
  | Some z => String "s" (of_Z z)
  | None => ""
  end.

Definition to_opt (s : string) : option Z :=
  match s with
  | EmptyString => None
  | String _ r => Some (to_Z r)
  end.

Definition encode (key : string) (p : JwtPayload) : string :=
  put key (put (of_opt (jp_adminId p)) (put (of_opt (jp_customerId p))
    (put (jp_type p) (put (of_Z (jp_iat p)) (put (of_opt (jp_exp p)) ""))))).

Definition decode (s : string) : option (string * JwtPayload) :=
  match get s with
  | Some (key, s1) =>
  match get s1 with
  | Some (a, s2) =>
  match get s2 with
  | Some (c, s3) =>
  match get s3 with
  | Some (t, s4) =>
  match get s4 with
  | Some (i, s5) =>
  match get s5 with
  | Some (e, EmptyString) =>
      Some (key, mkJwtPayload (to_opt a) (to_opt c) t (to_Z i) (to_opt e))
  | _ => None
  end
  | None => None
  end
  | None => None
  end
  | None => None
  end
  | None => None
  end
  | None => None
  end.

Lemma get_put field rest : get (put field rest) = Some (field, rest).
Proof.
  induction field as [|c f IH]; simpl.
  - destruct rest; reflexivity.
  - rewrite IH. reflexivity.
Qed.

Lemma unbits_bits p : unbits (bits p) = p.
Proof. induction p; simpl; congruence. Qed.

Lemma to_Z_of_Z z : to_Z (of_Z z) = z.
Proof. destruct z; simpl; rewrite ?unbits_bits; reflexivity. Qed.

Lemma to_opt_of_opt o : to_opt (of_opt o) = o.
Proof. destruct o; simpl; rewrite ?to_Z_of_Z; reflexivity. Qed.

Lemma decode_encode key p : decode (encode key p) = Some (key, p).
Proof.
  unfold decode, encode. rewrite !get_put, !to_opt_of_opt, !to_Z_of_Z.
  destruct p; reflexivity.
Qed.

(** Stand-ins for the digests: a tagged copy of the input.  [bcrypt_compare]
    accepts exactly the hashes that [bcrypt_hash] makes of the password. *)
#[export] Instance libs : Libs := {|
  sha256_hex := fun s => "sha256:" ++ s;
  bcrypt_hash := fun password _ => "bcrypt:" ++ password;
  bcrypt_compare := fun password hash => hash =? "bcrypt:" ++ password;
  jws_encode := encode;
  jws_decode := decode;
  jws_decode_encode := decode_encode;
  jws_decode_empty := eq_refl
|}.

End Framed.

(** ** Concrete inputs *)

Module Sample.

#[local] Existing Instance Framed.libs.

(** Configuration with the default settings. *)
Definition env0 : Env := env_default "0123456789abcdef0123456789abcdef".

(** A clock whose first reading is [t0] and that advances by one
    millisecond per reading. *)
Definition clock_from (t0 : Z) : nat -> Z := fun n => t0 + Z.of_nat n.

(** The hex strings that successive draws return. *)
Definition entropy0 : nat -> string := fun n => String (ascii_of_nat (97 + n)) "f00d".

Definition at_time (d : Db) (t0 : Z) : World := mkWorld d [] (clock_from t0) 0 entropy0 0.

Definition alice (isActive : bool) : Admin :=
  mkAdmin 1 "Alice" "a@x.com" (bcrypt_hash "Abcdefg1" 12) isActive 0 None.

Definition carol (isActive : bool) : Customer :=
  mkCustomer 5 "Carol" "c@x.com" (bcrypt_hash "Hijklmn2" 12) isActive 0 None.

(** A record of family ["fam"] owned by admin 1 that expires at 5000. *)
Definition record (id : Z) (plain : string) (revokedAt replacedById : option Z) : RefreshToken :=
  mkRefreshToken id (Some 1) None "fam" (sha256_hex plain) None None 0 5000
    revokedAt replacedById.

(** One live record. *)
Definition db_live : Db :=
  mkDb [alice true] [carol true] [record 1 "tok1" None None] 2.

(** A chain: the first record was rotated into the second at time 10; a
    record of another family stands beside them. *)
Definition db_chain : Db :=
  mkDb [alice true] [carol true]
    [record 1 "tok1" (Some 10) (Some 2);
     record 2 "tok2" None None;
     mkRefreshToken 3 None (Some 5) "other" (sha256_hex "tok3") None None 0 5000 None None]
    4.

(** The store with the customer deactivated. *)
Definition db_carol_off : Db :=
  mkDb [alice true] [carol false] [] 1.

Definition meta0 : Meta := mkMeta (Some (HString "curl/8")) (Some "10.0.0.1").

Definition request (method : string) (cookies : list (string * string))
    (csrfHeader : option string) : Request :=
  mkRequest method None csrfHeader (Some (HString "curl/8")) (Some "10.0.0.1")
    cookies None None.

(** The access tokens minted at time 0 for admin 1 and for customer 5. *)
Definition alice_token : string :=
  jws_encode (JWT_SECRET env0) (payload_of KAdmin 1 0 8).

Definition carol_token : string :=
  jws_encode (JWT_SECRET env0) (payload_of KCustomer 5 0 8).

(** The worlds of the examples. *)
Definition w_live : World := at_time db_live 100.
Definition w_chain : World := at_time db_chain 100.
Definition w_boundary : World := at_time db_live 5000.
Definition w_carol_off : World := at_time db_carol_off 60000.


End Sample.

(** ** Vocabulary of the further statements *)

(** Whether the character occurs in the string. *)
Fixpoint contains (c : ascii) (s : string) : bool :=
  match s with
  | EmptyString => false
  | String a s' => (Ascii.eqb a c || contains c s')%bool
  end.

(** A computation that leaves the store and its history as they are. *)
Definition read_only {A} (m : M A) : Prop :=
  forall w, db (exec m w) = db w /\ history (exec m w) = history w.

(** The guard that expects tokens of a kind. *)
Definition guard {L : Libs} (env : Env) (k : Kind) (req : Request) : M Next :=
  match k with
  | KAdmin => authenticateAdmin env req
  | KCustomer => authenticateCustomer env req
  end.

Definition TOKEN_REQUIRED : Exn :=
  AppErr (mkAppError "Access token is required" 401 "TOKEN_REQUIRED").
Definition INVALID_TOKEN_TYPE : Exn :=
  AppErr (mkAppError "Invalid token type" 401 "INVALID_TOKEN_TYPE").
Definition INVALID_REFRESH : Exn :=
  AppErr (mkAppError "Invalid refresh token" 401 "INVALID_REFRESH").
Definition AUTH_REQUIRED : Exn :=
  AppErr (mkAppError "Authentication required" 401 "AUTH_REQUIRED").
Definition WEAK_PASSWORD : Exn :=
  AppErr (mkAppError "Password must be at least 8 characters long" 400 "WEAK_PASSWORD").
Definition CUSTOMER_DEACTIVATED : Exn :=
  AppErr (mkAppError "Account is deactivated" 401 "ACCOUNT_DEACTIVATED").

(** The projection of an admin row that the responses carry. *)
Definition admin_response (a : Admin) : AdminResponse :=
  mkAdminResponse (adm_id a) (adm_name a) (adm_email a) (adm_isActive a)
    (adm_createdAt a) (adm_lastLogin a).

(** The ids of the refresh-token table are distinct and below the next
    value of the sequence. *)
Definition ids_fresh (d : Db) : Prop :=
  Forall (fun r => rt_id r < refreshTokenSeq d) (refreshTokens d) /\
  NoDup (map rt_id (refreshTokens d)).

(** Every [replacedById] names a record of the table that has the family
    of the record that carries it. *)
Definition links_in_family (d : Db) : Prop :=
  forall r link,
    In r (refreshTokens d) -> rt_replacedById r = Some link ->
    exists r', In r' (refreshTokens d) /\ rt_id r' = link /\
               rt_familyId r' = rt_familyId r.

(** The columns of a refresh-token record that are set at creation. *)
Definition identity (r : RefreshToken)
  : Z * option Z * option Z * string * string * Z * Z :=
  (rt_id r, rt_adminId r, rt_customerId r, rt_familyId r, rt_tokenHash r,
   rt_createdAt r, rt_expiresAt r).

(** The record that [issueRefreshToken] creates in the world [w]. *)
Definition issued_record {L : Libs} (w : World) (adminId customerId : option Z)
    (meta : Meta) : RefreshToken :=
  mkRefreshToken (refreshTokenSeq (db w)) adminId customerId (entropy w (1 + draws w))
    (sha256_hex (entropy w (draws w))) (userAgent_column (userAgent meta)) (ip meta)
    (clock w (1 + ticks w)) (clock w (ticks w) + refreshTtlMs) None None.

(** The store after a login or a registration has stamped [lastLogin]. *)
Definition stamped (d : Db) (adms : list Admin) (id date : Z) : Db :=
  mkDb (map (set_lastLogin id date) adms) (customers d) (refreshTokens d)
    (refreshTokenSeq d).

(** The store after a customer login has stamped [lastLogin]. *)
Definition customer_stamped (d : Db) (id date : Z) : Db :=
  mkDb (admins d) (map (set_customer_lastLogin id date) (customers d))
    (refreshTokens d) (refreshTokenSeq d).

(** ** Further concrete inputs *)

Module Cases.

Import Sample.
#[local] Existing Instance Framed.libs.

(** A request with both a Bearer header and an access_token cookie. *)
Definition both_request : Request :=
  mkRequest "GET" (Some "Bearer abc") None None None [("access_token", "xyz")] None None.

(** A request that carries [token] in the access_token cookie. *)
Definition with_token (token : string) : Request :=
  request "GET" [("access_token", token)] None.

(** A token for admin 1 signed with a key that is not the process secret. *)
Definition forged_token : string :=
  jws_encode "ffffffffffffffffffffffffffffffff" (payload_of KAdmin 1 0 8).

(** The store of [w_live] with admin 1 deactivated. *)
Definition w_alice_off : World := with_principals w_live [alice false] [carol true].

(** What [issueRefreshToken] for admin 1 returns in [w_live]. *)
Definition issued_live : Issued := mkIssued 2 "bf00d" refreshTtlMs "af00d".

(** What the rotation of ["tok1"] returns in [w_live]. *)
Definition rotated_live : Rotated := mkRotated "af00d" refreshTtlMs (Some 1) None "fam".

(** A state-changing request whose CSRF cookie and header agree. *)
Definition csrf_request : Request :=
  request "POST" [("csrf_token", "abc")] (Some "abc").

(** A first state-changing request: it has no CSRF cookie yet. *)
Definition first_request : Request := request "DELETE" [] (Some "abc").

(** A logout request that presents ["tok1"], and one without cookies. *)
Definition logout_request : Request := request "POST" [("refresh_token", "tok1")] None.
Definition bare_request : Request := request "POST" [] None.

(** An instant of November 2023, in milliseconds since the epoch. *)
Definition an_instant : Z := 1700000000000.

(** The store of a session that admin 1 opened at that instant: the record
    of ["tok1"] expires seven days later. *)
Definition session_record : RefreshToken :=
  mkRefreshToken 1 (Some 1) None "fam" (sha256_hex "tok1") (Some "curl/8")
    (Some "10.0.0.1") an_instant (an_instant + refreshTtlMs) None None.

Definition db_session : Db := mkDb [alice true] [carol true] [session_record] 2.

(** The world one minute into the session. *)
Definition w_session : World := at_time db_session (an_instant + 60000).

(** What the login of admin 1 in [w_session] returns. *)
Definition alice_session_login : LoginResponse :=
  mkLoginResponse
    (mkAdminResponse 1 "Alice" "a@x.com" true 0 (Some (an_instant + 60003)))
    (jws_encode (JWT_SECRET env0) (payload_of KAdmin 1 1700000060 8))
    (an_instant + 60001 + 8 * 60 * 60 * 1000).

(** The access tokens minted in [w_session] for admin 1 and for customer 5. *)
Definition alice_session_token : string :=
  jws_encode (JWT_SECRET env0) (payload_of KAdmin 1 1700000060 8).

Definition carol_session_token : string :=
  jws_encode (JWT_SECRET env0) (payload_of KCustomer 5 1700000060 8).

(** The world one hour into the session. *)
Definition w_session_later : World := at_time db_session (an_instant + 3660000).

(** [n] copies of a character. *)
Fixpoint replicate (n : nat) (c : ascii) : string :=
  match n with
  | O => EmptyString
  | S m => String c (replicate m c)
  end.

(** A refresh request whose User-Agent header has 300 characters, and one
    whose ip has 65. *)
Definition long_agent_request : Request :=
  mkRequest "POST" None (Some "abc") (Some (HString (replicate 300 "a")))
    (Some "10.0.0.1") [("refresh_token", "tok1"); ("csrf_token", "abc")] None None.


(** The password [p], [a] with diaeresis (two bytes), [sswrd]: eight bytes
    and seven UTF-16 code units. *)
Definition diaeresis_password : string :=
  String "p" (String (ascii_of_nat 195) (String (ascii_of_nat 164) "sswrd")).

End Cases.

(** ** Revocation of a family *)

Section Revocation.

Lemma revoke_if_active_revoked familyId date r :
  rt_familyId r = familyId -> rt_revokedAt (revoke_if_active familyId date r) <> None.
Proof.
  intros Hf. unfold revoke_if_active.
  destruct (rt_revokedAt r) eqn:Hr.
  - rewrite Hr. discriminate.
  - rewrite Hf, String.eqb_refl. simpl. discriminate.
Qed.

Lemma revoke_if_active_familyId familyId date r :
  rt_familyId (revoke_if_active familyId date r) = rt_familyId r.
Proof.
  unfold revoke_if_active.
  destruct (rt_revokedAt r); [reflexivity|].
  destruct (rt_familyId r =? familyId); reflexivity.
Qed.

Lemma revoke_if_active_twice familyId date date' r :
  revoke_if_active familyId date' (revoke_if_active familyId date r)
  = revoke_if_active familyId date r.
Proof.
  unfold revoke_if_active.
  destruct (rt_revokedAt r) eqn:Hr.
  - rewrite Hr. reflexivity.
  - destruct (rt_familyId r =? familyId) eqn:Hf; simpl.
    + reflexivity.
    + rewrite Hr, Hf. reflexivity.
Qed.

Lemma revokeFamily_rows familyId w :
  refreshTokens (db (exec (revokeRefreshFamilyByFamilyId familyId) w))
  = map (revoke_if_active familyId (now w)) (refreshTokens (db w)).
Proof. reflexivity. Qed.

(** C7. Revoking a family twice in a row leaves the store as revoking it
    once does, whatever the store was and whatever the clock reads at the
    two calls. *)
Theorem revokeFamily_idempotent familyId w :
  db (exec (revokeRefreshFamilyByFamilyId familyId ;;
            revokeRefreshFamilyByFamilyId familyId) w)
  = db (exec (revokeRefreshFamilyByFamilyId familyId) w).
Proof.
  unfold exec, revokeRefreshFamilyByFamilyId, prisma_refreshToken_updateMany_revoke,
    bind, Date_now, readDb, writeDb, with_refreshTokens. simpl.
  f_equal. rewrite map_map. apply map_ext. intros r.
  apply revoke_if_active_twice.
Qed.

End Revocation.

(** ** Rotation *)

Section Rotation.

Context {L : Libs}.

Lemma findRefreshTokenByPlain_find plain w found :
  run (findRefreshTokenByPlain plain) w = Ok found ->
  find (fun r => rt_tokenHash r =? hashToken plain) (refreshTokens (db w)) = found.
Proof. unfold run. simpl. congruence. Qed.

Ltac step_rotate H :=
  apply findRefreshTokenByPlain_find in H;
  unfold run, exec, rotateRefreshToken, findRefreshTokenByPlain,
    prisma_refreshToken_findFirst, bind, readDb, ret;
  simpl; rewrite H; simpl.


(** C3. Presenting a plaintext whose record is not revoked and whose
    [expiresAt] is at or before the current time fails with
    REFRESH_EXPIRED and writes nothing: the store is as it was. *)
Theorem rotate_expired_leaves_store plainToken meta w existing :
  run (findRefreshTokenByPlain plainToken) w = Ok (Some existing) ->
  rt_revokedAt existing = None ->
  rt_expiresAt existing <= now w ->
  run (rotateRefreshToken plainToken meta) w = Throw REFRESH_EXPIRED /\
  db (exec (rotateRefreshToken plainToken meta) w) = db w /\
  history (exec (rotateRefreshToken plainToken meta) w) = history w.
Proof.
  intros Hfind Hrev Hexp. step_rotate Hfind. rewrite Hrev. simpl.
  apply Z.leb_le in Hexp. unfold now in Hexp. rewrite Hexp. simpl.
  repeat split.
Qed.

Lemma filter_length_In {A} (f : A -> bool) (x : A) (l : list A) :
  In x l -> f x = true -> (1 <= List.length (filter f l))%nat.
Proof.
  intros Hin Hf. assert (Hx : In x (filter f l)) by (apply filter_In; auto).
  destruct (filter f l); [contradiction | simpl; lia].
Qed.

Lemma existsb_id_In (x : RefreshToken) (l : list RefreshToken) :
  In x l -> existsb (fun r => (rt_id r =? rt_id x)%Z) l = true.
Proof.
  intros Hin. apply existsb_exists. exists x. split; [exact Hin | apply Z.eqb_refl].
Qed.

(** The two runs of an insert. *)
Lemma create_accepted data w :
  accepts (db w) data = true ->
  prisma_refreshToken_create data w
  = (let row :=
       mkRefreshToken (refreshTokenSeq (db w)) (new_adminId data) (new_customerId data)
         (new_familyId data) (new_tokenHash data) (new_userAgent data) (new_ip data)
         (clock w (ticks w)) (new_expiresAt data) None None in
     let d := with_refreshTokens (db w) (refreshTokens (db w) ++ [row])
                (refreshTokenSeq (db w) + 1) in
     (Ok row,
      mkWorld d (history w ++ [d]) (clock w) (S (ticks w)) (entropy w) (draws w))).
Proof.
  intros Hacc. unfold prisma_refreshToken_create, bind, readDb. rewrite Hacc. reflexivity.
Qed.

Lemma create_refused data w :
  accepts (db w) data = false ->
  prisma_refreshToken_create data w = (Throw (LibErr "PrismaClientKnownRequestError"), w).
Proof.
  intros Hacc. unfold prisma_refreshToken_create, bind, readDb. rewrite Hacc. reflexivity.
Qed.

Lemma accepts_storable d adminId customerId familyId tokenHash meta expiresAt :
  accepts d (mkRefreshTokenCreate adminId customerId familyId tokenHash
               (userAgent_column (userAgent meta)) (ip meta) expiresAt)
  = storable d adminId customerId meta.
Proof. reflexivity. Qed.

(** The run of a rotation that passes the three checks and whose insert the
    database accepts. *)
Lemma rotate_success plainToken meta w existing :
  find (fun r => rt_tokenHash r =? hashToken plainToken) (refreshTokens (db w))
    = Some existing ->
  rt_revokedAt existing = None ->
  (rt_expiresAt existing <=? now w)%Z = false ->
  storable (db w) (rt_adminId existing) (rt_customerId existing) meta = true ->
  let newRec := successor w existing meta in
  let d1 := created (db w) newRec in
  let d2 := revoked d1 (rt_id existing) (clock w (3 + ticks w)) (rt_id newRec) in
  rotateRefreshToken plainToken meta w
  = (Ok (rotated_of w existing),
     mkWorld d2 (history w ++ [d1; d2]) (clock w) (4 + ticks w) (entropy w) (1 + draws w)).
Proof.
  intros Hfind Hrev Hexp Hacc. pose proof (find_some _ _ Hfind) as [Hin _].
  unfold rotateRefreshToken, findRefreshTokenByPlain, prisma_refreshToken_findFirst,
    prisma_refreshToken_create, prisma_refreshToken_update, bind, readDb, writeDb,
    Date_now, randomHex, ret, now in *.
  cbn [fst snd db history clock ticks entropy draws]. rewrite Hfind. cbv beta iota.
  rewrite Hrev, Hexp. cbv beta iota.
  cbn [fst snd db history clock ticks entropy draws].
  rewrite accepts_storable, Hacc. simpl.
  rewrite existsb_app, (existsb_id_In _ _ Hin). simpl.
  rewrite <- app_assoc. reflexivity.
Qed.

(** The run of a rotation that passes the three checks and whose insert the
    database refuses: the error of the insert, and nothing written. *)
Lemma rotate_refused plainToken meta w existing :
  find (fun r => rt_tokenHash r =? hashToken plainToken) (refreshTokens (db w))
    = Some existing ->
  rt_revokedAt existing = None ->
  (rt_expiresAt existing <=? now w)%Z = false ->
  storable (db w) (rt_adminId existing) (rt_customerId existing) meta = false ->
  rotateRefreshToken plainToken meta w
  = (Throw (LibErr "PrismaClientKnownRequestError"),
     mkWorld (db w) (history w) (clock w) (2 + ticks w) (entropy w) (1 + draws w)).
Proof.
  intros Hfind Hrev Hexp Hacc.
  unfold rotateRefreshToken, findRefreshTokenByPlain, prisma_refreshToken_findFirst,
    prisma_refreshToken_create, prisma_refreshToken_update, bind, readDb, writeDb,
    Date_now, randomHex, ret, now in *.
  cbn [fst snd db history clock ticks entropy draws]. rewrite Hfind. cbv beta iota.
  rewrite Hrev, Hexp. cbv beta iota.
  cbn [fst snd db history clock ticks entropy draws].
  rewrite accepts_storable, Hacc. reflexivity.
Qed.

(** A rotation that succeeds has passed the three checks, and the
    database has accepted its insert. *)
Lemma rotate_Ok_inv plainToken meta w ro :
  run (rotateRefreshToken plainToken meta) w = Ok ro ->
  exists existing,
    find (fun r => rt_tokenHash r =? hashToken plainToken) (refreshTokens (db w))
      = Some existing /\
    rt_revokedAt existing = None /\
    (rt_expiresAt existing <=? now w)%Z = false /\
    storable (db w) (rt_adminId existing) (rt_customerId existing) meta = true.
Proof.
  unfold run, rotateRefreshToken, findRefreshTokenByPlain, prisma_refreshToken_findFirst,
    prisma_refreshToken_create, bind, readDb, ret, now.
  cbn [fst snd db history clock ticks entropy draws Date_now randomHex].
  destruct (find _ _) as [existing|]; [|discriminate]. cbv beta iota.
  destruct (rt_revokedAt existing) eqn:Hrev; [discriminate|]. cbv beta iota.
  destruct (rt_expiresAt existing <=? clock w (ticks w))%Z eqn:Hexp; [discriminate|].
  cbv beta iota. cbn [fst snd db history clock ticks entropy draws].
  rewrite accepts_storable.
  destruct (storable _ _ _ _) eqn:Hacc; [|discriminate].
  intros _. exists existing. auto.
Qed.

(** C2, as the code has it. A successful rotation writes twice, in this
    order: it first creates the successor, non-revoked and of the family of
    the presented record, and then revokes the presented record and links
    it to the successor.  Between the two writes the family has at least
    two non-revoked records; after the second, every record with the
    presented record's id is revoked and linked. *)
Theorem rotate_creates_then_revokes plainToken meta w ro :
  run (rotateRefreshToken plainToken meta) w = Ok ro ->
  exists existing newRec date,
    run (findRefreshTokenByPlain plainToken) w = Ok (Some existing) /\
    rt_revokedAt existing = None /\
    rt_familyId newRec = rt_familyId existing /\
    rt_revokedAt newRec = None /\
    let d1 := created (db w) newRec in
    let d2 := revoked d1 (rt_id existing) date (rt_id newRec) in
    history (exec (rotateRefreshToken plainToken meta) w) = (history w ++ [d1; d2])%list /\
    db (exec (rotateRefreshToken plainToken meta) w) = d2 /\
    (2 <= active_in_family (rt_familyId existing) d1)%nat /\
    forall r, In r (refreshTokens d2) -> rt_id r = rt_id existing ->
      rt_revokedAt r = Some date /\ rt_replacedById r = Some (rt_id newRec).
Proof.
  intros Hrun. destruct (rotate_Ok_inv _ _ _ Hrun) as [existing [Hfind [Hrev [Hexp Hacc]]]].
  pose proof (find_some _ _ Hfind) as [Hin _].
  exists existing, (successor w existing meta), (clock w (3 + ticks w)).
  unfold exec. rewrite (rotate_success _ meta _ Hfind Hrev Hexp Hacc).
  split; [unfold run; simpl; rewrite Hfind; reflexivity|].
  split; [exact Hrev|]. split; [reflexivity|]. split; [reflexivity|].
  split; [reflexivity|]. split; [reflexivity|]. split.
  - unfold active_in_family, created, with_refreshTokens. simpl.
    rewrite filter_app, length_app.
    assert (Nat.le 1 (List.length (filter
              (fun r => (rt_familyId r =? rt_familyId existing) && active r)%bool
              (refreshTokens (db w))))).
    { apply filter_length_In with (x := existing); [exact Hin|].
      unfold active. rewrite Hrev, String.eqb_refl. reflexivity. }
    simpl. rewrite String.eqb_refl. simpl. lia.
  - intros r Hr Hid. unfold revoked, created, with_refreshTokens in Hr. simpl in Hr.
    apply in_map_iff in Hr. destruct Hr as [r0 [<- Hr0]].
    unfold revoke_and_link in *.
    destruct (rt_id r0 =? rt_id existing)%Z eqn:E; simpl.
    + split; reflexivity.
    + apply Z.eqb_neq in E. contradiction.
Qed.

Lemma find_app_Some {A} (f : A -> bool) (l l' : list A) (x : A) :
  find f l = Some x -> find f (l ++ l') = Some x.
Proof.
  induction l as [|a l IH]; simpl; [discriminate|].
  destruct (f a); [trivial | exact IH].
Qed.

Lemma find_map_same {A} (f : A -> bool) (g : A -> A) (l : list A) :
  (forall a, f (g a) = f a) -> find f (map g l) = option_map g (find f l).
Proof.
  intros Hfg. induction l as [|a l IH]; simpl; [reflexivity|].
  rewrite Hfg. destruct (f a); [reflexivity | exact IH].
Qed.

Lemma revoke_and_link_tokenHash id date link r :
  rt_tokenHash (revoke_and_link id date link r) = rt_tokenHash r.
Proof. unfold revoke_and_link. destruct (rt_id r =? id)%Z; reflexivity. Qed.

(** A plaintext rotates once: after a successful rotation, presenting the
    same plaintext again is a reuse. *)
Lemma rotate_again_is_reuse plainToken meta meta' w ro :
  run (rotateRefreshToken plainToken meta) w = Ok ro ->
  run (rotateRefreshToken plainToken meta') (exec (rotateRefreshToken plainToken meta) w)
  = Throw REFRESH_REUSE.
Proof.
  intros Hrun. destruct (rotate_Ok_inv _ _ _ Hrun) as [existing [Hfind [Hrev [Hexp Hacc]]]].
  unfold exec. rewrite (rotate_success _ meta _ Hfind Hrev Hexp Hacc). simpl.
  set (newRec := successor w existing meta).
  assert (Hfind' : forall date link,
    find (fun r => rt_tokenHash r =? hashToken plainToken)
      (map (revoke_and_link (rt_id existing) date link)
         (refreshTokens (db w) ++ [newRec]))
    = Some (revoke_and_link (rt_id existing) date link existing)).
  { intros date link. rewrite find_map_same.
    - rewrite (find_app_Some _ _ _ Hfind). reflexivity.
    - intros a. rewrite revoke_and_link_tokenHash. reflexivity. }
  unfold run, rotateRefreshToken, findRefreshTokenByPlain, prisma_refreshToken_findFirst,
    bind, readDb, ret.
  simpl. rewrite Hfind'.
  unfold revoke_and_link at 1. rewrite Z.eqb_refl. reflexivity.
Qed.

End Rotation.

(** ** Access tokens *)

Section Tokens.

Context {L : Libs}.
Variable env : Env.

Lemma hours_in_seconds hours : (hours * 3600000) / 1000 = hours * 3600.
Proof.
  replace (hours * 3600000) with (hours * 3600 * 1000) by lia.
  apply Z.div_mul. lia.
Qed.

(** What the issuer mints in the world [w]. *)
Lemma issue_mints k id w :
  issue env k id w
  = (Ok (jws_encode (JWT_SECRET env)
           (payload_of k id (now w / 1000) (JWT_EXPIRES_HOURS env))),
     tick w).
Proof.
  destruct k; unfold issue, generateToken, generateCustomerToken, jwt_sign, bind,
    Date_now, ret, payload_of, now, tick; simpl; rewrite hours_in_seconds; reflexivity.
Qed.

Lemma jws_encode_truthy key p : truthy (jws_encode key p) = true.
Proof.
  unfold truthy. destruct (jws_encode key p =? "") eqn:E; [|reflexivity].
  apply String.eqb_eq in E. pose proof (jws_decode_encode key p) as H.
  rewrite E, jws_decode_empty in H. discriminate.
Qed.

(** Verification of a token signed with the process secret: it fails once
    the clock, in seconds, has reached [exp]. *)
Lemma verifyToken_signed p exp w :
  jp_exp p = Some exp ->
  run (verifyToken env (jws_encode (JWT_SECRET env) p)) w
  = if (exp <=? now w / 1000)%Z then Throw INVALID_TOKEN else Ok p.
Proof.
  intros Hexp.
  unfold run, verifyToken, try_catch, jwt_verify, bind, Date_now, throwApp, throw, ret, now.
  simpl. rewrite jws_encode_truthy, jws_decode_encode. simpl.
  rewrite String.eqb_refl, Hexp. simpl.
  destruct (exp <=? clock w (ticks w) / 1000)%Z; reflexivity.
Qed.

Lemma payload_of_exp k id iat hours :
  jp_exp (payload_of k id iat hours) = Some (iat + hours * 3600).
Proof. destruct k; reflexivity. Qed.

(** C5, as the code has it. A token that the issuer mints lives
    JWT_EXPIRES_HOURS hours: whenever it is verified, verification fails
    with INVALID_TOKEN if the clock, in seconds, has reached the second of
    issuance plus 3600 times JWT_EXPIRES_HOURS, and returns the payload
    otherwise. *)
Theorem access_token_lives_configured_hours k id w token w' :
  run (issue env k id) w = Ok token ->
  run (verifyToken env token) w'
  = if (now w / 1000 + JWT_EXPIRES_HOURS env * 3600 <=? now w' / 1000)%Z
    then Throw INVALID_TOKEN
    else Ok (payload_of k id (now w / 1000) (JWT_EXPIRES_HOURS env)).
Proof.
  unfold run at 1. rewrite issue_mints. simpl. intros [= <-].
  apply verifyToken_signed, payload_of_exp.
Qed.


End Tokens.

(** ** The refresh endpoint *)

Section Refresh.

Context {L : Libs}.
Variable env : Env.




End Refresh.

(** ** Login *)

Section Login.

Context {L : Libs}.
Variable env : Env.

(** C9. A login whose email matches no admin and a login whose email
    matches an active admin but whose password the hash rejects fail with
    the same error: same message, same status, same code.  Neither writes
    to the store. *)
Theorem login_failures_indistinguishable email password w email' password' w' admin :
  run (prisma_admin_findUnique_email email) w = Ok None ->
  run (prisma_admin_findUnique_email email') w' = Ok (Some admin) ->
  adm_isActive admin = true ->
  comparePassword password' (adm_passwordHash admin) = false ->
  run (login env email password) w = Throw INVALID_CREDENTIALS /\
  run (login env email' password') w' = Throw INVALID_CREDENTIALS /\
  exec (login env email password) w = w /\
  exec (login env email' password') w' = w'.
Proof.
  unfold run, exec, login, prisma_admin_findUnique_email, bind, readDb, ret. simpl.
  intros [= ->] [= ->] Hactive Hpw. simpl.
  rewrite Hactive, Hpw. simpl. repeat split.
Qed.

End Login.

(** ** The guards *)

Section Guards.

Context {L : Libs}.
Variable env : Env.

(** Verification writes nothing. *)
Lemma verifyToken_db token w : db (exec (verifyToken env token) w) = db w.
Proof.
  unfold exec, verifyToken, try_catch, jwt_verify, bind, Date_now, throwApp, throw, ret.
  simpl. destruct (truthy token); simpl; [|reflexivity].
  destruct (jws_decode token) as [[key payload]|]; simpl; [|reflexivity].
  destruct (key =? JWT_SECRET env); simpl; [|reflexivity].
  destruct (jp_exp payload) as [exp|]; simpl; [|reflexivity].
  destruct (exp <=? clock w (ticks w) / 1000)%Z; reflexivity.
Qed.

(** The admin guard on a request that carries an unexpired token minted
    for the admin [id]: the admin is looked up by [id]; the guard hands over
    ADMIN_NOT_FOUND when there is none, ACCOUNT_DEACTIVATED when the admin
    is not active, and the request with the admin attached otherwise. *)
Lemma authenticateAdmin_resolves req id w0 token w :
  run (issue env KAdmin id) w0 = Ok token ->
  extractToken req = Some token ->
  now w / 1000 < now w0 / 1000 + JWT_EXPIRES_HOURS env * 3600 ->
  run (authenticateAdmin env req) w
  = Ok match find (fun a => (adm_id a =? id)%Z) (admins (db w)) with
       | None => NextErr ADMIN_NOT_FOUND
       | Some admin =>
           if adm_isActive admin then
             NextOk (attach_admin req
                       (mkAdminResponse (adm_id admin) (adm_name admin) (adm_email admin)
                          (adm_isActive admin) (adm_createdAt admin) (adm_lastLogin admin)))
           else NextErr ACCOUNT_DEACTIVATED
       end.
Proof.
  intros Hissue Htoken Hlive.
  unfold run in Hissue. rewrite issue_mints in Hissue. injection Hissue as <-.
  apply Z.leb_gt in Hlive.
  unfold run, authenticateAdmin, try_catch, bind. rewrite Htoken.
  unfold truthy_opt. rewrite jws_encode_truthy. cbn [negb]. cbv beta iota.
  pose proof (verifyToken_signed env _ w (payload_of_exp KAdmin id (now w0 / 1000)
                                         (JWT_EXPIRES_HOURS env))) as Hver.
  rewrite Hlive in Hver. unfold run in Hver.
  pose proof (verifyToken_db (jws_encode (JWT_SECRET env)
                (payload_of KAdmin id (now w0 / 1000) (JWT_EXPIRES_HOURS env))) w) as Hdb.
  unfold exec in Hdb.
  destruct (verifyToken env _ w) as [res w1]. simpl in Hver, Hdb. subst res.
  simpl. unfold getAdminById, prisma_admin_findUnique_id, bind, readDb, ret. simpl.
  rewrite Hdb. destruct (find _ _) as [admin|]; simpl; [|reflexivity].
  destruct (adm_isActive admin); reflexivity.
Qed.

(** The customer guard on a request that carries an unexpired token
    minted for the customer [id]: the customer is looked up by [id]; the
    guard hands over CUSTOMER_NOT_FOUND when there is none, and otherwise
    the request with the customer attached, whatever [isActive] is. *)
Lemma authenticateCustomer_resolves req id w0 token w :
  run (issue env KCustomer id) w0 = Ok token ->
  extractToken req = Some token ->
  now w / 1000 < now w0 / 1000 + JWT_EXPIRES_HOURS env * 3600 ->
  run (authenticateCustomer env req) w
  = Ok match find (fun c => (cus_id c =? id)%Z) (customers (db w)) with
       | None => NextErr CUSTOMER_NOT_FOUND
       | Some customer =>
           NextOk (attach_customer req
                     (mkCustomerResponse (cus_id customer) (cus_name customer)
                        (cus_email customer) (cus_isActive customer)
                        (cus_createdAt customer) (cus_lastLogin customer)))
       end.
Proof.
  intros Hissue Htoken Hlive.
  unfold run in Hissue. rewrite issue_mints in Hissue. injection Hissue as <-.
  apply Z.leb_gt in Hlive.
  unfold run, authenticateCustomer, try_catch, bind. rewrite Htoken.
  unfold truthy_opt. rewrite jws_encode_truthy. cbn [negb]. cbv beta iota.
  pose proof (verifyToken_signed env _ w (payload_of_exp KCustomer id (now w0 / 1000)
                                         (JWT_EXPIRES_HOURS env))) as Hver.
  rewrite Hlive in Hver. unfold run in Hver.
  pose proof (verifyToken_db (jws_encode (JWT_SECRET env)
                (payload_of KCustomer id (now w0 / 1000) (JWT_EXPIRES_HOURS env))) w) as Hdb.
  unfold exec in Hdb.
  destruct (verifyToken env _ w) as [res w1]. simpl in Hver, Hdb. subst res.
  simpl. unfold getCustomerById, prisma_customer_findUnique_id, bind, readDb, ret. simpl.
  rewrite Hdb. destruct (find _ _) as [customer|]; reflexivity.
Qed.

End Guards.

(** ** The CSRF guard *)

Section Csrf.

Lemma mutating_unsafe method : mutating method <-> unsafe_method (toUpperCase method) = true.
Proof.
  unfold mutating, unsafe_method. simpl. rewrite !orb_true_iff, !String.eqb_eq.
  intuition congruence.
Qed.

(** C8. On a state-changing method the guard rejects with CSRF_MISMATCH
    (status 403) whenever the x-csrf-token header is absent or is not the
    value of the csrf_token cookie; on any other method it hands over,
    whatever the header and the cookie are. *)
Theorem verifyCsrf_double_submit req :
  (mutating (req_method req) ->
   req_x_csrf_token req = None \/
   req_x_csrf_token req <> cookie CSRF_COOKIE (req_cookies req) ->
   verifyCsrf req = CsrfReject 403 "CSRF_MISMATCH" "Invalid CSRF token") /\
  (~ mutating (req_method req) -> verifyCsrf req = CsrfNext).
Proof.
  unfold verifyCsrf. split.
  - intros Hm Hbad. apply mutating_unsafe in Hm. rewrite Hm. simpl.
    destruct (cookie CSRF_COOKIE (req_cookies req)) as [c|]; [|reflexivity].
    destruct (req_x_csrf_token req) as [h|]; [|reflexivity].
    destruct Hbad as [Hbad|Hbad]; [discriminate|].
    assert (Hne : (c =? h) = false).
    { apply String.eqb_neq. intros ->. apply Hbad. reflexivity. }
    rewrite Hne. simpl. rewrite !orb_true_r. reflexivity.
  - intros Hm. destruct (unsafe_method (toUpperCase (req_method req))) eqn:E.
    + exfalso. apply Hm, mutating_unsafe, E.
    + reflexivity.
Qed.

End Csrf.

(** ** Extraction of the bearer token *)

Section Extraction.

Lemma append_nil_r s : s ++ "" = s.
Proof. induction s as [|c s IH]; simpl; [reflexivity | rewrite IH; reflexivity]. Qed.

Lemma append_snoc acc c s : (acc ++ String c "") ++ s = acc ++ String c s.
Proof. induction acc as [|a acc IH]; simpl; [reflexivity | rewrite IH; reflexivity]. Qed.

Lemma split_aux_not_nil sep acc s : split_aux sep acc s <> [].
Proof.
  revert acc. induction s as [|c s IH]; intros acc; simpl; [discriminate|].
  destruct (Ascii.eqb c sep); [discriminate | apply IH].
Qed.

(** A string without the separator is a single field. *)
Lemma split_aux_free sep acc s :
  contains sep s = false -> split_aux sep acc s = [acc ++ s].
Proof.
  revert acc. induction s as [|c s IH]; intros acc; simpl.
  - rewrite append_nil_r. reflexivity.
  - intros H. apply orb_false_iff in H. destruct H as [Hc Hs].
    rewrite Hc, (IH _ Hs), append_snoc. reflexivity.
Qed.

Lemma split_aux_one sep acc s b :
  split_aux sep acc s = [b] -> b = acc ++ s /\ contains sep s = false.
Proof.
  revert acc. induction s as [|c s IH]; intros acc; simpl.
  - intros [= <-]. rewrite append_nil_r. auto.
  - destruct (Ascii.eqb c sep) eqn:E.
    + intros [= _ H]. exfalso. exact (split_aux_not_nil _ _ _ H).
    + intros H. apply IH in H. rewrite append_snoc in H. simpl. exact H.
Qed.

Lemma split_aux_two sep acc s a b :
  split_aux sep acc s = [a; b] ->
  acc ++ s = a ++ String sep b /\ contains sep b = false.
Proof.
  revert acc. induction s as [|c s IH]; intros acc; simpl.
  - discriminate.
  - destruct (Ascii.eqb c sep) eqn:E.
    + intros [= <- H]. apply Ascii.eqb_eq in E. subst c.
      apply split_aux_one in H. simpl in H. destruct H as [-> H]. auto.
    + intros H. apply IH in H. rewrite append_snoc in H. exact H.
Qed.

(** X1. Where the token comes from.  An Authorization header [Bearer t],
    with [t] free of spaces, makes [t] the token, whatever the access_token
    cookie holds; and whenever the token is not the value of the cookie, the
    header is exactly [Bearer], one space and the token. *)
Theorem extractToken_header_then_cookie req :
  (forall t,
     req_authorization req = Some ("Bearer " ++ t) ->
     contains " " t = false ->
     extractToken req = Some t) /\
  (extractToken req = cookie "access_token" (req_cookies req) \/
   exists t,
     req_authorization req = Some ("Bearer " ++ t) /\
     contains " " t = false /\
     extractToken req = Some t).
Proof.
  split.
  - intros t Hh Ht. unfold extractToken. rewrite Hh. simpl.
    rewrite (split_aux_free _ _ _ Ht). reflexivity.
  - unfold extractToken. destruct (req_authorization req) as [h|]; [|left; reflexivity].
    destruct (truthy h); [|left; reflexivity].
    destruct (split " " h) as [|p0 [|p1 [|p2 rest]]] eqn:Hs; try (left; reflexivity).
    destruct (p0 =? "Bearer") eqn:Hp; [|left; reflexivity].
    apply String.eqb_eq in Hp. subst p0. right. exists p1.
    apply split_aux_two in Hs. simpl in Hs. destruct Hs as [-> Hfree].
    auto.
Qed.

End Extraction.

(** ** Computations that do not write *)

Section ReadOnly.

Lemma read_only_ret {A} (a : A) : read_only (ret a).
Proof. intros w. split; reflexivity. Qed.

Lemma read_only_throw {A} (e : Exn) : read_only (@throw A e).
Proof. intros w. split; reflexivity. Qed.

Lemma read_only_Date_now : read_only Date_now.
Proof. intros w. split; reflexivity. Qed.

Lemma read_only_readDb : read_only readDb.
Proof. intros w. split; reflexivity. Qed.

Lemma read_only_bind {A B} (m : M A) (k : A -> M B) :
  read_only m -> (forall a, read_only (k a)) -> read_only (bind m k).
Proof.
  intros Hm Hk w. specialize (Hm w). unfold exec, bind in *.
  destruct (m w) as [[a|e] w1]; simpl in *.
  - destruct Hm as [Hm1 Hm2]. destruct (Hk a w1) as [H1 H2]. unfold exec in *.
    split; congruence.
  - exact Hm.
Qed.

Lemma read_only_try_catch {A} (m : M A) (h : Exn -> M A) :
  read_only m -> (forall e, read_only (h e)) -> read_only (try_catch m h).
Proof.
  intros Hm Hh w. specialize (Hm w). unfold exec, try_catch in *.
  destruct (m w) as [[a|e] w1]; simpl in *.
  - exact Hm.
  - destruct Hm as [Hm1 Hm2]. destruct (Hh e w1) as [H1 H2]. unfold exec in *.
    split; congruence.
Qed.

End ReadOnly.

(** ** The guards on every request *)

Section GuardsMore.

Context {L : Libs}.
Variable env : Env.

Ltac read_only_step :=
  first
    [ apply read_only_ret
    | apply read_only_throw
    | apply read_only_Date_now
    | apply read_only_readDb
    | apply read_only_try_catch; [| intros ?]
    | apply read_only_bind; [| intros ?]
    | progress cbv zeta
    | match goal with
      | |- read_only (if ?b then _ else _) => destruct b
      | |- read_only (match ?o with Some _ => _ | None => _ end) => destruct o
      | |- read_only (let (_, _) := ?p in _) => destruct p
      end ].

Ltac read_only_steps := repeat read_only_step.

Lemma read_only_verifyToken token : read_only (verifyToken env token).
Proof. unfold verifyToken, jwt_verify, throwApp. read_only_steps. Qed.

Lemma read_only_getAdminById id : read_only (getAdminById id).
Proof. unfold getAdminById, prisma_admin_findUnique_id, throwApp. read_only_steps. Qed.

Lemma read_only_getCustomerById id : read_only (getCustomerById id).
Proof. unfold getCustomerById, prisma_customer_findUnique_id, throwApp. read_only_steps. Qed.

(** X2. The three authentication middlewares never write: whatever the
    request and the store, the store and its history of writes are after
    the middleware what they were before. *)
Theorem guards_never_write req :
  read_only (authenticateAdmin env req) /\
  read_only (authenticateCustomer env req) /\
  read_only (optionalAuth env req).
Proof.
  unfold authenticateAdmin, authenticateCustomer, optionalAuth, throwApp.
  repeat split;
    repeat first [ apply read_only_verifyToken
                 | apply read_only_getAdminById
                 | apply read_only_getCustomerById
                 | read_only_step ].
Qed.

(** Verification of a token signed with the process secret, with the
    world it leaves. *)
Lemma verifyToken_minted p exp w :
  jp_exp p = Some exp ->
  verifyToken env (jws_encode (JWT_SECRET env) p) w
  = (if (exp <=? now w / 1000)%Z then Throw INVALID_TOKEN else Ok p, tick w).
Proof.
  intros Hexp.
  unfold verifyToken, try_catch, jwt_verify, bind, Date_now, throwApp, throw, ret, now, tick.
  simpl. rewrite jws_encode_truthy, jws_decode_encode. simpl.
  rewrite String.eqb_refl, Hexp. simpl.
  destruct (exp <=? clock w (ticks w) / 1000)%Z; reflexivity.
Qed.

(** Verification of a string that is not a token signed with the process
    secret. *)
Lemma verifyToken_foreign token w :
  (forall p, jws_decode token <> Some (JWT_SECRET env, p)) ->
  verifyToken env token w = (Throw INVALID_TOKEN, tick w).
Proof.
  intros Hforeign.
  unfold verifyToken, try_catch, jwt_verify, bind, Date_now, throwApp, throw, ret, tick.
  simpl. destruct (truthy token); simpl; [|reflexivity].
  destruct (jws_decode token) as [[key p]|] eqn:Hd; simpl; [|reflexivity].
  destruct (key =? JWT_SECRET env) eqn:Hk; simpl; [|reflexivity].
  apply String.eqb_eq in Hk. subst key. exfalso. exact (Hforeign p eq_refl).
Qed.

Lemma minted_token k id w0 token :
  run (issue env k id) w0 = Ok token ->
  token = jws_encode (JWT_SECRET env)
            (payload_of k id (now w0 / 1000) (JWT_EXPIRES_HOURS env)).
Proof. unfold run. rewrite issue_mints. simpl. congruence. Qed.

Lemma kind_type_inj k k' : kind_type k = kind_type k' -> k = k'.
Proof. destruct k, k'; simpl; intros H; try reflexivity; discriminate. Qed.

Lemma payload_of_type k id iat hours : jp_type (payload_of k id iat hours) = kind_type k.
Proof. destruct k; reflexivity. Qed.

(** X3. A token of one kind is refused by the guard of the other kind:
    an unexpired token that the issuer minted for a customer is handed over
    by the admin guard with INVALID_TOKEN_TYPE, and an admin's token by the
    customer guard likewise; no principal is looked up. *)
Theorem guard_rejects_other_kind k k' id w0 token req w :
  run (issue env k id) w0 = Ok token ->
  extractToken req = Some token ->
  now w / 1000 < now w0 / 1000 + JWT_EXPIRES_HOURS env * 3600 ->
  k <> k' ->
  run (guard env k' req) w = Ok (NextErr INVALID_TOKEN_TYPE).
Proof.
  intros Hissue Htoken Hlive Hk. apply minted_token in Hissue. subst token.
  apply Z.leb_gt in Hlive.
  assert (Htype : (jp_type (payload_of k id (now w0 / 1000) (JWT_EXPIRES_HOURS env))
                   =? kind_type k') = false).
  { apply String.eqb_neq. rewrite payload_of_type. intros H.
    apply Hk, kind_type_inj, H. }
  destruct k'; unfold run, guard, authenticateAdmin, authenticateCustomer, try_catch, bind;
    rewrite Htoken; unfold truthy_opt; rewrite jws_encode_truthy; cbn [negb]; cbv beta iota;
    erewrite verifyToken_minted by apply payload_of_exp; rewrite Hlive;
    simpl in Htype; rewrite Htype; reflexivity.
Qed.

(** X4. An expired token is refused by both guards: when the clock, in
    seconds, has reached the expiry of a token that the issuer minted, the
    guard of either kind hands over INVALID_TOKEN. *)
Theorem guard_rejects_expired k k' id w0 token req w :
  run (issue env k id) w0 = Ok token ->
  extractToken req = Some token ->
  now w0 / 1000 + JWT_EXPIRES_HOURS env * 3600 <= now w / 1000 ->
  run (guard env k' req) w = Ok (NextErr INVALID_TOKEN).
Proof.
  intros Hissue Htoken Hdead. apply minted_token in Hissue. subst token.
  apply Z.leb_le in Hdead.
  destruct k'; unfold run, guard, authenticateAdmin, authenticateCustomer, try_catch, bind;
    rewrite Htoken; unfold truthy_opt; rewrite jws_encode_truthy; cbn [negb]; cbv beta iota;
    erewrite verifyToken_minted by apply payload_of_exp; rewrite Hdead; reflexivity.
Qed.

(** X5. Requests without a token of this process.  Both guards hand over
    TOKEN_REQUIRED when the request has no token (no usable Authorization
    header and no access_token cookie, or an empty token), and
    INVALID_TOKEN when the token does not decode to a payload signed with
    the process secret (a string that is no token, or a token signed with
    another key), whatever it claims. *)
Theorem guard_rejects_untrusted k req w :
  (extractToken req = None \/ extractToken req = Some "" ->
   run (guard env k req) w = Ok (NextErr TOKEN_REQUIRED)) /\
  (forall token,
     extractToken req = Some token ->
     token <> "" ->
     (forall p, jws_decode token <> Some (JWT_SECRET env, p)) ->
     run (guard env k req) w = Ok (NextErr INVALID_TOKEN)).
Proof.
  split.
  - intros [H|H]; destruct k;
      unfold run, guard, authenticateAdmin, authenticateCustomer, try_catch;
      rewrite H; reflexivity.
  - intros token Htoken Hne Hforeign.
    assert (Ht : truthy token = true).
    { unfold truthy. apply negb_true_iff, String.eqb_neq, Hne. }
    destruct k; unfold run, guard, authenticateAdmin, authenticateCustomer, try_catch, bind;
      rewrite Htoken; unfold truthy_opt; rewrite Ht; cbn [negb]; cbv beta iota;
      rewrite verifyToken_foreign by exact Hforeign; reflexivity.
Qed.

(** X6. [optionalAuth] never hands over an error.  The request goes on
    either as it came or with an admin attached, and an admin is attached
    only if it is a row of [admins] with [isActive] true. *)
Theorem optionalAuth_never_fails req w :
  exists req',
    run (optionalAuth env req) w = Ok (NextOk req') /\
    (req' = req \/
     exists a, In a (admins (db w)) /\ adm_isActive a = true /\
               req' = attach_admin req (admin_response a)).
Proof.
  unfold run, optionalAuth, try_catch, bind.
  destruct (truthy_opt (extractToken req)); [|eexists; split; [reflexivity | left; reflexivity]].
  pose proof (read_only_verifyToken
                (match extractToken req with Some t => t | None => "" end) w) as [Hdb _].
  unfold exec in Hdb.
  destruct (verifyToken env _ w) as [[decoded|e] w1]; simpl in *;
    [|eexists; split; [reflexivity | left; reflexivity]].
  destruct (jp_type decoded =? "admin");
    [|eexists; split; [reflexivity | left; reflexivity]].
  unfold getAdminById, prisma_admin_findUnique_id, bind, readDb, ret, throwApp, throw.
  destruct (jp_adminId decoded) as [id|]; simpl;
    [|eexists; split; [reflexivity | left; reflexivity]].
  destruct (find _ (admins (db w1))) as [a|] eqn:Hfind; simpl;
    [|eexists; split; [reflexivity | left; reflexivity]].
  destruct (adm_isActive a) eqn:Hactive; simpl;
    [|eexists; split; [reflexivity | left; reflexivity]].
  eexists. split; [reflexivity|]. right. exists a.
  apply find_some in Hfind. rewrite Hdb in Hfind. destruct Hfind as [Hin _].
  split; [exact Hin | split; [exact Hactive |]].
  unfold admin_response. rewrite Hactive. reflexivity.
Qed.

(** X7. A request that the admin guard lets through carries an admin, so
    [requirePermission] lets it through for every permission.  Every
    request without an admin is refused with AUTH_REQUIRED, whatever the
    permission and the world; the customer guard attaches no admin, so a
    request that came without one and that only the customer guard has let
    through is refused too. *)
Theorem requirePermission_after_guard permission w' :
  (forall req w req',
     run (authenticateAdmin env req) w = Ok (NextOk req') ->
     requirePermission permission req' w' = (Ok (NextOk req'), w')) /\
  (forall req,
     req_admin req = None ->
     requirePermission permission req w' = (Throw AUTH_REQUIRED, w')) /\
  (forall req w req',
     req_admin req = None ->
     run (authenticateCustomer env req) w = Ok (NextOk req') ->
     requirePermission permission req' w' = (Throw AUTH_REQUIRED, w')).
Proof.
  split; [|split].
  - intros req w req' Hrun.
    assert (Hadmin : exists a, req_admin req' = Some a).
    { revert Hrun. unfold run, authenticateAdmin, try_catch, bind, throwApp, throw, ret.
      destruct (negb (truthy_opt (extractToken req))); simpl; [discriminate|].
      destruct (verifyToken env _ w) as [[decoded|e] w1]; simpl; [|discriminate].
      destruct (negb (jp_type decoded =? "admin")); simpl; [discriminate|].
      destruct (getAdminById (jp_adminId decoded) w1) as [[a|e] w2]; simpl; [|discriminate].
      intros [= <-]. exists a. reflexivity. }
    destruct Hadmin as [a Ha]. unfold requirePermission. rewrite Ha. reflexivity.
  - intros req Hnone. unfold requirePermission. rewrite Hnone. reflexivity.
  - intros req w req' Hnone Hrun.
    assert (Hadmin : req_admin req' = None).
    { revert Hrun. unfold run, authenticateCustomer, try_catch, bind, throwApp, throw, ret.
      destruct (negb (truthy_opt (extractToken req))); simpl; [discriminate|].
      destruct (verifyToken env _ w) as [[decoded|e] w1]; simpl; [|discriminate].
      destruct (negb (jp_type decoded =? "customer")); simpl; [discriminate|].
      destruct (getCustomerById (jp_customerId decoded) w1) as [[c|e] w2]; simpl;
        [|discriminate].
      intros [= <-]. exact Hnone. }
    unfold requirePermission. rewrite Hadmin. reflexivity.
Qed.

End GuardsMore.

(** ** The CSRF middlewares *)

Section CsrfMore.

(** X8. On a state-changing method the guard lets through exactly the
    requests whose csrf_token cookie and x-csrf-token header are both
    present, not empty and equal. *)
Theorem verifyCsrf_passes_iff req :
  mutating (req_method req) ->
  (verifyCsrf req = CsrfNext <->
   exists v, v <> "" /\
     cookie CSRF_COOKIE (req_cookies req) = Some v /\
     req_x_csrf_token req = Some v).
Proof.
  intros Hm. apply mutating_unsafe in Hm. unfold verifyCsrf. rewrite Hm. simpl.
  destruct (cookie CSRF_COOKIE (req_cookies req)) as [c|];
    [|split; [discriminate | intros [v [_ [H _]]]; discriminate]].
  destruct (req_x_csrf_token req) as [h|];
    [|split; [discriminate | intros [v [_ [_ H]]]; discriminate]].
  unfold truthy. split.
  - destruct (c =? "") eqn:Ec; simpl; [discriminate|].
    destruct (h =? "") eqn:Eh; simpl; [discriminate|].
    destruct (c =? h) eqn:Ech; simpl; [|discriminate].
    intros _. apply String.eqb_eq in Ech. subst h. apply String.eqb_neq in Ec.
    exists c. auto.
  - intros [v [Hv [[= ->] [= ->]]]]. apply String.eqb_neq in Hv.
    rewrite Hv, String.eqb_refl. reflexivity.
Qed.

(** X9. The two CSRF middlewares in the order in which app.ts mounts
    them: a state-changing request for which a csrf_token cookie has to be
    minted is always rejected, whatever header it carries; and a request
    that is let through had its cookie, so nothing is minted and no
    randomness is drawn. *)
Theorem csrf_first_mutating_request_rejected production req w :
  mutating (req_method req) ->
  (truthy_opt (cookie CSRF_COOKIE (req_cookies req)) = false ->
   run (csrf_middlewares production req) w
   = Ok (Some (mkResCookie CSRF_COOKIE (entropy w (draws w)) false production "lax" "/"
                 604800000),
         CsrfReject 403 "CSRF_MISMATCH" "Invalid CSRF token")) /\
  (verifyCsrf req = CsrfNext ->
   csrf_middlewares production req w = (Ok (None, CsrfNext), w)).
Proof.
  intros Hm. pose proof Hm as Hunsafe. apply mutating_unsafe in Hunsafe. split.
  - intros Hc. unfold run, csrf_middlewares, issueCsrfCookie, try_catch, bind, randomHex, ret.
    rewrite Hc. simpl. unfold verifyCsrf. rewrite Hunsafe. simpl.
    destruct (cookie CSRF_COOKIE (req_cookies req)) as [c|]; [|reflexivity].
    simpl in Hc. destruct (req_x_csrf_token req) as [h|]; [|reflexivity].
    rewrite Hc. reflexivity.
  - intros Hpass.
    assert (Hc : truthy_opt (cookie CSRF_COOKIE (req_cookies req)) = true).
    { revert Hpass. unfold verifyCsrf. rewrite Hunsafe. simpl.
      destruct (cookie CSRF_COOKIE (req_cookies req)) as [c|]; [|discriminate].
      destruct (req_x_csrf_token req) as [h|]; [|discriminate].
      simpl. destruct (truthy c); [reflexivity | discriminate]. }
    unfold csrf_middlewares, issueCsrfCookie, try_catch, bind, ret.
    rewrite Hc. simpl. rewrite Hpass. reflexivity.
Qed.

End CsrfMore.

(** ** Refresh tokens: issue, look up, rotate *)

Section RefreshTokens.

Context {L : Libs}.

Lemma find_app_None {A} (f : A -> bool) (l l' : list A) :
  find f l = None -> find f (l ++ l') = find f l'.
Proof.
  induction l as [|a l IH]; simpl; [reflexivity|].
  destruct (f a); [discriminate | exact IH].
Qed.

Lemma find_none_iff {A} (f : A -> bool) (l : list A) :
  (forall x, In x l -> f x = false) -> find f l = None.
Proof.
  induction l as [|a l IH]; simpl; intros H; [reflexivity|].
  rewrite (H a (or_introl eq_refl)). apply IH. intros x Hx. apply H. right. exact Hx.
Qed.

(** The run of [issueRefreshToken] when the database accepts the insert. *)
Lemma issue_run adminId customerId meta w :
  storable (db w) adminId customerId meta = true ->
  let row := issued_record w adminId customerId meta in
  issueRefreshToken adminId customerId meta w
  = (Ok (mkIssued (rt_id row) (rt_familyId row) refreshTtlMs (entropy w (draws w))),
     mkWorld (created (db w) row) (history w ++ [created (db w) row]) (clock w)
       (2 + ticks w) (entropy w) (2 + draws w)).
Proof.
  intros Hacc. unfold issueRefreshToken, bind, randomHex, Date_now.
  cbn [fst snd db history clock ticks entropy draws].
  rewrite create_accepted by (rewrite accepts_storable; exact Hacc).
  reflexivity.
Qed.

(** The run of [issueRefreshToken] when it refuses it: nothing is written. *)
Lemma issue_refused adminId customerId meta w :
  storable (db w) adminId customerId meta = false ->
  issueRefreshToken adminId customerId meta w
  = (Throw (LibErr "PrismaClientKnownRequestError"),
     mkWorld (db w) (history w) (clock w) (1 + ticks w) (entropy w) (2 + draws w)).
Proof.
  intros Hacc. unfold issueRefreshToken, bind, randomHex, Date_now.
  cbn [fst snd db history clock ticks entropy draws].
  rewrite create_refused by (rewrite accepts_storable; exact Hacc).
  reflexivity.
Qed.

Lemma issue_Ok_inv adminId customerId meta w issued :
  run (issueRefreshToken adminId customerId meta) w = Ok issued ->
  storable (db w) adminId customerId meta = true.
Proof.
  destruct (storable (db w) adminId customerId meta) eqn:Hacc; [reflexivity|].
  unfold run. rewrite (issue_refused _ _ _ _ Hacc). discriminate.
Qed.

(** X10. Issue, then look up.  When no stored record has the digest of the
    plaintext that is drawn, the plaintext that [issueRefreshToken] returns
    finds the record it created: the next id of the sequence, the owner
    given, the family drawn second, not revoked, expiring seven days after
    the clock reading, and holding the digest, not the plaintext. *)
Theorem issued_token_is_found adminId customerId meta w issued :
  (forall r, In r (refreshTokens (db w)) ->
     rt_tokenHash r <> sha256_hex (entropy w (draws w))) ->
  run (issueRefreshToken adminId customerId meta) w = Ok issued ->
  let w1 := exec (issueRefreshToken adminId customerId meta) w in
  exists row,
    run (findRefreshTokenByPlain (is_plainToken issued)) w1 = Ok (Some row) /\
    rt_id row = is_id issued /\ is_id issued = refreshTokenSeq (db w) /\
    rt_adminId row = adminId /\ rt_customerId row = customerId /\
    rt_familyId row = is_familyId issued /\
    rt_tokenHash row = sha256_hex (is_plainToken issued) /\
    rt_revokedAt row = None /\ rt_replacedById row = None /\
    rt_expiresAt row = now w + 7 * 24 * 60 * 60 * 1000 /\
    refreshTokens (db w1) = (refreshTokens (db w) ++ [row])%list.
Proof.
  intros Hfresh Hrun w1. subst w1. pose proof (issue_Ok_inv _ _ _ _ Hrun) as Hacc.
  unfold run, exec in *. rewrite (issue_run _ _ _ _ Hacc) in *.
  simpl in Hrun. injection Hrun as <-. simpl.
  exists (issued_record w adminId customerId meta).
  split; [|repeat split].
  unfold hashToken. rewrite find_app_None.
  - simpl. rewrite String.eqb_refl. reflexivity.
  - apply find_none_iff. intros r Hr. apply String.eqb_neq, Hfresh, Hr.
Qed.

(** X11. Issue, then rotate.  In any world that holds the store as
    [issueRefreshToken] left it, and whose clock has not reached seven days
    after the issue, rotating the returned plaintext with metadata that fit
    their columns succeeds, and the successor keeps the family and the
    owner. *)
Theorem issued_token_rotates adminId customerId meta w issued w1 meta' :
  (forall r, In r (refreshTokens (db w)) ->
     rt_tokenHash r <> sha256_hex (entropy w (draws w))) ->
  run (issueRefreshToken adminId customerId meta) w = Ok issued ->
  db w1 = db (exec (issueRefreshToken adminId customerId meta) w) ->
  now w1 < now w + 7 * 24 * 60 * 60 * 1000 ->
  meta_fits meta' = true ->
  run (rotateRefreshToken (is_plainToken issued) meta') w1
  = Ok (mkRotated (entropy w1 (draws w1)) refreshTtlMs (or_undefined adminId)
          (or_undefined customerId) (is_familyId issued)) /\
  exists newRec,
    In newRec (refreshTokens (db (exec (rotateRefreshToken (is_plainToken issued) meta') w1))) /\
    rt_familyId newRec = is_familyId issued /\
    rt_adminId newRec = adminId /\ rt_customerId newRec = customerId /\
    rt_tokenHash newRec = sha256_hex (entropy w1 (draws w1)) /\
    rt_revokedAt newRec = None.
Proof.
  intros Hfresh Hrun Hdb Hlive Hfits. pose proof (issue_Ok_inv _ _ _ _ Hrun) as Hacc.
  unfold run, exec in Hrun, Hdb. rewrite (issue_run _ _ _ _ Hacc) in *.
  simpl in Hrun, Hdb. injection Hrun as <-. simpl.
  set (row := issued_record w adminId customerId meta) in *.
  assert (Hfind : find (fun r => rt_tokenHash r =? hashToken (entropy w (draws w)))
                    (refreshTokens (db w1)) = Some row).
  { rewrite Hdb. simpl. unfold hashToken. rewrite find_app_None.
    - simpl. rewrite String.eqb_refl. reflexivity.
    - apply find_none_iff. intros r Hr. apply String.eqb_neq, Hfresh, Hr. }
  assert (Hexp : (rt_expiresAt row <=? now w1)%Z = false).
  { apply Z.leb_gt. simpl. unfold now in *. unfold refreshTtlMs. lia. }
  assert (Hacc' : storable (db w1) (rt_adminId row) (rt_customerId row) meta' = true).
  { unfold storable in *. rewrite Hfits. apply andb_prop in Hacc. destruct Hacc as [_ Hrows].
    rewrite Hdb. exact Hrows. }
  unfold run, exec. rewrite (rotate_success _ meta' _ Hfind eq_refl Hexp Hacc'). simpl.
  split; [reflexivity|].
  exists (successor w1 row meta'). split; [|repeat split].
  unfold revoked, created, with_refreshTokens. simpl.
  apply in_map_iff. exists (successor w1 row meta'). split.
  - unfold revoke_and_link. simpl.
    destruct (refreshTokenSeq (db w1) =? refreshTokenSeq (db w))%Z eqn:E; [|reflexivity].
    exfalso. rewrite Hdb in E. simpl in E. apply Z.eqb_eq in E. lia.
  - apply in_or_app. right. left. reflexivity.
Qed.

End RefreshTokens.

(** ** Refresh tokens: what the operations keep *)

Section RefreshInvariants.

Context {L : Libs}.

Lemma revoke_if_active_identity f date r : identity (revoke_if_active f date r) = identity r.
Proof.
  unfold revoke_if_active. destruct (rt_revokedAt r); [reflexivity|].
  destruct (rt_familyId r =? f); reflexivity.
Qed.

Lemma revoke_and_link_identity id date link r :
  identity (revoke_and_link id date link r) = identity r.
Proof. unfold revoke_and_link. destruct (rt_id r =? id)%Z; reflexivity. Qed.

Lemma identity_id r r' : identity r = identity r' -> rt_id r = rt_id r'.
Proof. unfold identity. congruence. Qed.

Lemma identity_familyId r r' : identity r = identity r' -> rt_familyId r = rt_familyId r'.
Proof. unfold identity. congruence. Qed.

Lemma map_identity_ids (g : RefreshToken -> RefreshToken) l :
  (forall r, identity (g r) = identity r) -> map rt_id (map g l) = map rt_id l.
Proof.
  intros Hg. rewrite map_map. apply map_ext. intros r. apply identity_id, Hg.
Qed.

(** The store that a rotation leaves, by outcome: untouched (unknown or
    expired token, insert refused), the family revoked (reuse), or successor
    created and presented record revoked (success). *)
Lemma rotate_db_cases plainToken meta w :
  let d' := db (exec (rotateRefreshToken plainToken meta) w) in
  d' = db w \/
  (exists f date,
     d' = with_refreshTokens (db w)
            (map (revoke_if_active f date) (refreshTokens (db w)))
            (refreshTokenSeq (db w))) \/
  (exists existing date,
     In existing (refreshTokens (db w)) /\
     rt_revokedAt existing = None /\
     run (rotateRefreshToken plainToken meta) w = Ok (rotated_of w existing) /\
     d' = revoked (created (db w) (successor w existing meta)) (rt_id existing) date
            (refreshTokenSeq (db w))).
Proof.
  intros d'. subst d'.
  destruct (find (fun r => rt_tokenHash r =? hashToken plainToken) (refreshTokens (db w)))
    as [existing|] eqn:Hfind.
  2:{ left. unfold exec, rotateRefreshToken, findRefreshTokenByPlain,
        prisma_refreshToken_findFirst, bind, readDb, ret.
      simpl. rewrite Hfind. reflexivity. }
  destruct (rt_revokedAt existing) as [t|] eqn:Hrev.
  { right. left. exists (rt_familyId existing), (now w).
    unfold exec, rotateRefreshToken, findRefreshTokenByPlain,
      prisma_refreshToken_findFirst, bind, readDb, ret.
    simpl. rewrite Hfind. simpl. rewrite Hrev. reflexivity. }
  destruct (rt_expiresAt existing <=? now w)%Z eqn:Hexp.
  { left. unfold exec, rotateRefreshToken, findRefreshTokenByPlain,
      prisma_refreshToken_findFirst, bind, readDb, ret, now in *.
    simpl. rewrite Hfind. simpl. rewrite Hrev. simpl. rewrite Hexp. reflexivity. }
  destruct (storable (db w) (rt_adminId existing) (rt_customerId existing) meta) eqn:Hacc.
  2:{ left. unfold exec. rewrite (rotate_refused _ meta _ Hfind Hrev Hexp Hacc).
      reflexivity. }
  right. right. exists existing, (clock w (3 + ticks w)).
  pose proof (find_some _ _ Hfind) as [Hin _].
  unfold run, exec. rewrite (rotate_success _ meta _ Hfind Hrev Hexp Hacc).
  repeat split; assumption.
Qed.

(** X12. Rotation never deletes a record and never changes the columns
    set at creation (id, owner, family, digest, creation and expiry
    times): whatever the outcome, the table afterwards is the table before,
    column for column, followed by at most one new record. *)
Theorem rotate_appends_only plainToken meta w :
  exists extra,
    map identity (refreshTokens (db (exec (rotateRefreshToken plainToken meta) w)))
    = (map identity (refreshTokens (db w)) ++ extra)%list /\
    (List.length extra <= 1)%nat.
Proof.
  destruct (rotate_db_cases plainToken meta w) as [H|[[f [date H]]|[e [date [_ [_ [_ H]]]]]]];
    rewrite H.
  - exists []. rewrite app_nil_r. auto.
  - exists []. rewrite app_nil_r. simpl. split; [|auto].
    rewrite map_map. apply map_ext. intros r. apply revoke_if_active_identity.
  - exists [identity (successor w e meta)]. simpl. split; [|auto].
    rewrite map_map, map_app. simpl. rewrite revoke_and_link_identity. f_equal.
    apply map_ext. intros r. apply revoke_and_link_identity.
Qed.

Lemma active_revoke_if_active f date g r :
  ((rt_familyId (revoke_if_active f date r) =? g) && active (revoke_if_active f date r))%bool
  = if g =? f then false else ((rt_familyId r =? g) && active r)%bool.
Proof.
  unfold revoke_if_active, active.
  destruct (rt_revokedAt r) eqn:Hr.
  - rewrite Hr, andb_false_r. destruct (g =? f); reflexivity.
  - destruct (rt_familyId r =? f) eqn:Hf; simpl.
    + rewrite andb_false_r. apply String.eqb_eq in Hf. rewrite Hf.
      rewrite (String.eqb_sym f g). destruct (g =? f); reflexivity.
    + rewrite Hr. destruct (g =? f) eqn:Hg; [|reflexivity].
      apply String.eqb_eq in Hg. subst g. rewrite Hf. reflexivity.
Qed.

(** X13. Revoking a family leaves no non-revoked record in it and does not
    change how many non-revoked records any other family has. *)
Theorem revokeFamily_counts familyId g w :
  active_in_family g (db (exec (revokeRefreshFamilyByFamilyId familyId) w))
  = if g =? familyId then 0%nat else active_in_family g (db w).
Proof.
  unfold active_in_family. rewrite revokeFamily_rows.
  induction (refreshTokens (db w)) as [|r l IH]; simpl.
  - destruct (g =? familyId); reflexivity.
  - rewrite active_revoke_if_active.
    destruct (g =? familyId) eqn:Hg; [exact IH|].
    destruct ((rt_familyId r =? g) && active r)%bool; simpl; rewrite IH; reflexivity.
Qed.

Lemma ids_fresh_map (g : RefreshToken -> RefreshToken) d :
  (forall r, identity (g r) = identity r) ->
  ids_fresh d ->
  ids_fresh (with_refreshTokens d (map g (refreshTokens d)) (refreshTokenSeq d)).
Proof.
  intros Hg [Hlt Hnd]. unfold ids_fresh. simpl. split.
  - apply Forall_map. eapply Forall_impl; [|exact Hlt]. simpl. intros r Hr.
    rewrite (identity_id (Hg r)). exact Hr.
  - rewrite map_identity_ids by exact Hg. exact Hnd.
Qed.

Lemma ids_fresh_created d row :
  rt_id row = refreshTokenSeq d -> ids_fresh d -> ids_fresh (created d row).
Proof.
  intros Hid [Hlt Hnd]. unfold ids_fresh, created. simpl. split.
  - apply Forall_app. split.
    + eapply Forall_impl; [|exact Hlt]. simpl. intros r Hr. lia.
    + constructor; [lia | constructor].
  - rewrite map_app. simpl. apply NoDup_app.
    + exact Hnd.
    + constructor; [intros [] | constructor].
    + intros x Hx [Hx'|[]]. subst x. rewrite Hid in Hx.
      apply in_map_iff in Hx. destruct Hx as [r [Hr Hin]].
      rewrite Forall_forall in Hlt. specialize (Hlt r Hin). lia.
Qed.

(** X14. The three operations on refresh tokens keep the ids of the table
    distinct and below the next value of the sequence, whatever their
    arguments and whatever their outcome. *)
Theorem refresh_operations_keep_ids_fresh w :
  ids_fresh (db w) ->
  (forall adminId customerId meta,
     ids_fresh (db (exec (issueRefreshToken adminId customerId meta) w))) /\
  (forall plainToken meta,
     ids_fresh (db (exec (rotateRefreshToken plainToken meta) w))) /\
  (forall familyId,
     ids_fresh (db (exec (revokeRefreshFamilyByFamilyId familyId) w))).
Proof.
  intros Hw. split; [|split].
  - intros adminId customerId meta. unfold exec.
    destruct (storable (db w) adminId customerId meta) eqn:Hacc.
    + rewrite (issue_run _ _ _ _ Hacc). simpl.
      apply ids_fresh_created; [reflexivity | exact Hw].
    + rewrite (issue_refused _ _ _ _ Hacc). exact Hw.
  - intros plainToken meta.
    destruct (rotate_db_cases plainToken meta w) as [H|[[f [date H]]|[e [date [_ [_ [_ H]]]]]]];
      rewrite H.
    + exact Hw.
    + apply ids_fresh_map; [intros r; apply revoke_if_active_identity | exact Hw].
    + unfold revoked.
      apply (ids_fresh_map (revoke_and_link (rt_id e) date (refreshTokenSeq (db w)))
               (d := created (db w) (successor w e meta))).
      * intros r. apply revoke_and_link_identity.
      * apply ids_fresh_created; [reflexivity | exact Hw].
  - intros familyId.
    apply (ids_fresh_map (revoke_if_active familyId (now w)) (d := db w));
      [intros r; apply revoke_if_active_identity | exact Hw].
Qed.

Lemma revoke_and_link_other id date link l :
  ~ In id (map rt_id l) -> map (revoke_and_link id date link) l = l.
Proof.
  induction l as [|r l IH]; simpl; intros Hn; [reflexivity|].
  unfold revoke_and_link at 1.
  destruct (rt_id r =? id)%Z eqn:E.
  - apply Z.eqb_eq in E. exfalso. apply Hn. left. exact E.
  - rewrite IH; [reflexivity | intros H; apply Hn; right; exact H].
Qed.

Lemma count_after_revoke_and_link g e date link l :
  NoDup (map rt_id l) -> In e l -> rt_revokedAt e = None ->
  Nat.add
    (List.length (filter (fun r => (rt_familyId r =? g) && active r)%bool
                    (map (revoke_and_link (rt_id e) date link) l)))
    (if rt_familyId e =? g then 1%nat else 0%nat)
  = List.length (filter (fun r => (rt_familyId r =? g) && active r)%bool l).
Proof.
  set (P := fun r : RefreshToken => ((rt_familyId r =? g) && active r)%bool).
  set (R := revoke_and_link (rt_id e) date link).
  induction l as [|r l IH]; intros Hnd Hin Hrev; [contradiction|].
  cbn [map filter]. simpl in Hnd. inversion Hnd as [|x xs Hnotin Hnd']; subst.
  destruct (Z.eq_dec (rt_id r) (rt_id e)) as [Heq|Hne].
  - assert (r = e).
    { destruct Hin as [H|H]; [exact H|]. exfalso. apply Hnotin. rewrite Heq.
      apply in_map. exact H. }
    subst r. replace (map R l) with l
      by (symmetry; apply revoke_and_link_other; exact Hnotin).
    assert (He : P (R e) = false).
    { unfold P, R, revoke_and_link. rewrite Z.eqb_refl. apply andb_false_r. }
    assert (He' : P e = (rt_familyId e =? g)).
    { unfold P, active. rewrite Hrev. apply andb_true_r. }
    rewrite He, He'. destruct (rt_familyId e =? g); cbn [List.length].
    + apply Nat.add_1_r.
    + apply Nat.add_0_r.
  - destruct Hin as [H|H]; [subst r; contradiction|].
    specialize (IH Hnd' H Hrev).
    assert (Hr : R r = r).
    { unfold R, revoke_and_link. apply Z.eqb_neq in Hne. rewrite Hne. reflexivity. }
    rewrite Hr. destruct (P r); cbn [List.length].
    + simpl. f_equal. exact IH.
    + exact IH.
Qed.

(** X15. When the ids of the table are distinct and below the next value
    of the sequence, a successful rotation leaves every family with as
    many non-revoked records as it had: in the family of the presented
    record one record is revoked and one is added, and no other record
    changes its state. *)
Theorem rotate_keeps_family_counts plainToken meta w ro g :
  ids_fresh (db w) ->
  run (rotateRefreshToken plainToken meta) w = Ok ro ->
  active_in_family g (db (exec (rotateRefreshToken plainToken meta) w))
  = active_in_family g (db w).
Proof.
  intros [Hlt Hnd] Hrun.
  destruct (rotate_Ok_inv _ _ _ Hrun) as [e [Hfind [Hrev [Hexp Hacc]]]].
  pose proof (find_some _ _ Hfind) as [Hin _].
  unfold exec. rewrite (rotate_success _ meta _ Hfind Hrev Hexp Hacc). simpl.
  unfold active_in_family, revoked, created, with_refreshTokens. simpl.
  rewrite map_app, filter_app, length_app. simpl.
  pose proof (count_after_revoke_and_link g e (clock w (3 + ticks w))
                (refreshTokenSeq (db w)) _ Hnd Hin Hrev) as Hcount.
  assert (Hne : (refreshTokenSeq (db w) =? rt_id e)%Z = false).
  { apply Z.eqb_neq. rewrite Forall_forall in Hlt. specialize (Hlt e Hin). lia. }
  change (3 + ticks w)%nat with (S (S (S (ticks w)))) in Hcount.
  assert (Hnew : revoke_and_link (rt_id e) (clock w (S (S (S (ticks w)))))
                   (refreshTokenSeq (db w)) (successor w e meta)
                 = successor w e meta).
  { unfold revoke_and_link. simpl. rewrite Hne. reflexivity. }
  rewrite Hnew, <- Hcount. f_equal. simpl.
  destruct (rt_familyId e =? g); reflexivity.
Qed.

(** X16. When the ids of the table are distinct, rotation keeps the links
    inside families: if every [replacedById] names a record of the family
    of the record that carries it, it is so after a rotation, whatever the
    outcome. *)
Theorem rotate_keeps_links_in_family plainToken meta w :
  ids_fresh (db w) ->
  links_in_family (db w) ->
  links_in_family (db (exec (rotateRefreshToken plainToken meta) w)).
Proof.
  intros [Hlt Hnd] Hlinks.
  destruct (rotate_db_cases plainToken meta w)
    as [H|[[f [date H]]|[e [date [Hin [Hrev [_ H]]]]]]]; rewrite H; clear H.
  - exact Hlinks.
  - intros r link Hr Hlink. simpl in Hr. apply in_map_iff in Hr.
    destruct Hr as [r0 [<- Hr0]].
    assert (Hl0 : rt_replacedById r0 = Some link).
    { revert Hlink. unfold revoke_if_active. destruct (rt_revokedAt r0); [trivial|].
      destruct (rt_familyId r0 =? f); trivial. }
    destruct (Hlinks r0 link Hr0 Hl0) as [t [Ht [Hid Hfam]]].
    exists (revoke_if_active f date t). simpl. split; [apply in_map; exact Ht|].
    rewrite (identity_id (revoke_if_active_identity f date t)).
    rewrite (identity_familyId (revoke_if_active_identity f date t)).
    rewrite (identity_familyId (revoke_if_active_identity f date r0)). auto.
  - pose (R := revoke_and_link (rt_id e) date (refreshTokenSeq (db w))).
    set (new := successor w e meta).
    intros r link Hr Hlink. unfold revoked, created, with_refreshTokens in Hr |- *.
    simpl in Hr |- *. fold R in Hr |- *. apply in_map_iff in Hr.
    destruct Hr as [r0 [<- Hr0]].
    assert (HRid : forall t, rt_id (R t) = rt_id t)
      by (intros t; apply identity_id, revoke_and_link_identity).
    assert (HRfam : forall t, rt_familyId (R t) = rt_familyId t)
      by (intros t; apply identity_familyId, revoke_and_link_identity).
    destruct (rt_id r0 =? rt_id e)%Z eqn:E.
    + (* the presented record: linked to the successor *)
      exists (R new). split; [apply in_map, in_or_app; right; left; reflexivity|].
      rewrite HRid, !HRfam.
      unfold R, revoke_and_link in Hlink. rewrite E in Hlink. simpl in Hlink.
      injection Hlink as <-. split; [reflexivity|]. simpl.
      apply in_app_or in Hr0. destruct Hr0 as [Hr0|[<-|[]]]; [|reflexivity].
      apply Z.eqb_eq in E.
      assert (r0 = e); [|subst r0; reflexivity].
      clear - Hnd Hr0 Hin E. induction (refreshTokens (db w)) as [|x l IH]; [contradiction|].
      simpl in Hnd. inversion Hnd as [|y ys Hnotin Hnd']; subst.
      destruct Hr0 as [->|Hr0], Hin as [->|Hin]; try reflexivity.
      * exfalso. apply Hnotin. rewrite E. apply in_map. exact Hin.
      * exfalso. apply Hnotin. rewrite <- E. apply in_map. exact Hr0.
      * apply IH; assumption.
    + (* any other record: its link is the one it had *)
      assert (HR : R r0 = r0) by (unfold R, revoke_and_link; rewrite E; reflexivity).
      rewrite HR in *.
      apply in_app_or in Hr0. destruct Hr0 as [Hr0|[<-|[]]]; [|discriminate].
      destruct (Hlinks r0 link Hr0 Hlink) as [t [Ht [Hid Hfam]]].
      exists (R t). split; [apply in_map, in_or_app; left; exact Ht|].
      rewrite HRid, HRfam. auto.
Qed.

End RefreshInvariants.

(** ** Login and registration *)

Section LoginMore.

Context {L : Libs}.
Variable env : Env.

Lemma existsb_admin_In (a : Admin) (l : list Admin) :
  In a l -> existsb (fun x => (adm_id x =? adm_id a)%Z) l = true.
Proof.
  intros Hin. apply existsb_exists. exists a. split; [exact Hin | apply Z.eqb_refl].
Qed.

Lemma findUnique_email_find email w found :
  run (prisma_admin_findUnique_email email) w = Ok found ->
  find (fun a => adm_email a =? email) (admins (db w)) = found.
Proof. unfold run. simpl. congruence. Qed.

Lemma findUnique_id_find id w found :
  run (prisma_admin_findUnique_id (Some id)) w = Ok found ->
  find (fun a => (adm_id a =? id)%Z) (admins (db w)) = found.
Proof. unfold run. simpl. congruence. Qed.

(** The run of a login that passes the three checks. *)
Lemma login_run email password w admin :
  find (fun a => adm_email a =? email) (admins (db w)) = Some admin ->
  adm_isActive admin = true ->
  comparePassword password (adm_passwordHash admin) = true ->
  let d' := stamped (db w) (admins (db w)) (adm_id admin) (clock w (2 + ticks w)) in
  login env email password w
  = (Ok (mkLoginResponse
           (mkAdminResponse (adm_id admin) (adm_name admin) (adm_email admin) true
              (adm_createdAt admin) (Some (clock w (3 + ticks w))))
           (jws_encode (JWT_SECRET env)
              (payload_of KAdmin (adm_id admin) (now w / 1000) (JWT_EXPIRES_HOURS env)))
           (clock w (1 + ticks w) + JWT_EXPIRES_HOURS env * 60 * 60 * 1000)),
     mkWorld d' (history w ++ [d']) (clock w) (4 + ticks w) (entropy w) (draws w)).
Proof.
  intros Hfind Hactive Hpw. pose proof (find_some _ _ Hfind) as [Hin _].
  unfold login, prisma_admin_findUnique_email, prisma_admin_update_lastLogin,
    generateToken, jwt_sign, bind, readDb, writeDb, ret, Date_now, payload_of, now.
  simpl. rewrite Hfind. simpl. rewrite Hactive, Hpw. simpl.
  rewrite (existsb_admin_In _ _ Hin), hours_in_seconds. reflexivity.
Qed.

(** X17. A deactivated admin is told so whatever the password: the login
    fails with ACCOUNT_DEACTIVATED before the password is compared, and
    nothing is written. *)
Theorem login_deactivated_any_password email password w admin :
  run (prisma_admin_findUnique_email email) w = Ok (Some admin) ->
  adm_isActive admin = false ->
  login env email password w = (Throw ACCOUNT_DEACTIVATED, w).
Proof.
  unfold run, login, prisma_admin_findUnique_email, bind, readDb, ret. simpl.
  intros [= ->] Hactive. simpl. rewrite Hactive. reflexivity.
Qed.

(** X18. A login with the email of an active admin and a password that
    the hash accepts returns the admin's id, name and email without the
    password hash, a token that the issuer mints for that id, and the
    instant JWT_EXPIRES_HOURS hours after the clock reading; in the store
    it stamps [lastLogin] on the rows with that id and changes nothing
    else. *)
Theorem login_success email password w admin :
  run (prisma_admin_findUnique_email email) w = Ok (Some admin) ->
  adm_isActive admin = true ->
  comparePassword password (adm_passwordHash admin) = true ->
  exists response date,
    run (login env email password) w = Ok response /\
    ar_id (lr_admin response) = adm_id admin /\
    ar_name (lr_admin response) = adm_name admin /\
    ar_email (lr_admin response) = adm_email admin /\
    run (issue env KAdmin (adm_id admin)) w = Ok (lr_token response) /\
    lr_expiresAt response = clock w (1 + ticks w) + JWT_EXPIRES_HOURS env * 3600000 /\
    db (exec (login env email password) w)
    = stamped (db w) (admins (db w)) (adm_id admin) date.
Proof.
  intros Hfind Hactive Hpw. apply findUnique_email_find in Hfind.
  eexists _, (clock w (2 + ticks w)). unfold run, exec.
  rewrite (login_run _ _ _ Hfind Hactive Hpw), issue_mints.
  cbn [fst snd lr_admin lr_token lr_expiresAt ar_id ar_name ar_email db Nat.add].
  repeat split. cbn [lr_expiresAt]. lia.
Qed.

Lemma find_admin_stamped f id date l :
  (forall a, f (set_lastLogin id date a) = f a) ->
  find f (map (set_lastLogin id date) l) = option_map (set_lastLogin id date) (find f l).
Proof. apply find_map_same. Qed.

Lemma set_lastLogin_id id date a : adm_id (set_lastLogin id date a) = adm_id a.
Proof. unfold set_lastLogin. destruct (adm_id a =? id)%Z; reflexivity. Qed.

Lemma set_lastLogin_email id date a : adm_email (set_lastLogin id date a) = adm_email a.
Proof. unfold set_lastLogin. destruct (adm_id a =? id)%Z; reflexivity. Qed.

Lemma set_lastLogin_isActive id date a :
  adm_isActive (set_lastLogin id date a) = adm_isActive a.
Proof. unfold set_lastLogin. destruct (adm_id a =? id)%Z; reflexivity. Qed.

Lemma set_lastLogin_passwordHash id date a :
  adm_passwordHash (set_lastLogin id date a) = adm_passwordHash a.
Proof. unfold set_lastLogin. destruct (adm_id a =? id)%Z; reflexivity. Qed.

(** X19. Login, then the guard.  When the id of the admin is the key of
    its row, the token that a login returns passes the admin guard in any
    world that holds the store as the login left it and whose clock has not
    reached the expiry: the request goes on with that admin attached. *)
Theorem login_token_passes_guard email password w admin response req w1 :
  run (prisma_admin_findUnique_email email) w = Ok (Some admin) ->
  run (prisma_admin_findUnique_id (Some (adm_id admin))) w = Ok (Some admin) ->
  run (login env email password) w = Ok response ->
  extractToken req = Some (lr_token response) ->
  db w1 = db (exec (login env email password) w) ->
  now w1 / 1000 < now w / 1000 + JWT_EXPIRES_HOURS env * 3600 ->
  exists attached,
    run (authenticateAdmin env req) w1 = Ok (NextOk (attach_admin req attached)) /\
    ar_id attached = adm_id admin /\
    ar_email attached = adm_email admin /\
    ar_isActive attached = true.
Proof.
  intros Hfind Hid Hrun Htoken Hdb Hlive.
  apply findUnique_email_find in Hfind. apply findUnique_id_find in Hid.
  assert (Hchecks : adm_isActive admin = true /\
                    comparePassword password (adm_passwordHash admin) = true).
  { revert Hrun. unfold run, login, prisma_admin_findUnique_email, bind, readDb, ret.
    simpl. rewrite Hfind. simpl.
    destruct (adm_isActive admin); simpl; [|discriminate].
    destruct (comparePassword password (adm_passwordHash admin)); simpl; [auto|discriminate]. }
  destruct Hchecks as [Hactive Hpw].
  unfold run, exec in Hrun, Hdb. rewrite (login_run _ _ _ Hfind Hactive Hpw) in Hrun, Hdb.
  simpl in Hrun, Hdb. injection Hrun as <-. simpl in Htoken.
  assert (Hissue : run (issue env KAdmin (adm_id admin)) w
                   = Ok (jws_encode (JWT_SECRET env)
                           (payload_of KAdmin (adm_id admin) (now w / 1000)
                              (JWT_EXPIRES_HOURS env)))).
  { unfold run. rewrite issue_mints. reflexivity. }
  rewrite (@authenticateAdmin_resolves _ env req (adm_id admin) w _ w1 Hissue Htoken Hlive).
  rewrite Hdb. unfold stamped. simpl.
  rewrite find_admin_stamped by (intros a; rewrite set_lastLogin_id; reflexivity).
  rewrite Hid. simpl. rewrite set_lastLogin_isActive, Hactive.
  eexists. split; [reflexivity|]. simpl.
  rewrite set_lastLogin_id, set_lastLogin_email. auto.
Qed.


(** The run of a registration that passes the two checks. *)
Lemma register_run newId name email password w :
  find (fun a => adm_email a =? email) (admins (db w)) = None ->
  (Z.of_nat (js_length password) <? 8)%Z = false ->
  let row := mkAdmin newId name email (hashPassword env password) true
               (clock w (ticks w)) None in
  let d1 := mkDb (admins (db w) ++ [row]) (customers (db w)) (refreshTokens (db w))
              (refreshTokenSeq (db w)) in
  let d2 := stamped d1 (admins d1) newId (clock w (3 + ticks w)) in
  register env newId name email password w
  = (Ok (mkLoginResponse
           (mkAdminResponse newId name email true (clock w (ticks w))
              (Some (clock w (4 + ticks w))))
           (jws_encode (JWT_SECRET env)
              (payload_of KAdmin newId (clock w (1 + ticks w) / 1000)
                 (JWT_EXPIRES_HOURS env)))
           (clock w (2 + ticks w) + JWT_EXPIRES_HOURS env * 60 * 60 * 1000)),
     mkWorld d2 (history w ++ [d1; d2]) (clock w) (5 + ticks w) (entropy w) (draws w)).
Proof.
  intros Hfind Hlen.
  unfold register, prisma_admin_findUnique_email, prisma_admin_create,
    prisma_admin_update_lastLogin, generateToken, jwt_sign, bind, readDb, writeDb,
    ret, Date_now, payload_of.
  simpl. rewrite Hfind. simpl. rewrite Hlen. simpl.
  rewrite existsb_app. simpl. rewrite Z.eqb_refl, orb_true_r. simpl.
  rewrite <- app_assoc, hours_in_seconds. reflexivity.
Qed.


(** X21. Register, then log in.  With a free email and a password of at
    least 8 UTF-16 code units that the hash function's own hashes accept, the
    registration succeeds with the id the database gave, and in any world
    that holds the store as the registration left it a login with the same
    email and password succeeds for that id. *)
Theorem register_then_login newId name email password w w1 :
  run (prisma_admin_findUnique_email email) w = Ok None ->
  (8 <= js_length password)%nat ->
  bcrypt_compare password (bcrypt_hash password (BCRYPT_ROUNDS env)) = true ->
  db w1 = db (exec (register env newId name email password) w) ->
  exists registered logged,
    run (register env newId name email password) w = Ok registered /\
    ar_id (lr_admin registered) = newId /\
    ar_isActive (lr_admin registered) = true /\
    run (login env email password) w1 = Ok logged /\
    ar_id (lr_admin logged) = newId /\
    ar_email (lr_admin logged) = email.
Proof.
  intros Hfind Hlen Hbcrypt Hdb. apply findUnique_email_find in Hfind.
  assert (Hlen' : (Z.of_nat (js_length password) <? 8)%Z = false)
    by (apply Z.ltb_ge; lia).
  unfold run, exec in *. rewrite (register_run _ _ _ _ _ Hfind Hlen') in *.
  simpl in Hdb. do 2 eexists. split; [reflexivity|]. split; [reflexivity|].
  split; [reflexivity|].
  set (row := mkAdmin newId name email (hashPassword env password) true
                (clock w (ticks w)) None) in *.
  assert (Hfind1 : find (fun a => adm_email a =? email) (admins (db w1))
                   = Some (set_lastLogin newId (clock w (3 + ticks w)) row)).
  { rewrite Hdb. unfold stamped. simpl.
    rewrite find_admin_stamped by (intros a; rewrite set_lastLogin_email; reflexivity).
    rewrite find_app_None by exact Hfind. simpl. rewrite String.eqb_refl. reflexivity. }
  assert (Hrow : set_lastLogin newId (clock w (3 + ticks w)) row
                 = mkAdmin newId name email (hashPassword env password) true
                     (clock w (ticks w)) (Some (clock w (3 + ticks w)))).
  { unfold set_lastLogin, row. simpl. rewrite Z.eqb_refl. reflexivity. }
  rewrite Hrow in Hfind1.
  rewrite (login_run _ _ _ Hfind1 eq_refl Hbcrypt). simpl. auto.
Qed.

End LoginMore.

(** ** The guards and the principal *)

Section GuardResolves.

Context {L : Libs}.
Variable env : Env.

(** X22. What a guard does with an unexpired token of its own kind.  It
    looks the principal up by the id in the token.  The admin guard hands
    over ADMIN_NOT_FOUND when there is no such admin, ACCOUNT_DEACTIVATED
    when the admin is not active, and otherwise the request with the admin
    attached; the customer guard hands over CUSTOMER_NOT_FOUND when there is
    no such customer, and otherwise the request with the customer attached,
    without reading [isActive]. *)
Theorem guard_resolves_principal k id w0 token req w :
  run (issue env k id) w0 = Ok token ->
  extractToken req = Some token ->
  now w / 1000 < now w0 / 1000 + JWT_EXPIRES_HOURS env * 3600 ->
  run (guard env k req) w
  = Ok match k with
       | KAdmin =>
           match find (fun a => (adm_id a =? id)%Z) (admins (db w)) with
           | None => NextErr ADMIN_NOT_FOUND
           | Some admin =>
               if adm_isActive admin
               then NextOk (attach_admin req (admin_response admin))
               else NextErr ACCOUNT_DEACTIVATED
           end
       | KCustomer =>
           match find (fun c => (cus_id c =? id)%Z) (customers (db w)) with
           | None => NextErr CUSTOMER_NOT_FOUND
           | Some customer =>
               NextOk (attach_customer req
                         (mkCustomerResponse (cus_id customer) (cus_name customer)
                            (cus_email customer) (cus_isActive customer)
                            (cus_createdAt customer) (cus_lastLogin customer)))
           end
       end.
Proof.
  intros Hissue Htoken Hlive. destruct k; unfold guard.
  - exact (@authenticateAdmin_resolves _ env req id w0 token w Hissue Htoken Hlive).
  - exact (@authenticateCustomer_resolves _ env req id w0 token w Hissue Htoken Hlive).
Qed.

End GuardResolves.

(** ** Logout *)

Section Logout.

Context {L : Libs}.

Lemma revoke_if_active_tokenHash f date r :
  rt_tokenHash (revoke_if_active f date r) = rt_tokenHash r.
Proof.
  unfold revoke_if_active. destruct (rt_revokedAt r); [reflexivity|].
  destruct (rt_familyId r =? f); reflexivity.
Qed.

(** The run of the revocation that the logout handlers attempt, on a
    request that presents the plaintext of a stored record. *)
Lemma logout_revocation_run req plain existing w :
  cookie "refresh_token" (req_cookies req) = Some plain ->
  truthy plain = true ->
  find (fun r => rt_tokenHash r =? hashToken plain) (refreshTokens (db w)) = Some existing ->
  truthy (rt_familyId existing) = true ->
  logout_revocation req w
  = (Ok tt, exec (revokeRefreshFamilyByFamilyId (rt_familyId existing)) w).
Proof.
  intros Hc Ht Hfind Hfam.
  unfold logout_revocation, try_catch, bind, findRefreshTokenByPlain,
    prisma_refreshToken_findFirst, readDb, ret.
  rewrite Hc. simpl. rewrite Ht, Hfind. simpl. rewrite Hfam. reflexivity.
Qed.

(** The revocation writes nothing when there is nothing to revoke. *)
Lemma logout_revocation_idle req w :
  match cookie "refresh_token" (req_cookies req) with
  | Some plain =>
      plain = "" \/
      find (fun r => rt_tokenHash r =? hashToken plain) (refreshTokens (db w)) = None
  | None => True
  end ->
  logout_revocation req w = (Ok tt, w).
Proof.
  unfold logout_revocation, try_catch, bind, findRefreshTokenByPlain,
    prisma_refreshToken_findFirst, readDb, ret.
  destruct (cookie "refresh_token" (req_cookies req)) as [plain|]; [|reflexivity].
  intros [->|Hfind]; [reflexivity|]. simpl.
  destruct (truthy plain); [|reflexivity]. simpl. rewrite Hfind. reflexivity.
Qed.

Lemma rotate_after_family_revoked plain existing meta w date :
  find (fun r => rt_tokenHash r =? hashToken plain) (refreshTokens (db w)) = Some existing ->
  forall w1,
    refreshTokens (db w1)
    = map (revoke_if_active (rt_familyId existing) date) (refreshTokens (db w)) ->
    run (rotateRefreshToken plain meta) w1 = Throw REFRESH_REUSE.
Proof.
  intros Hfind w1 Hrows.
  assert (Hfind1 : find (fun r => rt_tokenHash r =? hashToken plain) (refreshTokens (db w1))
                   = Some (revoke_if_active (rt_familyId existing) date existing)).
  { rewrite Hrows, find_map_same, Hfind; [reflexivity|].
    intros a. rewrite revoke_if_active_tokenHash. reflexivity. }
  unfold run, rotateRefreshToken, findRefreshTokenByPlain, prisma_refreshToken_findFirst,
    bind, readDb, ret.
  simpl. rewrite Hfind1. simpl.
  destruct (rt_revokedAt (revoke_if_active (rt_familyId existing) date existing)) eqn:Hrev.
  - reflexivity.
  - exfalso. exact (@revoke_if_active_revoked (rt_familyId existing) date existing eq_refl Hrev).
Qed.

(** X23. After a logout that presents the plaintext of a stored record,
    the session is gone: both handlers answer 200 and clear the two
    cookies, every record of the family of the presented record is revoked,
    and presenting the plaintext to the rotation is refused as a reuse. *)
Theorem logout_ends_session req plain existing w :
  cookie "refresh_token" (req_cookies req) = Some plain ->
  truthy plain = true ->
  run (findRefreshTokenByPlain plain) w = Ok (Some existing) ->
  truthy (rt_familyId existing) = true ->
  forall handler : M (Handled LogoutBody),
    handler = AuthController_logout req \/ handler = customer_logout_route req ->
    (exists body,
       run handler w = Ok (Sent 200 [] ["access_token"; "refresh_token"] body)) /\
    (forall r, In r (refreshTokens (db (exec handler w))) ->
       rt_familyId r = rt_familyId existing -> rt_revokedAt r <> None) /\
    (forall meta, run (rotateRefreshToken plain meta) (exec handler w)
                  = Throw REFRESH_REUSE).
Proof.
  intros Hc Ht Hfind Hfam handler Hh. apply findRefreshTokenByPlain_find in Hfind.
  assert (Hrows : refreshTokens (db (exec handler w))
                  = map (revoke_if_active (rt_familyId existing) (now w))
                      (refreshTokens (db w))).
  { destruct Hh as [-> | ->];
      unfold exec, AuthController_logout, customer_logout_route, try_catch, bind;
      rewrite (@logout_revocation_run req plain existing w Hc Ht Hfind Hfam); reflexivity. }
  split; [|split].
  - destruct Hh as [-> | ->];
      unfold run, AuthController_logout, customer_logout_route, try_catch, bind;
      rewrite (@logout_revocation_run req plain existing w Hc Ht Hfind Hfam); eexists; reflexivity.
  - intros r Hr Hf. rewrite Hrows in Hr. apply in_map_iff in Hr.
    destruct Hr as [r0 [<- _]]. rewrite revoke_if_active_familyId in Hf.
    apply revoke_if_active_revoked. exact Hf.
  - intros meta. exact (@rotate_after_family_revoked plain existing meta w (now w) Hfind _ Hrows).
Qed.

Lemma try_catch_unit (m : M unit) w :
  exists w1, try_catch m (fun _ => ret tt) w = (Ok tt, w1).
Proof.
  unfold try_catch, ret. destruct (m w) as [[[]|e] w1]; eexists; reflexivity.
Qed.

(** X24. Logout never fails and never forwards an error: whatever the
    request and the store, both handlers answer 200 and clear the two
    cookies; and when the request has no refresh_token cookie, an empty
    one, or one that matches no record, they write nothing. *)
Theorem logout_always_answers req w :
  (exists body,
     run (AuthController_logout req) w
     = Ok (Sent 200 [] ["access_token"; "refresh_token"] body)) /\
  run (customer_logout_route req) w
  = Ok (Sent 200 [] ["access_token"; "refresh_token"] (mkLogoutBody "Logged out" None)) /\
  (match cookie "refresh_token" (req_cookies req) with
   | Some plain => plain = "" \/ run (findRefreshTokenByPlain plain) w = Ok None
   | None => True
   end ->
   db (exec (AuthController_logout req) w) = db w /\
   db (exec (customer_logout_route req) w) = db w).
Proof.
  assert (Hok : exists w1, logout_revocation req w = (Ok tt, w1)).
  { unfold logout_revocation. apply try_catch_unit. }
  destruct Hok as [w1 Hok]. split; [|split].
  - unfold run, AuthController_logout, try_catch, bind. rewrite Hok.
    eexists; reflexivity.
  - unfold run, customer_logout_route, bind. rewrite Hok. reflexivity.
  - intros Hidle.
    assert (Hw : logout_revocation req w = (Ok tt, w)).
    { apply logout_revocation_idle.
      destruct (cookie "refresh_token" (req_cookies req)) as [plain|]; [|exact I].
      destruct Hidle as [H|H]; [left; exact H | right].
      apply findRefreshTokenByPlain_find in H. exact H. }
    unfold exec, AuthController_logout, customer_logout_route, try_catch, bind.
    rewrite Hw. split; reflexivity.
Qed.

End Logout.

(** ** Refresh: refusals and replay *)

Section RefreshMore.

Context {L : Libs}.
Variable env : Env.

(** X25. The refresh endpoint without a usable token.  With no
    refresh_token cookie, or an empty one, it answers 401 REFRESH_REQUIRED;
    with a plaintext that matches no record the rotation throws
    INVALID_REFRESH, which the endpoint forwards.  In both cases the world
    is left exactly as it was: nothing is written, no randomness drawn. *)
Theorem refresh_route_refusals req w :
  (cookie "refresh_token" (req_cookies req) = None \/
   cookie "refresh_token" (req_cookies req) = Some "" ->
   refresh_token_route env req w
   = (Ok (ReplyError 401 "REFRESH_REQUIRED" "Refresh token required"), w)) /\
  (forall plainToken,
     cookie "refresh_token" (req_cookies req) = Some plainToken ->
     run (findRefreshTokenByPlain plainToken) w = Ok None ->
     (forall meta, rotateRefreshToken plainToken meta w = (Throw INVALID_REFRESH, w)) /\
     (plainToken <> "" ->
      refresh_token_route env req w = (Ok (ReplyNext INVALID_REFRESH), w))).
Proof.
  split.
  - intros [H|H]; unfold refresh_token_route, try_catch; rewrite H; reflexivity.
  - intros plainToken Hc Hfind. apply findRefreshTokenByPlain_find in Hfind.
    assert (Hrot : forall meta, rotateRefreshToken plainToken meta w
                                = (Throw INVALID_REFRESH, w)).
    { intros meta.
      unfold rotateRefreshToken, findRefreshTokenByPlain, prisma_refreshToken_findFirst,
        bind, readDb, ret.
      simpl. rewrite Hfind. reflexivity. }
    split; [exact Hrot|]. intros Hne.
    unfold refresh_token_route, try_catch, bind. rewrite Hc.
    assert (Ht : truthy plainToken = true).
    { unfold truthy. apply negb_true_iff, String.eqb_neq, Hne. }
    rewrite Ht. cbn [negb]. cbv beta iota. rewrite Hrot. reflexivity.
Qed.

(** The run of a rotation that detects a reuse. *)
Lemma rotate_reuse_run plainToken meta w existing t :
  find (fun r => rt_tokenHash r =? hashToken plainToken) (refreshTokens (db w))
    = Some existing ->
  rt_revokedAt existing = Some t ->
  rotateRefreshToken plainToken meta w
  = (Throw REFRESH_REUSE, exec (revokeRefreshFamilyByFamilyId (rt_familyId existing)) w).
Proof.
  intros Hfind Hrev.
  unfold rotateRefreshToken, findRefreshTokenByPlain, prisma_refreshToken_findFirst,
    bind, readDb, ret.
  simpl. rewrite Hfind. simpl. rewrite Hrev. reflexivity.
Qed.



(** X27. A replay burns the successor too.  After a successful rotation
    whose new plaintext has a digest that no earlier record holds,
    presenting the old plaintext again is refused as a reuse, and from then
    on the new plaintext, which was never presented before, is refused as a
    reuse as well. *)
Theorem replay_burns_successor plainToken meta meta' meta'' w ro :
  (forall r, In r (refreshTokens (db w)) ->
     rt_tokenHash r <> sha256_hex (entropy w (draws w))) ->
  run (rotateRefreshToken plainToken meta) w = Ok ro ->
  let w1 := exec (rotateRefreshToken plainToken meta) w in
  let w2 := exec (rotateRefreshToken plainToken meta') w1 in
  run (rotateRefreshToken plainToken meta') w1 = Throw REFRESH_REUSE /\
  run (rotateRefreshToken (newPlainToken ro) meta'') w2 = Throw REFRESH_REUSE.
Proof.
  intros Hfresh Hrun w1 w2.
  destruct (rotate_Ok_inv _ _ _ Hrun) as [e [Hfind [Hrev [Hexp Hacc]]]].
  assert (Hro : ro = rotated_of w e).
  { unfold run in Hrun. rewrite (rotate_success _ meta _ Hfind Hrev Hexp Hacc) in Hrun.
    simpl in Hrun. congruence. }
  set (new := successor w e meta).
  set (R := revoke_and_link (rt_id e) (clock w (3 + ticks w)) (rt_id new)).
  assert (Hrows1 : refreshTokens (db w1) = map R (refreshTokens (db w) ++ [new])).
  { unfold w1, exec. rewrite (rotate_success _ meta _ Hfind Hrev Hexp Hacc). reflexivity. }
  assert (Hfind1 : find (fun r => rt_tokenHash r =? hashToken plainToken)
                     (refreshTokens (db w1)) = Some (R e)).
  { rewrite Hrows1, find_map_same.
    - rewrite (find_app_Some _ _ _ Hfind). reflexivity.
    - intros a. unfold R. rewrite revoke_and_link_tokenHash. reflexivity. }
  assert (HRe : rt_revokedAt (R e) = Some (clock w (3 + ticks w))).
  { unfold R, revoke_and_link. rewrite Z.eqb_refl. reflexivity. }
  assert (HRfam : forall r, rt_familyId (R r) = rt_familyId r).
  { intros r. unfold R. apply identity_familyId, revoke_and_link_identity. }
  assert (Hrun1 : rotateRefreshToken plainToken meta' w1
                  = (Throw REFRESH_REUSE,
                     exec (revokeRefreshFamilyByFamilyId (rt_familyId e)) w1)).
  { rewrite (rotate_reuse_run _ meta' _ Hfind1 HRe), HRfam. reflexivity. }
  split; [unfold run; rewrite Hrun1; reflexivity|].
  set (G := revoke_if_active (rt_familyId e) (now w1)).
  assert (Hrows2 : refreshTokens (db w2) = map G (map R (refreshTokens (db w) ++ [new]))).
  { unfold w2, exec at 1. rewrite Hrun1. simpl snd. rewrite revokeFamily_rows, Hrows1.
    reflexivity. }
  assert (Hfind2 : find (fun r => rt_tokenHash r =? hashToken (newPlainToken ro))
                     (refreshTokens (db w2)) = Some (G (R new))).
  { rewrite Hrows2, !find_map_same.
    - rewrite find_app_None.
      + subst ro. simpl. rewrite String.eqb_refl. reflexivity.
      + apply find_none_iff. intros r Hr. subst ro. simpl.
        apply String.eqb_neq, Hfresh, Hr.
    - intros a. unfold R. rewrite revoke_and_link_tokenHash. reflexivity.
    - intros a. unfold G. rewrite revoke_if_active_tokenHash. reflexivity. }
  destruct (rt_revokedAt (G (R new))) as [t|] eqn:HG.
  - unfold run. rewrite (rotate_reuse_run _ meta'' _ Hfind2 HG). reflexivity.
  - exfalso. revert HG. unfold G. apply revoke_if_active_revoked.
    rewrite HRfam. reflexivity.
Qed.

End RefreshMore.

(** ** The login handlers *)

Section LoginHandlers.

Context {L : Libs}.
Variable env : Env.
Variable production : bool.

Lemma existsb_stamped id date (l : list Admin) :
  existsb (fun a => (adm_id a =? id)%Z) (map (set_lastLogin id date) l)
  = existsb (fun a => (adm_id a =? id)%Z) l.
Proof.
  induction l as [|a l IH]; simpl; [reflexivity|].
  rewrite set_lastLogin_id, IH. reflexivity.
Qed.

(** X28. The admin login handler.  When [AuthService.login] throws, the
    handler forwards that error and does nothing else: no cookie, no
    refresh token.  When the credentials are those of an active admin, the
    user agent and the ip of the request fit their columns (and the digest
    of the plaintext drawn is new to the store), it answers 200 with two
    HTTP-only cookies, access_token for 15 minutes and refresh_token for 7
    days, and the store holds a non-revoked record with the digest of the
    refresh cookie, owned by that admin.  When the credentials are good and
    the user agent or the ip does not fit, the handler forwards the error of
    the insert: the login has stamped [lastLogin], and no refresh record is
    written. *)
Theorem AuthController_login_sets_session email password req w :
  (forall e,
     run (login env email password) w = Throw e ->
     AuthController_login env production email password req w
     = (Ok (Forwarded e), exec (login env email password) w)) /\
  (forall admin,
     run (prisma_admin_findUnique_email email) w = Ok (Some admin) ->
     adm_isActive admin = true ->
     comparePassword password (adm_passwordHash admin) = true ->
     meta_fits (mkMeta (req_user_agent req) (req_ip req)) = true ->
     (forall r, In r (refreshTokens (db w)) ->
        rt_tokenHash r <> sha256_hex (entropy w (draws w))) ->
     exists response accessToken row,
       run (AuthController_login env production email password req) w
       = Ok (Sent 200
               [mkResCookie "access_token" accessToken true production "lax" "/" 900000;
                mkResCookie "refresh_token" (entropy w (draws w)) true production "lax" "/"
                  604800000]
               [] response) /\
       run (login env email password) w = Ok response /\
       accessToken = jws_encode (JWT_SECRET env)
                       (payload_of KAdmin (adm_id admin) (clock w (6 + ticks w) / 1000)
                          (JWT_EXPIRES_HOURS env)) /\
       run (findRefreshTokenByPlain (entropy w (draws w)))
           (exec (AuthController_login env production email password req) w)
       = Ok (Some row) /\
       rt_adminId row = Some (adm_id admin) /\ rt_customerId row = None /\
       rt_revokedAt row = None) /\
  (forall admin,
     run (prisma_admin_findUnique_email email) w = Ok (Some admin) ->
     adm_isActive admin = true ->
     comparePassword password (adm_passwordHash admin) = true ->
     meta_fits (mkMeta (req_user_agent req) (req_ip req)) = false ->
     run (AuthController_login env production email password req) w
     = Ok (Forwarded (LibErr "PrismaClientKnownRequestError")) /\
     db (exec (AuthController_login env production email password req) w)
     = db (exec (login env email password) w)).
Proof.
  split; [|split].
  - intros e Hrun. unfold run in Hrun. unfold AuthController_login, try_catch, bind, exec.
    destruct (login env email password w) as [[r|e'] w1]; simpl in *; [discriminate|].
    injection Hrun as ->. reflexivity.
  - intros admin Hfind Hactive Hpw Hfits Hfresh. apply findUnique_email_find in Hfind.
    pose proof (find_some _ _ Hfind) as [Hin _].
    unfold run, exec, AuthController_login, try_catch, bind.
    rewrite (@login_run _ env email password w admin Hfind Hactive Hpw).
    cbv beta iota. rewrite issue_run.
    2:{ unfold storable. rewrite Hfits. unfold owner_rows, stamped.
        cbn [andb admins db ar_id lr_admin].
        rewrite existsb_stamped, (existsb_admin_In _ _ Hin). reflexivity. }
    cbv beta iota.
    change (generateToken env ?i) with (issue env KAdmin i).
    rewrite issue_mints. simpl.
    do 3 eexists. split; [reflexivity|]. split; [reflexivity|]. split; [reflexivity|].
    unfold hashToken. rewrite find_app_None.
    + simpl. rewrite String.eqb_refl. repeat split.
    + apply find_none_iff. intros r Hr. apply String.eqb_neq, Hfresh, Hr.
  - intros admin Hfind Hactive Hpw Hfits. apply findUnique_email_find in Hfind.
    unfold run, exec, AuthController_login, try_catch, bind.
    rewrite (@login_run _ env email password w admin Hfind Hactive Hpw).
    cbv beta iota. rewrite issue_refused.
    2:{ unfold storable. rewrite Hfits. reflexivity. }
    split; reflexivity.
Qed.

Lemma existsb_customer_In (c : Customer) (l : list Customer) :
  In c l -> existsb (fun x => (cus_id x =? cus_id c)%Z) l = true.
Proof.
  intros Hin. apply existsb_exists. exists c. split; [exact Hin | apply Z.eqb_refl].
Qed.

Lemma customer_email_find email w found :
  run (prisma_customer_findUnique_email email) w = Ok found ->
  find (fun c => cus_email c =? email) (customers (db w)) = found.
Proof. unfold run. simpl. congruence. Qed.

(** X29. The refusals of the customer login.  An unknown email and a wrong
    password for an active customer are forwarded with the same
    INVALID_CREDENTIALS error; a deactivated customer is told so whatever
    the password; and in the three cases the world is left as it was: no
    cookie, no token, no refresh record. *)
Theorem customer_login_refusals email password req w :
  (run (prisma_customer_findUnique_email email) w = Ok None ->
   customer_login_route env production email password req w
   = (Ok (Forwarded INVALID_CREDENTIALS), w)) /\
  (forall customer,
     run (prisma_customer_findUnique_email email) w = Ok (Some customer) ->
     (cus_isActive customer = false ->
      customer_login_route env production email password req w
      = (Ok (Forwarded CUSTOMER_DEACTIVATED), w)) /\
     (cus_isActive customer = true ->
      comparePassword password (cus_passwordHash customer) = false ->
      customer_login_route env production email password req w
      = (Ok (Forwarded INVALID_CREDENTIALS), w))).
Proof.
  split.
  - intros Hfind. apply customer_email_find in Hfind.
    unfold customer_login_route, try_catch, bind, prisma_customer_findUnique_email,
      readDb, ret.
    simpl. rewrite Hfind. reflexivity.
  - intros customer Hfind. apply customer_email_find in Hfind.
    split; [intros Hactive | intros Hactive Hpw];
      unfold customer_login_route, try_catch, bind, prisma_customer_findUnique_email,
        readDb, ret;
      simpl; rewrite Hfind; simpl; rewrite Hactive; simpl; try rewrite Hpw; reflexivity.
Qed.

Lemma set_customer_lastLogin_id id date c :
  cus_id (set_customer_lastLogin id date c) = cus_id c.
Proof. unfold set_customer_lastLogin. destruct (cus_id c =? id)%Z; reflexivity. Qed.

(** The run of a customer login that passes the three checks. *)
Lemma customer_login_run email password req w customer :
  find (fun c => cus_email c =? email) (customers (db w)) = Some customer ->
  cus_isActive customer = true ->
  comparePassword password (cus_passwordHash customer) = true ->
  meta_fits (mkMeta (req_user_agent req) (req_ip req)) = true ->
  let token := jws_encode (JWT_SECRET env)
                 (payload_of KCustomer (cus_id customer) (now w / 1000)
                    (JWT_EXPIRES_HOURS env)) in
  let row := issued_record (tick w) None (Some (cus_id customer))
               (mkMeta (req_user_agent req) (req_ip req)) in
  let d1 := created (db w) row in
  let d2 := customer_stamped d1 (cus_id customer) (clock w (3 + ticks w)) in
  customer_login_route env production email password req w
  = (Ok (Sent 200
           [cookieOptions production "access_token" token (15 * 60 * 1000);
            cookieOptions production "refresh_token" (entropy w (draws w)) refreshTtlMs]
           []
           (mkCustomerSession
              (mkCustomerResponse (cus_id customer) (cus_name customer)
                 (cus_email customer) true (cus_createdAt customer)
                 (Some (clock w (4 + ticks w))))
              token)),
     mkWorld d2 (history w ++ [d1; d2]) (clock w) (5 + ticks w) (entropy w) (2 + draws w)).
Proof.
  intros Hfind Hactive Hpw Hfits. pose proof (find_some _ _ Hfind) as [Hin _].
  unfold customer_login_route, try_catch, bind at 1, prisma_customer_findUnique_email,
    readDb, ret.
  simpl. rewrite Hfind. simpl. rewrite Hactive, Hpw. simpl.
  unfold bind at 1.
  change (generateCustomerToken env (cus_id customer))
    with (issue env KCustomer (cus_id customer)).
  rewrite issue_mints. cbv beta iota. unfold bind at 1. rewrite issue_run.
  2:{ unfold storable. rewrite Hfits. cbn [andb owner_rows tick db].
      apply (existsb_customer_In _ _ Hin). }
  cbv beta iota.
  unfold prisma_customer_update_lastLogin, bind, readDb, writeDb, Date_now, ret.
  simpl. rewrite (existsb_customer_In _ _ Hin). simpl.
  rewrite <- app_assoc. reflexivity.
Qed.

(** X30. Customer login, then the profile.  A login with the email of an
    active customer and a password that the hash accepts, on a request
    whose user agent and ip fit their columns, answers 200, and
    the access_token cookie carries the very token of the body, minted for
    the customer's id.  When that id is the key of the customer's row, a
    request that carries the token gets the customer's profile in any world
    that holds the store as the login left it and whose clock has not
    reached the expiry. *)
Theorem customer_login_then_profile email password req w customer :
  run (prisma_customer_findUnique_email email) w = Ok (Some customer) ->
  run (prisma_customer_findUnique_id (Some (cus_id customer))) w = Ok (Some customer) ->
  cus_isActive customer = true ->
  comparePassword password (cus_passwordHash customer) = true ->
  meta_fits (mkMeta (req_user_agent req) (req_ip req)) = true ->
  exists session refreshCookie,
    run (customer_login_route env production email password req) w
    = Ok (Sent 200
            [mkResCookie "access_token" (cs_token session) true production "lax" "/" 900000;
             refreshCookie]
            [] session) /\
    run (issue env KCustomer (cus_id customer)) w = Ok (cs_token session) /\
    cr_id (cs_customer session) = cus_id customer /\
    forall req1 w1,
      extractToken req1 = Some (cs_token session) ->
      db w1 = db (exec (customer_login_route env production email password req) w) ->
      now w1 / 1000 < now w / 1000 + JWT_EXPIRES_HOURS env * 3600 ->
      exists profile,
        run (customer_profile_route env req1) w1 = Ok (Sent 200 [] [] (Some profile)) /\
        cr_id profile = cus_id customer /\
        cr_email profile = cus_email customer.
Proof.
  intros Hfind Hid Hactive Hpw Hfits. apply customer_email_find in Hfind.
  assert (Hid' : find (fun c => (cus_id c =? cus_id customer)%Z) (customers (db w))
                 = Some customer).
  { revert Hid. unfold run. simpl. congruence. }
  unfold run at 1, exec.
  rewrite (@customer_login_run email password req w customer Hfind Hactive Hpw Hfits).
  cbn [fst snd]. eexists (mkCustomerSession _ _). eexists. split; [reflexivity|].
  split; [unfold run; rewrite issue_mints; reflexivity|]. split; [reflexivity|].
  intros req1 w1 Htoken Hdb Hlive. cbn [cs_token] in Htoken. cbn [db] in Hdb.
  assert (Hissue : run (issue env KCustomer (cus_id customer)) w
                   = Ok (jws_encode (JWT_SECRET env)
                           (payload_of KCustomer (cus_id customer) (now w / 1000)
                              (JWT_EXPIRES_HOURS env)))).
  { unfold run. rewrite issue_mints. reflexivity. }
  unfold run, customer_profile_route, bind.
  pose proof (@authenticateCustomer_resolves _ env req1 (cus_id customer) w _ w1
                Hissue Htoken Hlive) as Hguard.
  unfold run in Hguard.
  destruct (authenticateCustomer env req1 w1) as [res w2]. simpl in Hguard. subst res.
  rewrite Hdb. unfold customer_stamped, created, with_refreshTokens. simpl.
  rewrite find_map_same by (intros a; rewrite set_customer_lastLogin_id; reflexivity).
  rewrite Hid'. simpl. eexists. split; [reflexivity|].
  unfold set_customer_lastLogin. rewrite Z.eqb_refl. simpl. auto.
Qed.

End LoginHandlers.

(** ** The statements on concrete inputs *)

Import Sample.
#[local] Existing Instance Framed.libs.


(** Expiry at the boundary: the clock reads exactly [expiresAt]. *)
Lemma rotate_expired_at_boundary :
  run (findRefreshTokenByPlain "tok1") w_boundary = Ok (Some (record 1 "tok1" None None)) /\
  rt_revokedAt (record 1 "tok1" None None) = None /\
  rt_expiresAt (record 1 "tok1" None None) <= now w_boundary /\
  run (rotateRefreshToken "tok1" meta0) w_boundary = Throw REFRESH_EXPIRED /\
  db (exec (rotateRefreshToken "tok1" meta0) w_boundary) = db w_boundary /\
  history (exec (rotateRefreshToken "tok1" meta0) w_boundary) = history w_boundary.
Proof.
  split; [reflexivity|]. split; [reflexivity|]. split; [vm_compute; discriminate|].
  apply (@rotate_expired_leaves_store _ "tok1" meta0 w_boundary (record 1 "tok1" None None));
    [reflexivity | reflexivity | vm_compute; discriminate].
Defined.

(** C2 as stated fails: a rotation of the only record of a family succeeds,
    and the store after its first write holds two non-revoked records of
    that family; the presented record is revoked by the second write. *)
Lemma rotate_two_live_records_midway :
  run (rotateRefreshToken "tok1" meta0) w_live
    = Ok (mkRotated "af00d" refreshTtlMs (Some 1) None "fam") /\
  map (fun d => map rt_revokedAt (refreshTokens d))
    (history (exec (rotateRefreshToken "tok1" meta0) w_live))
    = [[None; None]; [Some 103; None]] /\
  map (active_in_family "fam") (history (exec (rotateRefreshToken "tok1" meta0) w_live))
    = [2; 1]%nat.
Proof. repeat split. Qed.

(** The order of the two writes, on the same rotation. *)
Lemma rotate_creates_then_revokes_live :
  run (rotateRefreshToken "tok1" meta0) w_live
    = Ok (mkRotated "af00d" refreshTtlMs (Some 1) None "fam") /\
  exists existing newRec date,
    run (findRefreshTokenByPlain "tok1") w_live = Ok (Some existing) /\
    rt_revokedAt existing = None /\
    rt_familyId newRec = rt_familyId existing /\
    rt_revokedAt newRec = None /\
    let d1 := created (db w_live) newRec in
    let d2 := revoked d1 (rt_id existing) date (rt_id newRec) in
    history (exec (rotateRefreshToken "tok1" meta0) w_live) = (history w_live ++ [d1; d2])%list /\
    db (exec (rotateRefreshToken "tok1" meta0) w_live) = d2 /\
    (2 <= active_in_family (rt_familyId existing) d1)%nat /\
    forall r, In r (refreshTokens d2) -> rt_id r = rt_id existing ->
      rt_revokedAt r = Some date /\ rt_replacedById r = Some (rt_id newRec).
Proof.
  split; [reflexivity|].
  apply (@rotate_creates_then_revokes _ "tok1" meta0 w_live
           (mkRotated "af00d" refreshTtlMs (Some 1) None "fam")).
  reflexivity.
Defined.

(** C5 as stated fails: with the default configuration, a token minted at
    time 0 still verifies one hour later, and up to the last millisecond
    before eight hours have passed. *)
Lemma access_token_valid_after_one_hour :
  run (issue env0 KAdmin 1) (at_time db_live 0) = Ok alice_token /\
  run (verifyToken env0 alice_token) (at_time db_live (60 * 60 * 1000))
    = Ok (payload_of KAdmin 1 0 8) /\
  run (verifyToken env0 alice_token) (at_time db_live (8 * 60 * 60 * 1000 - 1))
    = Ok (payload_of KAdmin 1 0 8) /\
  run (verifyToken env0 alice_token) (at_time db_live (8 * 60 * 60 * 1000))
    = Throw INVALID_TOKEN.
Proof. repeat split. Qed.

(** The life of a token under the default configuration. *)
Lemma access_token_lives_eight_hours :
  run (issue env0 KAdmin 1) (at_time db_live 0) = Ok alice_token /\
  run (verifyToken env0 alice_token) (at_time db_live (60 * 60 * 1000))
  = if (now (at_time db_live 0) / 1000 + JWT_EXPIRES_HOURS env0 * 3600
        <=? now (at_time db_live (60 * 60 * 1000)) / 1000)%Z
    then Throw INVALID_TOKEN
    else Ok (payload_of KAdmin 1 (now (at_time db_live 0) / 1000) (JWT_EXPIRES_HOURS env0)).
Proof.
  split; [reflexivity|].
  apply (@access_token_lives_configured_hours _ env0 KAdmin 1 (at_time db_live 0) alice_token
           (at_time db_live (60 * 60 * 1000))).
  reflexivity.
Defined.


(** The CSRF guard: a POST without the header, a POST whose header is not
    the cookie, and a GET without header and cookie. *)
Lemma verifyCsrf_double_submit_requests :
  mutating "POST" /\
  verifyCsrf (request "POST" [("csrf_token", "abc")] None)
    = CsrfReject 403 "CSRF_MISMATCH" "Invalid CSRF token" /\
  verifyCsrf (request "POST" [("csrf_token", "abc")] (Some "abd"))
    = CsrfReject 403 "CSRF_MISMATCH" "Invalid CSRF token" /\
  ~ mutating "GET" /\
  verifyCsrf (request "GET" [] None) = CsrfNext.
Proof.
  assert (Hpost : mutating "POST") by (left; reflexivity).
  assert (Hget : ~ mutating "GET").
  { intros [H|[H|[H|[H|[]]]]]; discriminate H. }
  split; [exact Hpost|]. split.
  { apply (verifyCsrf_double_submit (request "POST" [("csrf_token", "abc")] None));
      [exact Hpost | left; reflexivity]. }
  split.
  { apply (verifyCsrf_double_submit (request "POST" [("csrf_token", "abc")] (Some "abd")));
      [exact Hpost | right; discriminate]. }
  split; [exact Hget|].
  apply (verifyCsrf_double_submit (request "GET" [] None)). exact Hget.
Defined.

(** Login: an unknown email, and the email of an active admin with a wrong
    password. *)
Lemma login_failures_indistinguishable_alice :
  run (prisma_admin_findUnique_email "nobody@x.com") w_live = Ok None /\
  run (prisma_admin_findUnique_email "a@x.com") w_live = Ok (Some (alice true)) /\
  adm_isActive (alice true) = true /\
  comparePassword "Wrong123" (adm_passwordHash (alice true)) = false /\
  run (login env0 "nobody@x.com" "Abcdefg1") w_live = Throw INVALID_CREDENTIALS /\
  run (login env0 "a@x.com" "Wrong123") w_live = Throw INVALID_CREDENTIALS /\
  exec (login env0 "nobody@x.com" "Abcdefg1") w_live = w_live /\
  exec (login env0 "a@x.com" "Wrong123") w_live = w_live.
Proof.
  split; [reflexivity|]. split; [reflexivity|]. split; [reflexivity|].
  split; [reflexivity|].
  apply (@login_failures_indistinguishable _ env0 "nobody@x.com" "Abcdefg1" w_live
           "a@x.com" "Wrong123" w_live (alice true)); reflexivity.
Defined.



(** C4 fails on the customer guard. The store holds customer 5 with
    [isActive] false; a request carries, in the access_token cookie, the
    token minted for customer 5 one minute earlier.  The guard hands over
    with the deactivated customer attached to the request, where C4 has it
    fail with AccountDeactivated. *)
Theorem authenticateCustomer_passes_deactivated :
  map cus_isActive (customers (db w_carol_off)) = [false] /\
  run (issue env0 KCustomer 5) (at_time db_carol_off 0) = Ok carol_token /\
  run (authenticateCustomer env0 (request "GET" [("access_token", carol_token)] None))
      w_carol_off
  = Ok (NextOk (attach_customer (request "GET" [("access_token", carol_token)] None)
                  (mkCustomerResponse 5 "Carol" "c@x.com" false 0 None))).
Proof. repeat split. Qed.

(** The admin guard on the same situation: the admin is deactivated and
    the guard hands over ACCOUNT_DEACTIVATED. *)
Lemma authenticateAdmin_rejects_deactivated :
  run (authenticateAdmin env0 (request "GET" [("access_token", alice_token)] None))
      (with_principals w_carol_off [alice false] [carol false])
  = Ok (NextErr ACCOUNT_DEACTIVATED).
Proof. reflexivity. Qed.

(** ** The further statements on concrete inputs *)

Import Cases.

Lemma extractToken_header_then_cookie_both :
  req_authorization both_request = Some ("Bearer " ++ "abc") /\
  contains " " "abc" = false /\
  extractToken both_request = Some "abc" /\
  cookie "access_token" (req_cookies both_request) = Some "xyz".
Proof.
  split; [reflexivity|]. split; [reflexivity|]. split; [|reflexivity].
  apply (proj1 (extractToken_header_then_cookie both_request) "abc"); reflexivity.
Defined.

Lemma guard_rejects_untrusted_requests :
  extractToken (request "GET" [] None) = None /\
  run (guard env0 KAdmin (request "GET" [] None)) w_live = Ok (NextErr TOKEN_REQUIRED) /\
  extractToken (with_token forged_token) = Some forged_token /\
  forged_token <> "" /\
  (forall p, jws_decode forged_token <> Some (JWT_SECRET env0, p)) /\
  run (guard env0 KAdmin (with_token forged_token)) w_live = Ok (NextErr INVALID_TOKEN) /\
  run (guard env0 KCustomer (with_token "garbage")) w_live = Ok (NextErr INVALID_TOKEN).
Proof.
  assert (Hforged : forall p, jws_decode forged_token <> Some (JWT_SECRET env0, p)).
  { intros p H. vm_compute in H. discriminate H. }
  assert (Hgarbage : forall p, jws_decode "garbage" <> Some (JWT_SECRET env0, p)).
  { intros p H. vm_compute in H. discriminate H. }
  split; [reflexivity|]. split.
  { apply (proj1 (guard_rejects_untrusted env0 KAdmin (request "GET" [] None) w_live)).
    left. reflexivity. }
  split; [reflexivity|]. split; [discriminate|]. split; [exact Hforged|]. split.
  - apply (proj2 (guard_rejects_untrusted env0 KAdmin (with_token forged_token) w_live)
             forged_token); [reflexivity | discriminate | exact Hforged].
  - apply (proj2 (guard_rejects_untrusted env0 KCustomer (with_token "garbage") w_live)
             "garbage"); [reflexivity | discriminate | exact Hgarbage].
Defined.

Lemma guard_rejects_other_kind_carol :
  run (issue env0 KCustomer 5) (at_time db_live 0) = Ok carol_token /\
  extractToken (with_token carol_token) = Some carol_token /\
  now (at_time db_live 60000) / 1000
    < now (at_time db_live 0) / 1000 + JWT_EXPIRES_HOURS env0 * 3600 /\
  KCustomer <> KAdmin /\
  run (guard env0 KAdmin (with_token carol_token)) (at_time db_live 60000)
    = Ok (NextErr INVALID_TOKEN_TYPE).
Proof.
  split; [reflexivity|]. split; [reflexivity|]. split; [reflexivity|].
  split; [discriminate|].
  apply (@guard_rejects_other_kind _ env0 KCustomer KAdmin 5 (at_time db_live 0) carol_token
           (with_token carol_token) (at_time db_live 60000));
    [reflexivity | reflexivity | reflexivity | discriminate].
Defined.

Lemma guard_rejects_expired_alice :
  run (issue env0 KAdmin 1) (at_time db_live 0) = Ok alice_token /\
  extractToken (with_token alice_token) = Some alice_token /\
  now (at_time db_live 0) / 1000 + JWT_EXPIRES_HOURS env0 * 3600
    <= now (at_time db_live 28800000) / 1000 /\
  run (guard env0 KAdmin (with_token alice_token)) (at_time db_live 28800000)
    = Ok (NextErr INVALID_TOKEN).
Proof.
  split; [reflexivity|]. split; [reflexivity|]. split; [vm_compute; discriminate|].
  apply (@guard_rejects_expired _ env0 KAdmin KAdmin 1 (at_time db_live 0) alice_token
           (with_token alice_token) (at_time db_live 28800000));
    [reflexivity | reflexivity | vm_compute; discriminate].
Defined.

Lemma guard_resolves_principal_alice :
  run (issue env0 KAdmin 1) (at_time db_live 0) = Ok alice_token /\
  extractToken (with_token alice_token) = Some alice_token /\
  now (at_time db_live 60000) / 1000
    < now (at_time db_live 0) / 1000 + JWT_EXPIRES_HOURS env0 * 3600 /\
  run (guard env0 KAdmin (with_token alice_token)) (at_time db_live 60000)
    = Ok (NextOk (attach_admin (with_token alice_token) (admin_response (alice true)))).
Proof.
  split; [reflexivity|]. split; [reflexivity|]. split; [reflexivity|].
  apply (@guard_resolves_principal _ env0 KAdmin 1 (at_time db_live 0) alice_token
           (with_token alice_token) (at_time db_live 60000)); reflexivity.
Defined.

(** The permission check after each guard: the request that the admin
    guard has let through passes; a request without a token, which no guard
    lets through and which carries no admin, is refused, and so is the
    request of customer 5 that the customer guard has let through. *)
Lemma requirePermission_after_guard_alice :
  run (issue env0 KAdmin 1) w_session = Ok alice_session_token /\
  run (issue env0 KCustomer 5) w_session = Ok carol_session_token /\
  run (authenticateAdmin env0 (with_token alice_session_token)) w_session_later
    = Ok (NextOk (attach_admin (with_token alice_session_token)
                    (admin_response (alice true)))) /\
  requirePermission "products:write"
    (attach_admin (with_token alice_session_token) (admin_response (alice true)))
    w_session_later
    = (Ok (NextOk (attach_admin (with_token alice_session_token)
                     (admin_response (alice true)))),
       w_session_later) /\
  req_admin (request "GET" [] None) = None /\
  run (authenticateAdmin env0 (request "GET" [] None)) w_session_later
    = Ok (NextErr TOKEN_REQUIRED) /\
  requirePermission "products:write" (request "GET" [] None) w_session_later
    = (Throw AUTH_REQUIRED, w_session_later) /\
  (exists req',
     run (authenticateCustomer env0 (with_token carol_session_token)) w_session_later
       = Ok (NextOk req') /\
     requirePermission "products:write" req' w_session_later
       = (Throw AUTH_REQUIRED, w_session_later)).
Proof.
  split; [reflexivity|]. split; [reflexivity|]. split; [reflexivity|].
  destruct (requirePermission_after_guard env0 "products:write" w_session_later)
    as [Hpass [Hbare Hcustomer]].
  split; [apply (Hpass (with_token alice_session_token) w_session_later); reflexivity|].
  split; [reflexivity|]. split; [reflexivity|].
  split; [apply Hbare; reflexivity|].
  eexists. split; [reflexivity|].
  apply (Hcustomer (with_token carol_session_token) w_session_later); reflexivity.
Defined.

Lemma verifyCsrf_passes_iff_post :
  mutating (req_method csrf_request) /\
  (verifyCsrf csrf_request = CsrfNext <->
   exists v, v <> "" /\
     cookie CSRF_COOKIE (req_cookies csrf_request) = Some v /\
     req_x_csrf_token csrf_request = Some v).
Proof.
  assert (Hm : mutating (req_method csrf_request)) by (left; reflexivity).
  split; [exact Hm|]. apply (verifyCsrf_passes_iff csrf_request Hm).
Defined.

Lemma csrf_first_mutating_request_rejected_delete :
  mutating (req_method first_request) /\
  truthy_opt (cookie CSRF_COOKIE (req_cookies first_request)) = false /\
  run (csrf_middlewares true first_request) w_live
    = Ok (Some (mkResCookie CSRF_COOKIE "af00d" false true "lax" "/" 604800000),
          CsrfReject 403 "CSRF_MISMATCH" "Invalid CSRF token") /\
  mutating (req_method csrf_request) /\
  verifyCsrf csrf_request = CsrfNext /\
  csrf_middlewares true csrf_request w_live = (Ok (None, CsrfNext), w_live).
Proof.
  assert (Hd : mutating (req_method first_request))
    by (right; right; right; left; reflexivity).
  assert (Hp : mutating (req_method csrf_request)) by (left; reflexivity).
  split; [exact Hd|]. split; [reflexivity|]. split.
  { apply (proj1 (csrf_first_mutating_request_rejected true first_request w_live Hd)).
    reflexivity. }
  split; [exact Hp|]. split; [reflexivity|].
  apply (proj2 (csrf_first_mutating_request_rejected true csrf_request w_live Hp)).
  reflexivity.
Defined.

Lemma entropy_fresh_live :
  forall r, In r (refreshTokens (db w_live)) ->
    rt_tokenHash r <> sha256_hex (entropy w_live (draws w_live)).
Proof. intros r [<-|[]]. discriminate. Defined.

Lemma entropy_fresh_session :
  forall r, In r (refreshTokens (db w_session)) ->
    rt_tokenHash r <> sha256_hex (entropy w_session (draws w_session)).
Proof. intros r [<-|[]]. discriminate. Defined.

Lemma issued_token_is_found_live :
  run (issueRefreshToken (Some 1) None meta0) w_live = Ok issued_live /\
  exists row,
    run (findRefreshTokenByPlain (is_plainToken issued_live))
        (exec (issueRefreshToken (Some 1) None meta0) w_live) = Ok (Some row) /\
    rt_id row = is_id issued_live /\ is_id issued_live = refreshTokenSeq (db w_live) /\
    rt_adminId row = Some 1 /\ rt_customerId row = None /\
    rt_familyId row = is_familyId issued_live /\
    rt_tokenHash row = sha256_hex (is_plainToken issued_live) /\
    rt_revokedAt row = None /\ rt_replacedById row = None /\
    rt_expiresAt row = now w_live + 7 * 24 * 60 * 60 * 1000 /\
    refreshTokens (db (exec (issueRefreshToken (Some 1) None meta0) w_live))
    = (refreshTokens (db w_live) ++ [row])%list.
Proof.
  split; [reflexivity|].
  apply (@issued_token_is_found _ (Some 1) None meta0 w_live issued_live);
    [exact entropy_fresh_live | reflexivity].
Defined.

Lemma issued_token_rotates_live :
  run (issueRefreshToken (Some 1) None meta0) w_session = Ok issued_live /\
  now (exec (issueRefreshToken (Some 1) None meta0) w_session)
    < now w_session + 7 * 24 * 60 * 60 * 1000 /\
  meta_fits meta0 = true /\
  run (rotateRefreshToken "af00d" meta0)
      (exec (issueRefreshToken (Some 1) None meta0) w_session)
    = Ok (mkRotated "cf00d" refreshTtlMs (Some 1) None "bf00d").
Proof.
  split; [reflexivity|]. split; [reflexivity|]. split; [reflexivity|].
  apply (@issued_token_rotates _ (Some 1) None meta0 w_session issued_live
           (exec (issueRefreshToken (Some 1) None meta0) w_session) meta0);
    [exact entropy_fresh_session | reflexivity | reflexivity | reflexivity | reflexivity].
Defined.


Lemma replay_burns_successor_live :
  run (rotateRefreshToken "tok1" meta0) w_live = Ok rotated_live /\
  run (rotateRefreshToken "tok1" meta0) (exec (rotateRefreshToken "tok1" meta0) w_live)
    = Throw REFRESH_REUSE /\
  run (rotateRefreshToken (newPlainToken rotated_live) meta0)
      (exec (rotateRefreshToken "tok1" meta0) (exec (rotateRefreshToken "tok1" meta0) w_live))
    = Throw REFRESH_REUSE.
Proof.
  split; [reflexivity|].
  apply (@replay_burns_successor _ "tok1" meta0 meta0 meta0 w_live rotated_live);
    [exact entropy_fresh_live | reflexivity].
Defined.

Lemma refresh_route_refusals_live :
  cookie "refresh_token" (req_cookies bare_request) = None /\
  refresh_token_route env0 bare_request w_live
    = (Ok (ReplyError 401 "REFRESH_REQUIRED" "Refresh token required"), w_live) /\
  cookie "refresh_token" (req_cookies (request "POST" [("refresh_token", "nope")] None))
    = Some "nope" /\
  run (findRefreshTokenByPlain "nope") w_live = Ok None /\
  "nope" <> "" /\
  refresh_token_route env0 (request "POST" [("refresh_token", "nope")] None) w_live
    = (Ok (ReplyNext INVALID_REFRESH), w_live).
Proof.
  split; [reflexivity|]. split.
  { apply (proj1 (refresh_route_refusals env0 bare_request w_live)). left. reflexivity. }
  split; [reflexivity|]. split; [reflexivity|]. split; [discriminate|].
  apply (proj2 (refresh_route_refusals env0
                  (request "POST" [("refresh_token", "nope")] None) w_live) "nope");
    [reflexivity | reflexivity | discriminate].
Defined.

Lemma ids_fresh_chain : ids_fresh (db w_chain).
Proof.
  split.
  - repeat constructor.
  - repeat constructor; simpl; intros H;
      repeat (destruct H as [H|H]; [discriminate H|]); exact H.
Defined.

Lemma ids_fresh_live : ids_fresh (db w_live).
Proof.
  split.
  - repeat constructor.
  - repeat constructor. intros [].
Defined.

Lemma refresh_operations_keep_ids_fresh_chain :
  ids_fresh (db w_chain) /\
  ids_fresh (db (exec (issueRefreshToken None (Some 5) meta0) w_chain)) /\
  ids_fresh (db (exec (rotateRefreshToken "tok2" meta0) w_chain)) /\
  ids_fresh (db (exec (revokeRefreshFamilyByFamilyId "fam") w_chain)).
Proof.
  split; [exact ids_fresh_chain|].
  destruct (refresh_operations_keep_ids_fresh w_chain ids_fresh_chain) as [Hi [Hr Hv]].
  split; [apply Hi|]. split; [apply Hr | apply Hv].
Defined.

Lemma rotate_keeps_family_counts_live :
  ids_fresh (db w_live) /\
  run (rotateRefreshToken "tok1" meta0) w_live = Ok rotated_live /\
  active_in_family "fam" (db w_live) = 1%nat /\
  active_in_family "fam" (db (exec (rotateRefreshToken "tok1" meta0) w_live))
    = active_in_family "fam" (db w_live).
Proof.
  split; [exact ids_fresh_live|]. split; [reflexivity|]. split; [reflexivity|].
  apply (@rotate_keeps_family_counts _ "tok1" meta0 w_live rotated_live "fam");
    [exact ids_fresh_live | reflexivity].
Defined.

Lemma links_in_family_chain : links_in_family (db w_chain).
Proof.
  intros r link [<-|[<-|[<-|[]]]] H; simpl in H; try discriminate H.
  injection H as <-. exists (record 2 "tok2" None None).
  split; [right; left; reflexivity | split; reflexivity].
Defined.

Lemma rotate_keeps_links_in_family_chain :
  ids_fresh (db w_chain) /\
  links_in_family (db w_chain) /\
  links_in_family (db (exec (rotateRefreshToken "tok2" meta0) w_chain)).
Proof.
  split; [exact ids_fresh_chain|]. split; [exact links_in_family_chain|].
  apply (@rotate_keeps_links_in_family _ "tok2" meta0 w_chain
           ids_fresh_chain links_in_family_chain).
Defined.

Lemma login_deactivated_any_password_alice :
  run (prisma_admin_findUnique_email "a@x.com") w_alice_off = Ok (Some (alice false)) /\
  adm_isActive (alice false) = false /\
  login env0 "a@x.com" "Abcdefg1" w_alice_off = (Throw ACCOUNT_DEACTIVATED, w_alice_off) /\
  login env0 "a@x.com" "Wrong123" w_alice_off = (Throw ACCOUNT_DEACTIVATED, w_alice_off).
Proof.
  split; [reflexivity|]. split; [reflexivity|]. split.
  - apply (@login_deactivated_any_password _ env0 "a@x.com" "Abcdefg1" w_alice_off
             (alice false)); reflexivity.
  - apply (@login_deactivated_any_password _ env0 "a@x.com" "Wrong123" w_alice_off
             (alice false)); reflexivity.
Defined.

Lemma login_success_alice :
  run (prisma_admin_findUnique_email "a@x.com") w_session = Ok (Some (alice true)) /\
  adm_isActive (alice true) = true /\
  comparePassword "Abcdefg1" (adm_passwordHash (alice true)) = true /\
  exists response date,
    run (login env0 "a@x.com" "Abcdefg1") w_session = Ok response /\
    ar_id (lr_admin response) = adm_id (alice true) /\
    ar_name (lr_admin response) = adm_name (alice true) /\
    ar_email (lr_admin response) = adm_email (alice true) /\
    run (issue env0 KAdmin (adm_id (alice true))) w_session = Ok (lr_token response) /\
    lr_expiresAt response
      = clock w_session (1 + ticks w_session) + JWT_EXPIRES_HOURS env0 * 3600000 /\
    db (exec (login env0 "a@x.com" "Abcdefg1") w_session)
    = stamped (db w_session) (admins (db w_session)) (adm_id (alice true)) date.
Proof.
  split; [reflexivity|]. split; [reflexivity|]. split; [reflexivity|].
  apply (@login_success _ env0 "a@x.com" "Abcdefg1" w_session (alice true)); reflexivity.
Defined.

Lemma login_token_passes_guard_alice :
  run (prisma_admin_findUnique_email "a@x.com") w_session = Ok (Some (alice true)) /\
  run (prisma_admin_findUnique_id (Some (adm_id (alice true)))) w_session
    = Ok (Some (alice true)) /\
  run (login env0 "a@x.com" "Abcdefg1") w_session = Ok alice_session_login /\
  extractToken (with_token (lr_token alice_session_login)) = Some (lr_token alice_session_login) /\
  now (exec (login env0 "a@x.com" "Abcdefg1") w_session) / 1000
    < now w_session / 1000 + JWT_EXPIRES_HOURS env0 * 3600 /\
  exists attached,
    run (authenticateAdmin env0 (with_token (lr_token alice_session_login)))
        (exec (login env0 "a@x.com" "Abcdefg1") w_session)
    = Ok (NextOk (attach_admin (with_token (lr_token alice_session_login)) attached)) /\
    ar_id attached = adm_id (alice true) /\
    ar_email attached = adm_email (alice true) /\
    ar_isActive attached = true.
Proof.
  split; [reflexivity|]. split; [reflexivity|]. split; [reflexivity|].
  split; [reflexivity|]. split; [reflexivity|].
  apply (@login_token_passes_guard _ env0 "a@x.com" "Abcdefg1" w_session (alice true)
           alice_session_login (with_token (lr_token alice_session_login))
           (exec (login env0 "a@x.com" "Abcdefg1") w_session)); reflexivity.
Defined.


(** The length test counts UTF-16 code units: a password of eight bytes
    and seven code units is refused. *)
Lemma register_counts_code_units :
  String.length diaeresis_password = 8%nat /\
  js_length diaeresis_password = 7%nat /\
  register env0 2 "Bob" "b@x.com" diaeresis_password w_session
    = (Throw WEAK_PASSWORD, w_session).
Proof. repeat split. Qed.

Lemma register_then_login_bob :
  run (prisma_admin_findUnique_email "b@x.com") w_session = Ok None /\
  (8 <= js_length "Bobpass12")%nat /\
  bcrypt_compare "Bobpass12" (bcrypt_hash "Bobpass12" (BCRYPT_ROUNDS env0)) = true /\
  exists registered logged,
    run (register env0 2 "Bob" "b@x.com" "Bobpass12") w_session = Ok registered /\
    ar_id (lr_admin registered) = 2 /\
    ar_isActive (lr_admin registered) = true /\
    run (login env0 "b@x.com" "Bobpass12")
        (exec (register env0 2 "Bob" "b@x.com" "Bobpass12") w_session) = Ok logged /\
    ar_id (lr_admin logged) = 2 /\
    ar_email (lr_admin logged) = "b@x.com".
Proof.
  split; [reflexivity|]. split; [simpl; lia|]. split; [reflexivity|].
  apply (@register_then_login _ env0 2 "Bob" "b@x.com" "Bobpass12" w_session
           (exec (register env0 2 "Bob" "b@x.com" "Bobpass12") w_session));
    [reflexivity | simpl; lia | reflexivity | reflexivity].
Defined.

Lemma AuthController_login_sets_session_alice :
  run (login env0 "a@x.com" "Wrong123") w_session = Throw INVALID_CREDENTIALS /\
  AuthController_login env0 true "a@x.com" "Wrong123" logout_request w_session
    = (Ok (Forwarded INVALID_CREDENTIALS),
       exec (login env0 "a@x.com" "Wrong123") w_session) /\
  run (prisma_admin_findUnique_email "a@x.com") w_session = Ok (Some (alice true)) /\
  adm_isActive (alice true) = true /\
  comparePassword "Abcdefg1" (adm_passwordHash (alice true)) = true /\
  meta_fits (mkMeta (req_user_agent bare_request) (req_ip bare_request)) = true /\
  (exists response accessToken row,
     run (AuthController_login env0 true "a@x.com" "Abcdefg1" bare_request) w_session
     = Ok (Sent 200
             [mkResCookie "access_token" accessToken true true "lax" "/" 900000;
              mkResCookie "refresh_token" (entropy w_session (draws w_session)) true true
                "lax" "/" 604800000]
             [] response) /\
     run (login env0 "a@x.com" "Abcdefg1") w_session = Ok response /\
     accessToken = jws_encode (JWT_SECRET env0)
                     (payload_of KAdmin (adm_id (alice true))
                        (clock w_session (6 + ticks w_session) / 1000)
                        (JWT_EXPIRES_HOURS env0)) /\
     run (findRefreshTokenByPlain (entropy w_session (draws w_session)))
         (exec (AuthController_login env0 true "a@x.com" "Abcdefg1" bare_request) w_session)
     = Ok (Some row) /\
     rt_adminId row = Some (adm_id (alice true)) /\ rt_customerId row = None /\
     rt_revokedAt row = None) /\
  meta_fits (mkMeta (req_user_agent long_agent_request) (req_ip long_agent_request))
    = false /\
  run (AuthController_login env0 true "a@x.com" "Abcdefg1" long_agent_request) w_session
    = Ok (Forwarded (LibErr "PrismaClientKnownRequestError")) /\
  db (exec (AuthController_login env0 true "a@x.com" "Abcdefg1" long_agent_request)
        w_session)
    = db (exec (login env0 "a@x.com" "Abcdefg1") w_session).
Proof.
  split; [reflexivity|]. split.
  { apply (proj1 (AuthController_login_sets_session env0 true "a@x.com" "Wrong123"
                    logout_request w_session)).
    reflexivity. }
  split; [reflexivity|]. split; [reflexivity|]. split; [reflexivity|].
  split; [reflexivity|]. split.
  { apply (proj1 (proj2 (AuthController_login_sets_session env0 true "a@x.com" "Abcdefg1"
                           bare_request w_session)) (alice true));
      [reflexivity | reflexivity | reflexivity | reflexivity | exact entropy_fresh_session]. }
  split; [reflexivity|].
  apply (proj2 (proj2 (AuthController_login_sets_session env0 true "a@x.com" "Abcdefg1"
                         long_agent_request w_session)) (alice true)); reflexivity.
Defined.

Lemma logout_ends_session_live :
  cookie "refresh_token" (req_cookies logout_request) = Some "tok1" /\
  truthy "tok1" = true /\
  run (findRefreshTokenByPlain "tok1") w_live = Ok (Some (record 1 "tok1" None None)) /\
  truthy (rt_familyId (record 1 "tok1" None None)) = true /\
  (exists body,
     run (AuthController_logout logout_request) w_live
     = Ok (Sent 200 [] ["access_token"; "refresh_token"] body)) /\
  (forall r, In r (refreshTokens (db (exec (AuthController_logout logout_request) w_live))) ->
     rt_familyId r = rt_familyId (record 1 "tok1" None None) -> rt_revokedAt r <> None) /\
  (forall meta, run (rotateRefreshToken "tok1" meta)
                  (exec (AuthController_logout logout_request) w_live)
                = Throw REFRESH_REUSE).
Proof.
  split; [reflexivity|]. split; [reflexivity|]. split; [reflexivity|].
  split; [reflexivity|].
  apply (@logout_ends_session _ logout_request "tok1" (record 1 "tok1" None None) w_live);
    [reflexivity | reflexivity | reflexivity | reflexivity | left; reflexivity].
Defined.

Lemma logout_always_answers_bare :
  cookie "refresh_token" (req_cookies bare_request) = None /\
  (exists body,
     run (AuthController_logout bare_request) w_live
     = Ok (Sent 200 [] ["access_token"; "refresh_token"] body)) /\
  run (customer_logout_route bare_request) w_live
    = Ok (Sent 200 [] ["access_token"; "refresh_token"] (mkLogoutBody "Logged out" None)) /\
  db (exec (AuthController_logout bare_request) w_live) = db w_live /\
  db (exec (customer_logout_route bare_request) w_live) = db w_live.
Proof.
  split; [reflexivity|].
  destruct (logout_always_answers bare_request w_live) as [Ha [Hc Hidle]].
  split; [exact Ha|]. split; [exact Hc|]. apply Hidle. exact I.
Defined.

Lemma customer_login_refusals_carol :
  run (prisma_customer_findUnique_email "nobody@x.com") w_live = Ok None /\
  customer_login_route env0 true "nobody@x.com" "Hijklmn2" bare_request w_live
    = (Ok (Forwarded INVALID_CREDENTIALS), w_live) /\
  run (prisma_customer_findUnique_email "c@x.com") w_live = Ok (Some (carol true)) /\
  cus_isActive (carol true) = true /\
  comparePassword "Wrong123" (cus_passwordHash (carol true)) = false /\
  customer_login_route env0 true "c@x.com" "Wrong123" bare_request w_live
    = (Ok (Forwarded INVALID_CREDENTIALS), w_live) /\
  run (prisma_customer_findUnique_email "c@x.com") w_carol_off = Ok (Some (carol false)) /\
  cus_isActive (carol false) = false /\
  customer_login_route env0 true "c@x.com" "Hijklmn2" bare_request w_carol_off
    = (Ok (Forwarded CUSTOMER_DEACTIVATED), w_carol_off).
Proof.
  split; [reflexivity|]. split.
  { apply (proj1 (customer_login_refusals env0 true "nobody@x.com" "Hijklmn2"
                    bare_request w_live)).
    reflexivity. }
  split; [reflexivity|]. split; [reflexivity|]. split; [reflexivity|]. split.
  { apply (proj2 (proj2 (customer_login_refusals env0 true "c@x.com" "Wrong123"
                           bare_request w_live) (carol true) eq_refl));
      reflexivity. }
  split; [reflexivity|]. split; [reflexivity|].
  apply (proj1 (proj2 (customer_login_refusals env0 true "c@x.com" "Hijklmn2"
                         bare_request w_carol_off) (carol false) eq_refl)).
  reflexivity.
Defined.

Lemma customer_login_then_profile_carol :
  run (prisma_customer_findUnique_email "c@x.com") w_session = Ok (Some (carol true)) /\
  run (prisma_customer_findUnique_id (Some (cus_id (carol true)))) w_session
    = Ok (Some (carol true)) /\
  cus_isActive (carol true) = true /\
  comparePassword "Hijklmn2" (cus_passwordHash (carol true)) = true /\
  meta_fits (mkMeta (req_user_agent bare_request) (req_ip bare_request)) = true /\
  exists session refreshCookie,
    run (customer_login_route env0 true "c@x.com" "Hijklmn2" bare_request) w_session
    = Ok (Sent 200
            [mkResCookie "access_token" (cs_token session) true true "lax" "/" 900000;
             refreshCookie]
            [] session) /\
    run (issue env0 KCustomer (cus_id (carol true))) w_session = Ok (cs_token session) /\
    cr_id (cs_customer session) = cus_id (carol true) /\
    forall req1 w1,
      extractToken req1 = Some (cs_token session) ->
      db w1 = db (exec (customer_login_route env0 true "c@x.com" "Hijklmn2" bare_request)
                    w_session) ->
      now w1 / 1000 < now w_session / 1000 + JWT_EXPIRES_HOURS env0 * 3600 ->
      exists profile,
        run (customer_profile_route env0 req1) w1 = Ok (Sent 200 [] [] (Some profile)) /\
        cr_id profile = cus_id (carol true) /\
        cr_email profile = cus_email (carol true).
Proof.
  split; [reflexivity|]. split; [reflexivity|]. split; [reflexivity|].
  split; [reflexivity|]. split; [reflexivity|].
  apply (@customer_login_then_profile _ env0 true "c@x.com" "Hijklmn2" bare_request
           w_session (carol true)); reflexivity.
Defined.
